(** * Vehicle component documents: wipe, migration, firmware queries, save

    A shallow embedding of the component-document engine of the ArduPilot
    methodic configurator:

    - [backend_filesystem_vehicle_components.py] (class [VehicleComponents]):
      [_recursively_clear_dict], [wipe_component_info],
      [get_fc_fw_type_from_vehicle_components_json],
      [get_fc_fw_version_from_vehicle_components_json], [supported_vehicles],
      [validate_vehicle_components], [save_vehicle_components_json_data];
    - [update_vehicle_templates.py]: [update_vehicle_components];
    - [frontend_tkinter_component_editor_base.py]: the write-back loop of
      [save_component_json].

    Conventions of the embedding.

    - A value read by [json.load] is a [json] tree.  A Python [dict] is an
      association list in insertion order; a Python dict holds at most one
      binding per key, which the operations below keep.
    - A Python [str] is a [string]; each [ascii] stands for one code point
      below 256.
    - A Python [float] is an IEEE-754 datum ([spec_float]); [0.0] is
      [S754_zero false].
    - Code that can raise returns a [result]: [Ok v] or [Raise e] with the
      class of the exception.  In-place mutation of a dict reached through
      another dict becomes the replacement of the binding at its position. *)

From Stdlib Require Import List String Ascii ZArith Bool Lia.
From Stdlib Require Import Floats.SpecFloat.
Import ListNotations.
Local Set Warnings "-register-all".
Local Open Scope string_scope.
Local Open Scope list_scope.

(* ================================================================== *)
(** ** Exceptions and the error monad *)

Module Py.

(** The exception classes the modelled code meets.  [OtherOSError] stands for
    any [OSError] that is none of the three named subclasses,
    [OtherException] for any other class derived from [Exception]. *)
Inductive exn_class : Type :=
| FileNotFoundError
| PermissionError
| IsADirectoryError
| OtherOSError
| TypeError
| ValueError
| KeyError
| IndexError
| AttributeError
| OtherException.

(** The classes an [except] clause can name in the modelled code. *)
Inductive handler_class : Type :=
| HFileNotFoundError
| HPermissionError
| HIsADirectoryError
| HOSError
| HTypeError
| HValueError
| HException.

(** [isinstance(e, H)] for an exception of class [c]: the three file errors
    derive from [OSError], and every class derives from [Exception]. *)
Definition isinstance_exn (c : exn_class) (h : handler_class) : bool :=
  match h, c with
  | HFileNotFoundError, FileNotFoundError => true
  | HPermissionError, PermissionError => true
  | HIsADirectoryError, IsADirectoryError => true
  | HOSError, (FileNotFoundError | PermissionError | IsADirectoryError | OtherOSError) => true
  | HTypeError, TypeError => true
  | HValueError, ValueError => true
  | HException, _ => true
  | _, _ => false
  end.

Inductive result (A : Type) : Type :=
| Ok (a : A)
| Raise (e : exn_class).

Arguments Ok {A} a.
Arguments Raise {A} e.

Definition bind {A B : Type} (m : result A) (k : A -> result B) : result B :=
  match m with
  | Ok a => k a
  | Raise e => Raise e
  end.

End Py.

Import Py.

Notation "x <- m ;; k" := (bind m (fun x => k))
  (at level 61, m at next level, right associativity).

(* ================================================================== *)
(** ** Documents *)

Definition pyfloat := spec_float.

Definition float_zero : pyfloat := S754_zero false.

Inductive json : Type :=
| JNull
| JBool (b : bool)
| JInt (z : Z)
| JFloat (f : pyfloat)
| JStr (s : string)
| JList (l : list json)
| JDict (items : list (string * json)).

Definition dict := list (string * json).

(** Structural induction that reaches the values bound inside a [JDict]. *)
Section JsonInd.
Variable P : json -> Prop.
Hypothesis Hnull : P JNull.
Hypothesis Hbool : forall b, P (JBool b).
Hypothesis Hint : forall z, P (JInt z).
Hypothesis Hfloat : forall f, P (JFloat f).
Hypothesis Hstr : forall s, P (JStr s).
Hypothesis Hlist : forall l, Forall P l -> P (JList l).
Hypothesis Hdict : forall items, Forall (fun kv => P (snd kv)) items -> P (JDict items).

Fixpoint json_nested_ind (j : json) : P j :=
    match j with
    | JNull => Hnull
    | JBool b => Hbool b
    | JInt z => Hint z
    | JFloat f => Hfloat f
    | JStr s => Hstr s
    | JList l =>
        Hlist l
          ((fix go (l : list json) : Forall P l :=
              match l with
              | [] => Forall_nil P
              | x :: r => Forall_cons x (json_nested_ind x) (go r)
              end) l)
    | JDict items =>
        Hdict items
          ((fix go (l : dict) : Forall (fun kv => P (snd kv)) l :=
              match l with
              | [] => Forall_nil _
              | kv :: r => Forall_cons kv (json_nested_ind (snd kv)) (go r)
              end) items)
    end.
End JsonInd.

(* ================================================================== *)
(** ** Python dictionaries as association lists *)

(** [d.get(k)] / [d[k]]: the value bound to [k]. *)
Fixpoint dict_get (k : string) (d : dict) : option json :=
  match d with
  | [] => None
  | (k', v) :: r => if String.eqb k k' then Some v else dict_get k r
  end.

(** [k in d]. *)
Definition dict_mem (k : string) (d : dict) : bool :=
  match dict_get k d with Some _ => true | None => false end.

(** [d[k] = v]: an existing key keeps its position, a new key goes last. *)
Fixpoint dict_set (k : string) (v : json) (d : dict) : dict :=
  match d with
  | [] => [(k, v)]
  | (k', v') :: r =>
      if String.eqb k k' then (k', v) :: r else (k', v') :: dict_set k v r
  end.

(** The dict left by [d.pop(k)]: the binding of [k] is gone. *)
Fixpoint dict_remove (k : string) (d : dict) : dict :=
  match d with
  | [] => []
  | (k', v') :: r =>
      if String.eqb k k' then dict_remove k r else (k', v') :: dict_remove k r
  end.

(* ================================================================== *)
(** ** Python operations on loaded values *)

(** [isinstance(value, T)].  In Python [bool] is a subclass of [int], so a
    boolean is an instance of [int] too. *)
Definition isinstance_dict (v : json) : bool :=
  match v with JDict _ => true | _ => false end.
Definition isinstance_list (v : json) : bool :=
  match v with JList _ => true | _ => false end.
Definition isinstance_int (v : json) : bool :=
  match v with JInt _ | JBool _ => true | _ => false end.
Definition isinstance_float (v : json) : bool :=
  match v with JFloat _ => true | _ => false end.
Definition isinstance_bool (v : json) : bool :=
  match v with JBool _ => true | _ => false end.
Definition isinstance_str (v : json) : bool :=
  match v with JStr _ => true | _ => false end.

(** Truth value of an object ([if x:], [not x], [x and y]). *)
Definition py_truthy (v : json) : bool :=
  match v with
  | JNull => false
  | JBool b => b
  | JInt z => negb (Z.eqb z 0)
  | JFloat (S754_zero _) => false
  | JFloat _ => true
  | JStr s => negb (String.eqb s "")
  | JList l => match l with [] => false | _ => true end
  | JDict d => match d with [] => false | _ => true end
  end.

(** [needle in hay] on two strings: substring test. *)
Fixpoint str_contains (needle hay : string) : bool :=
  if String.prefix needle hay then true
  else match hay with
       | EmptyString => false
       | String _ r => str_contains needle r
       end.

(** [v == s] for a string [s]: only a string equals a string. *)
Definition json_eq_str (v : json) (s : string) : bool :=
  match v with JStr t => String.eqb t s | _ => false end.

(** [k in x] for a string [k]: key membership in a dict, element membership
    in a list, substring test in a string, [TypeError] otherwise. *)
Definition py_in (k : string) (x : json) : result bool :=
  match x with
  | JDict d => Ok (dict_mem k d)
  | JList l => Ok (existsb (fun e => json_eq_str e k) l)
  | JStr s => Ok (str_contains k s)
  | _ => Raise TypeError
  end.

(** [x[k]] for a string [k]. *)
Definition py_getitem (x : json) (k : string) : result json :=
  match x with
  | JDict d => match dict_get k d with Some v => Ok v | None => Raise KeyError end
  | _ => Raise TypeError
  end.

(** [x[k] = v] for a string [k]; the result is the object after the store. *)
Definition py_setitem (x : json) (k : string) (v : json) : result json :=
  match x with
  | JDict d => Ok (JDict (dict_set k v d))
  | _ => Raise TypeError
  end.

(** [x.pop(k)]: the value removed and the object after the removal. *)
Definition py_pop (x : json) (k : string) : result (json * json) :=
  match x with
  | JDict d =>
      match dict_get k d with
      | Some v => Ok (v, JDict (dict_remove k d))
      | None => Raise KeyError
      end
  | JList _ => Raise TypeError
  | _ => Raise AttributeError
  end.

(** [x.get(k, default)]: only a dict has the method. *)
Definition py_get (x : json) (k : string) (default : json) : result json :=
  match x with
  | JDict d => Ok (match dict_get k d with Some v => v | None => default end)
  | _ => Raise AttributeError
  end.

(** [x[p1][p2]...[pn]]. *)
Fixpoint getitem_path (x : json) (p : list string) : result json :=
  match p with
  | [] => Ok x
  | k :: r => sub <- py_getitem x k ;; getitem_path sub r
  end.

(** [x[p1]...[pn][k] = v].  The dict reached by [x[p1]...[pn]] is mutated in
    place; seen from [x], the binding of [p1] now holds the mutated object,
    at the position it had. *)
Fixpoint setitem_path (x : json) (p : list string) (k : string) (v : json)
  : result json :=
  match p with
  | [] => py_setitem x k v
  | k0 :: r =>
      sub <- py_getitem x k0 ;;
      sub' <- setitem_path sub r k v ;;
      py_setitem x k0 sub'
  end.

(** [k in x[p1]...[pn]]. *)
Definition contains_at (x : json) (p : list string) (k : string) : result bool :=
  c <- getitem_path x p ;; py_in k c.

(* ------------------------------------------------------------------ *)
(** *** Strings *)

(** [str.isspace] on the code points below 256: TAB..CR, FS..US, space,
    NEL and NBSP. *)
Definition py_isspace (c : ascii) : bool :=
  let n := nat_of_ascii c in
  (((9 <=? n) && (n <=? 13)) || ((28 <=? n) && (n <=? 32))
   || (n =? 133) || (n =? 160))%nat.

(** [s.lstrip()]. *)
Fixpoint py_lstrip (s : string) : string :=
  match s with
  | String c r => if py_isspace c then py_lstrip r else s
  | EmptyString => s
  end.

Fixpoint string_rev_onto (s acc : string) : string :=
  match s with
  | EmptyString => acc
  | String c r => string_rev_onto r (String c acc)
  end.

Definition string_rev (s : string) : string := string_rev_onto s "".

(** [s.rstrip()] and [s.strip()]. *)
Definition py_rstrip (s : string) : string :=
  string_rev (py_lstrip (string_rev s)).

Definition py_strip (s : string) : string := py_rstrip (py_lstrip s).

(** [s.split(sep)] for a one-character separator: the fields between the
    occurrences of [sep]; never empty. *)
Fixpoint py_split (sep : ascii) (s : string) : list string :=
  match s with
  | EmptyString => [""]
  | String c r =>
      if Ascii.eqb c sep then "" :: py_split sep r
      else match py_split sep r with
           | f :: fs => String c f :: fs
           | [] => [String c ""]
           end
  end.

(** [template.format(a1, ..., an)] for a template whose fields are all
    written [{}]; the templates of this file are given as many arguments as
    they have fields. *)
Fixpoint py_format (template : string) (args : list string) : string :=
  match template with
  | EmptyString => ""
  | String c r =>
      match c, r, args with
      | "{"%char, String "}"%char r', a :: args' => a ++ py_format r' args'
      | _, _, _ => String c (py_format r args)
      end
  end.

(** [\d] on the code points below 256: the ten ASCII digits. *)
Definition is_digit (c : ascii) : bool :=
  let n := nat_of_ascii c in ((48 <=? n) && (n <=? 57))%nat.

(** The longest run of digits is skipped ([\d*], greedy). *)
Fixpoint skip_digits (s : string) : string :=
  match s with
  | String c r => if is_digit c then skip_digits r else s
  | EmptyString => s
  end.

(** [\d+]: at least one digit; what follows the run. *)
Definition re_digits1 (s : string) : option string :=
  match s with
  | String c r => if is_digit c then Some (skip_digits r) else None
  | EmptyString => None
  end.

(** A literal character. *)
Definition re_char (c : ascii) (s : string) : option string :=
  match s with
  | String c' r => if Ascii.eqb c' c then Some r else None
  | EmptyString => None
  end.

(** [$] without [re.MULTILINE]: at the end of the string, or just before a
    newline that ends the string. *)
Definition re_at_end (s : string) : bool :=
  match s with
  | EmptyString => true
  | String c EmptyString => Ascii.eqb c "010"%char
  | _ => false
  end.

(** [re.match(r"^\d+\.\d+\.\d+$", s)] as a truth value.  Each [\d+] is
    followed by a literal dot or by [$], and neither matches at a digit, so
    the greedy run is the only one that can lead to a match. *)
Definition re_match_version (s : string) : bool :=
  match re_digits1 s with
  | None => false
  | Some r1 =>
      match re_char "."%char r1 with
      | None => false
      | Some r2 =>
          match re_digits1 r2 with
          | None => false
          | Some r3 =>
              match re_char "."%char r3 with
              | None => false
              | Some r4 =>
                  match re_digits1 r4 with
                  | None => false
                  | Some r5 => re_at_end r5
                  end
              end
          end
      end
  end.

(* ================================================================== *)
(** ** [VehicleComponents]: wiping a document *)

(** [_recursively_clear_dict(data)].  The loop visits every item of the dict
    and stores the cleared value under the key it already has, so the
    bindings keep their keys and their order.  A dict value is cleared in
    place by the recursive call.  The [elif] chain is the source's, in the
    source's order. *)
Fixpoint _recursively_clear_dict (data : json) : json :=
  match data with
  | JDict items =>
      JDict
        ((fix loop (l : dict) : dict :=
            match l with
            | [] => []
            | (key, value) :: r =>
                (key,
                 if isinstance_dict value then _recursively_clear_dict value
                 else if isinstance_list value then JList []
                 else if isinstance_int value || isinstance_float value then
                   (if isinstance_int value then JInt 0 else JFloat float_zero)
                 else if isinstance_bool value then JBool false
                 else (if isinstance_str value then JStr "" else JNull))
                :: loop r
            end) items)
  | _ => data
  end.

(** [wipe_component_info]: [self.vehicle_components] after the call; [JNull]
    is Python's [None]. *)
Definition wipe_component_info (vehicle_components : json) : json :=
  match vehicle_components with
  | JNull => JNull
  | _ => _recursively_clear_dict vehicle_components
  end.

(** What one turn of the clearing loop stores for [value]. *)
Definition cleared (value : json) : json :=
  if isinstance_dict value then _recursively_clear_dict value
  else if isinstance_list value then JList []
  else if isinstance_int value || isinstance_float value then
    (if isinstance_int value then JInt 0 else JFloat float_zero)
  else if isinstance_bool value then JBool false
  else (if isinstance_str value then JStr "" else JNull).

(** Vocabulary, in the words of the specification: the type-appropriate
    default of a leaf.  A sequence becomes the empty sequence, an integer
    [0], a floating-point number [0.0], a boolean [false], a string the
    empty string, any other scalar the null marker.  A mapping is no leaf
    and has no default. *)
Definition type_default (value : json) : json :=
  match value with
  | JList _ => JList []
  | JBool _ => JBool false
  | JInt _ => JInt 0
  | JFloat _ => JFloat float_zero
  | JStr _ => JStr ""
  | JNull => JNull
  | JDict _ => value
  end.

(* ================================================================== *)
(** ** [VehicleComponents]: firmware queries *)

Definition supported_vehicles : list string :=
  ["AP_Periph"; "AntennaTracker"; "ArduCopter"; "ArduPlane"; "ArduSub";
   "Blimp"; "Heli"; "Rover"; "SITL"].

(** [v in self.supported_vehicles()]: equality with one of the names. *)
Definition in_supported_vehicles (v : json) : bool :=
  existsb (json_eq_str v) supported_vehicles.

(** The first four lines of both queries: [components] is
    [self.vehicle_components["Components"]] or [None]. *)
Definition components_or_none (vehicle_components : json) : result json :=
  if py_truthy vehicle_components then
    b <- py_in "Components" vehicle_components ;;
    if b then py_getitem vehicle_components "Components" else Ok JNull
  else Ok JNull.

Definition get_fc_fw_type_from_vehicle_components_json
  (vehicle_components : json) : result json :=
  components <- components_or_none vehicle_components ;;
  if py_truthy components then
    fc <- py_get components "Flight Controller" (JDict []) ;;
    fw <- py_get fc "Firmware" (JDict []) ;;
    fw_type <- py_get fw "Type" (JStr "") ;;
    if in_supported_vehicles fw_type then Ok fw_type
    else Ok (JStr "")
  else Ok (JStr "").

(** [version_str.lstrip().split(" ")[0]]: the methods exist on a [str]
    only. *)
Definition first_token (version_str : json) : result string :=
  match version_str with
  | JStr s =>
      match py_split " "%char (py_lstrip s) with
      | tok :: _ => Ok tok
      | [] => Raise IndexError
      end
  | _ => Raise AttributeError
  end.

Definition get_fc_fw_version_from_vehicle_components_json
  (vehicle_components : json) : result json :=
  components <- components_or_none vehicle_components ;;
  if py_truthy components then
    fc <- py_get components "Flight Controller" (JDict []) ;;
    fw <- py_get fc "Firmware" (JDict []) ;;
    version_str <- py_get fw "Version" (JStr "") ;;
    version_str <- (if py_truthy version_str then first_token version_str
                    else Ok "") ;;
    if re_match_version version_str then Ok (JStr version_str)
    else Ok (JStr "")
  else Ok (JStr "").

(* ================================================================== *)
(** ** [update_vehicle_templates.py]: the migration pass *)

(** [if k not in data[p1]...[pn]: data[p1]...[pn][k] = v]. *)
Definition ensure_at (p : list string) (k : string) (v : json) (data : json)
  : result json :=
  b <- contains_at data p k ;;
  if negb b then setitem_path data p k v else Ok data.

(** [if "GNSS receiver" in data["Components"]:
       data["Components"]["GNSS Receiver"] = data["Components"].pop("GNSS receiver")].
    The right-hand side is evaluated first, so the store goes into the dict
    the pop has already changed. *)
Definition rename_gnss (data : json) : result json :=
  b <- contains_at data ["Components"] "GNSS receiver" ;;
  if b then
    components <- py_getitem data "Components" ;;
    popped <- py_pop components "GNSS receiver" ;;
    components <- py_setitem (snd popped) "GNSS Receiver" (fst popped) ;;
    py_setitem data "Components" components
  else Ok data.

(** [if "Specifications" not in data["Components"]["Flight Controller"]:
       data["Components"]["Flight Controller"] = {"Product": ..., ...}]. *)
Definition rebuild_flight_controller (data : json) : result json :=
  b <- contains_at data ["Components"; "Flight Controller"] "Specifications" ;;
  if negb b then
    product <- getitem_path data ["Components"; "Flight Controller"; "Product"] ;;
    firmware <- getitem_path data ["Components"; "Flight Controller"; "Firmware"] ;;
    notes <- getitem_path data ["Components"; "Flight Controller"; "Notes"] ;;
    setitem_path data ["Components"] "Flight Controller"
      (JDict [("Product", product);
              ("Firmware", firmware);
              ("Specifications", JDict [("MCU Series", JStr "Unknown")]);
              ("Notes", notes)])
  else Ok data.

(** [update_vehicle_components(data)].  [version] is the package's
    [__version__], a constant declared outside the files modelled here. *)
Definition update_vehicle_components (version : string) (data : json)
  : result json :=
  if negb (py_truthy data) then Ok (JDict [])
  else
    data <- ensure_at [] "Components" (JDict []) data ;;
    data <- ensure_at ["Components"] "Battery" (JDict []) data ;;
    data <- ensure_at ["Components"; "Battery"] "Specifications" (JDict []) data ;;
    data <- ensure_at ["Components"; "Battery"; "Specifications"]
              "Chemistry" (JStr "Lipo") data ;;
    data <- ensure_at ["Components"; "Battery"; "Specifications"]
              "Capacity mAh" (JInt 0) data ;;
    data <- ensure_at ["Components"] "Frame" (JDict []) data ;;
    data <- ensure_at ["Components"; "Frame"] "Specifications" (JDict []) data ;;
    data <- ensure_at ["Components"; "Frame"; "Specifications"]
              "TOW min Kg" (JInt 1) data ;;
    data <- ensure_at ["Components"; "Frame"; "Specifications"]
              "TOW max Kg" (JInt 1) data ;;
    data <- rename_gnss data ;;
    data <- py_setitem data "Program version" (JStr version) ;;
    data <- ensure_at ["Components"] "Flight Controller" (JDict []) data ;;
    data <- rebuild_flight_controller data ;;
    Ok data.

(* ================================================================== *)
(** ** [VehicleComponents]: validation and saving *)

(** Modelled from the spec: [_], the translation lookup the package declares
    outside the files modelled here.  The spec keeps internationalization
    string lookup out of the core; the messages are those of the
    untranslated catalogue, where the lookup returns its argument. *)
Definition gettext (msgid : string) : string := msgid.

Definition vehicle_components_json_filename : string := "vehicle_components.json".

(** An exception object as the handlers use it: its class and [str(e)]. *)
Record py_exception : Type := mk_exception {
  exc_class : exn_class;
  exc_str : string
}.

(** What reading and decoding the schema file does: the parsed value, a
    [JSONDecodeError], or the exception that [open] or the read raised. *)
Inductive schema_file : Type :=
| SchemaParsed (schema : json)
| SchemaDecodeError
| SchemaReadRaises (e : exn_class).

(** [load_schema], as the value it returns: the cached [self.schema] when it
    is set; otherwise the file's content, or [{}] after a
    [FileNotFoundError] or a [JSONDecodeError].  Any other exception has
    no handler. *)
Definition load_schema (cached : option json) (file : schema_file) : result json :=
  match cached with
  | Some schema => Ok schema
  | None =>
      match file with
      | SchemaParsed schema => Ok schema
      | SchemaDecodeError => Ok (JDict [])
      | SchemaReadRaises e =>
          if isinstance_exn e HFileNotFoundError then Ok (JDict [])
          else Raise e
      end
  end.

(** What [jsonschema.validate(instance, schema)] does: it returns, raises
    [ValidationError] with a message, or raises something else (a
    [SchemaError] for a schema that is not a JSON Schema). *)
Inductive validation : Type :=
| Conforms
| ValidationError (message : string)
| ValidatorRaises (e : exn_class).

Section Validation.
  (** The validator of the [jsonschema] library. *)
Variable jsonschema_validate : json -> json -> validation.

Definition validate_vehicle_components
    (cached : option json) (file : schema_file) (data : json)
    : result (bool * string) :=
    schema <- load_schema cached file ;;
    if negb (py_truthy schema) then
      Ok (false, gettext "Could not load validation schema")
    else
      match jsonschema_validate data schema with
      | Conforms => Ok (true, "")
      | ValidationError message =>
          Ok (false, (gettext "Validation error" ++ ": " ++ message)%string)
      | ValidatorRaises e => Raise e
      end.
End Validation.

Section Saving.
  (** [os.path.join] of the platform. *)
Variable os_path_join : string -> string -> string.
  (** The guarded block, [open(filepath, "w", ...)] followed by
      [json_dump(data, file, indent=4)]: [None] when it completes, the
      exception otherwise. *)
Variable write_json : string -> json -> option py_exception.

Definition save_vehicle_components_json_data (data : json) (vehicle_dir : string)
    : result (bool * string) :=
    let filepath := os_path_join vehicle_dir vehicle_components_json_filename in
    match write_json filepath data with
    | None => Ok (false, "")
    | Some e =>
        if isinstance_exn (exc_class e) HFileNotFoundError then
          Ok (true, py_format (gettext "Directory '{}' not found") [vehicle_dir])
        else if isinstance_exn (exc_class e) HPermissionError then
          Ok (true, py_format (gettext "Permission denied when writing to file '{}'")
                      [filepath])
        else if isinstance_exn (exc_class e) HIsADirectoryError then
          Ok (true, py_format (gettext "Path '{}' is a directory, not a file")
                      [filepath])
        else if isinstance_exn (exc_class e) HOSError then
          Ok (true, py_format (gettext "OS error when writing to file '{}': {}")
                      [filepath; exc_str e])
        else if isinstance_exn (exc_class e) HTypeError then
          Ok (true, py_format (gettext "Type error when serializing data to JSON: {}")
                      [exc_str e])
        else if isinstance_exn (exc_class e) HValueError then
          Ok (true, py_format (gettext "Value error when serializing data to JSON: {}")
                      [exc_str e])
        else if isinstance_exn (exc_class e) HException then
          Ok (true, py_format (gettext "Unexpected error saving data to file '{}': {}")
                      [filepath; exc_str e])
        else Raise (exc_class e)
    end.
End Saving.

(** The handler that takes an exception of class [c]: the first [except]
    clause, in the order of the source, whose class [c] derives from. *)
Definition first_handler (c : exn_class) : handler_class :=
  if isinstance_exn c HFileNotFoundError then HFileNotFoundError
  else if isinstance_exn c HPermissionError then HPermissionError
  else if isinstance_exn c HIsADirectoryError then HIsADirectoryError
  else if isinstance_exn c HOSError then HOSError
  else if isinstance_exn c HTypeError then HTypeError
  else if isinstance_exn c HValueError then HValueError
  else HException.

(* ================================================================== *)
(** ** [ComponentEditorWindowBase.save_component_json]: the write-back loop *)

(** An item of [self.entry_widgets]: the path tuple and the text the entry
    widget returns from [entry.get()]. *)
Definition entry : Type := list string * string.

Section WriteBack.
  (** [int(s)] and [float(s)] of the interpreter: [None] when the call
      raises [ValueError]. *)
Variable py_int : string -> option Z.
Variable py_float : string -> option pyfloat.

  (** The [if path[-1] != "Version": try ... except ValueError ...] block:
      the value that is stored for the text [value]. *)
Definition converted_value (last_key : string) (value : string) : json :=
    if negb (String.eqb last_key "Version") then
      match py_int value with
      | Some n => JInt n
      | None =>
          match py_float value with
          | Some x => JFloat x
          | None => JStr (py_strip value)
          end
      end
    else JStr value.

  (** One turn of the loop on [self.data].  [path[:-1]] is walked from
      [self.data["Components"]]; [path[-1]] raises [IndexError] on the empty
      tuple. *)
Definition store_entry (data : json) (e : entry) : result json :=
    let '(path, value) := e in
    components <- py_getitem data "Components" ;;
    _ <- getitem_path components (removelast path) ;;
    match last path "" , path with
    | _, [] => Raise IndexError
    | last_key, _ =>
        components <- setitem_path components (removelast path) last_key
                        (converted_value last_key value) ;;
        py_setitem data "Components" components
    end.

  (** The whole loop, in the order of [self.entry_widgets.items()]. *)
Fixpoint save_component_json_loop (entries : list entry) (data : json)
    : result json :=
    match entries with
    | [] => Ok data
    | e :: r => data <- store_entry data e ;; save_component_json_loop r data
    end.
End WriteBack.

(* ================================================================== *)
(** ** Key paths of a document *)

(** The value at a key path, through mappings only. *)
Fixpoint lookup (x : json) (p : list string) : option json :=
  match p with
  | [] => Some x
  | k :: r =>
      match x with
      | JDict d =>
          match dict_get k d with
          | Some v => lookup v r
          | None => None
          end
      | _ => None
      end
  end.

(** How a key path resolves: to a value, to nothing because a mapping on the
    way lacks the next key, or not at all because a value on the way is not
    a mapping. *)
Inductive resolution : Type :=
| Found (v : json)
| Missing
| NotMapping.

Fixpoint resolve (x : json) (p : list string) : resolution :=
  match p with
  | [] => Found x
  | k :: r =>
      match x with
      | JDict d =>
          match dict_get k d with
          | Some v => resolve v r
          | None => Missing
          end
      | _ => NotMapping
      end
  end.

(** [p] is a prefix of [q]. *)
Fixpoint is_prefix (p q : list string) : bool :=
  match p, q with
  | [], _ => true
  | a :: p', b :: q' => String.eqb a b && is_prefix p' q'
  | _ :: _, [] => false
  end.

(** The key structure of a document: the tree of its mapping keys, in
    order; any value that is not a mapping is a leaf. *)
Inductive shape : Type :=
| Leaf
| Node (children : list (string * shape)).

Fixpoint shape_of (x : json) : shape :=
  match x with
  | JDict items =>
      Node ((fix go (l : dict) : list (string * shape) :=
               match l with
               | [] => []
               | (k, v) :: r => (k, shape_of v) :: go r
               end) items)
  | _ => Leaf
  end.


(** The key paths of the two firmware fields and of the battery chemistry. *)
Definition firmware_type_path : list string :=
  ["Components"; "Flight Controller"; "Firmware"; "Type"].
Definition firmware_version_path : list string :=
  ["Components"; "Flight Controller"; "Firmware"; "Version"].
Definition chemistry_path : list string :=
  ["Components"; "Battery"; "Specifications"; "Chemistry"].

(** A document that holds [value] at a key path and nothing else. *)
Fixpoint document_with (p : list string) (value : json) : json :=
  match p with
  | [] => value
  | k :: r => JDict [(k, document_with r value)]
  end.

(** Spec-side vocabulary for the version query.  A number is a non-empty
    run of digits; a version triple is [major.minor.patch], and the pattern
    of the source also lets one newline follow it. *)
Fixpoint all_digits (s : string) : bool :=
  match s with
  | EmptyString => true
  | String c r => is_digit c && all_digits r
  end.

Definition is_number (s : string) : Prop :=
  all_digits s = true /\ s <> "".

Definition newline : string := String "010"%char "".

Definition is_version_triple (t : string) : Prop :=
  exists major minor patch,
    is_number major /\ is_number minor /\ is_number patch /\
    (t = (major ++ "." ++ minor ++ "." ++ patch)%string \/
     t = (major ++ "." ++ minor ++ "." ++ patch ++ newline)%string).

(** The first space-delimited field of the text, leading whitespace
    dropped. *)
Definition leading_token (s : string) : string :=
  hd "" (py_split " "%char (py_lstrip s)).

(** What the version query answers for the text [s] of the field. *)
Definition version_of_text (s : string) : string :=
  if re_match_version (leading_token s) then leading_token s else "".

(** Spec-side vocabulary for saving: the message of each failure cause. *)
Definition failure_message (cause : handler_class)
  (vehicle_dir filepath detail : string) : string :=
  match cause with
  | HFileNotFoundError => "Directory '" ++ vehicle_dir ++ "' not found"
  | HPermissionError => "Permission denied when writing to file '" ++ filepath ++ "'"
  | HIsADirectoryError => "Path '" ++ filepath ++ "' is a directory, not a file"
  | HOSError => "OS error when writing to file '" ++ filepath ++ "': " ++ detail
  | HTypeError => "Type error when serializing data to JSON: " ++ detail
  | HValueError => "Value error when serializing data to JSON: " ++ detail
  | HException =>
      "Unexpected error saving data to file '" ++ filepath ++ "': " ++ detail
  end%string.

(** Spec-side vocabulary for validation: the schema lists, under
    ["required"], a name that the document, a mapping, does not have. *)
Definition lacks_required_field (schema data : json) : bool :=
  match schema, data with
  | JDict s, JDict d =>
      match dict_get "required" s with
      | Some (JList names) =>
          existsb (fun name =>
                     match name with
                     | JStr k => negb (dict_mem k d)
                     | _ => false
                     end) names
      | _ => false
      end
  | _, _ => false
  end.

(** A validator that knows the keyword ["required"] only; it serves as a
    concrete instance of the library. *)
Definition required_only_validator (data schema : json) : validation :=
  if lacks_required_field schema data
  then ValidationError "a required property is missing"
  else Conforms.

(** Spec-side vocabulary for the write-back: the ordered fallback (integer
    parse, else float parse, else the stripped text) and the value expected
    at the path of an entry. *)
Definition ordered_fallback (py_int : string -> option Z)
  (py_float : string -> option pyfloat) (text : string) : json :=
  match py_int text with
  | Some n => JInt n
  | None =>
      match py_float text with
      | Some x => JFloat x
      | None => JStr (py_strip text)
      end
  end.

Definition expected_entry_value (py_int : string -> option Z)
  (py_float : string -> option pyfloat) (e : entry) : json :=
  if String.eqb (last (fst e) "") "Version" then JStr (snd e)
  else ordered_fallback py_int py_float (snd e).

(** Two key paths neither of which is a prefix of the other. *)
Definition incomparable (p q : list string) : Prop :=
  is_prefix p q = false /\ is_prefix q p = false.

(** The paths of the entries are pairwise incomparable. *)
Fixpoint pairwise_incomparable (entries : list entry) : Prop :=
  match entries with
  | [] => True
  | e :: r =>
      Forall (fun e' => incomparable (fst e) (fst e')) r
      /\ pairwise_incomparable r
  end.

(** A concrete instance of the two parsers, enough to run the loop on an
    example: [int] on plain runs of digits, and a [float] that accepts
    nothing. *)
Fixpoint digits_value (s : string) (acc : Z) : Z :=
  match s with
  | EmptyString => acc
  | String c r => digits_value r (10 * acc + Z.of_nat (nat_of_ascii c - 48))
  end.

Definition sample_int (s : string) : option Z :=
  if all_digits s && negb (String.eqb s "") then Some (digits_value s 0)
  else None.

Definition sample_float (s : string) : option pyfloat := None.

(* ================================================================== *)
(** ** Vocabulary for the migration properties *)

(** [x'] keeps the key paths of [x] outside the region [E]: such a path of
    [x] is a path of [x'], and it leads to the same value when that value
    is not a mapping. *)
Definition keeps (E : list string -> bool) (x x' : json) : Prop :=
  forall q w,
    E q = false -> lookup x q = Some w ->
    exists w', lookup x' q = Some w' /\ (isinstance_dict w = false -> w' = w).

Definition nowhere (q : list string) : bool := false.

(** The key path resolves in the document. *)
Definition has_path (x : json) (p : list string) : bool :=
  match lookup x p with Some _ => true | None => false end.

(** The region [E], seen from the mapping that holds it under the key
    [k]. *)
Definition under_key (k : string) (E : list string -> bool)
  (q : list string) : bool :=
  match q with
  | [] => false
  | a :: q' => String.eqb a k && E q'
  end.

(** The paths that start with one of the keys. *)
Definition starts_with (keys : list string) (q : list string) : bool :=
  match q with
  | [] => false
  | a :: _ => existsb (String.eqb a) keys
  end.

(** The paths that start with a key other than the given ones. *)
Definition starts_outside (keys : list string) (q : list string) : bool :=
  match q with
  | [] => false
  | a :: _ => negb (existsb (String.eqb a) keys)
  end.

(** The mapping the migration builds for a flight controller that has no
    ["Specifications"]. *)
Definition rebuilt_flight_controller (product firmware notes : json) : json :=
  JDict [("Product", product);
         ("Firmware", firmware);
         ("Specifications", JDict [("MCU Series", JStr "Unknown")]);
         ("Notes", notes)].

(** The key paths of [d] that the migration does not promise to keep: the
    version stamp; the deprecated receiver key, which is moved; the current
    receiver key when the deprecated one is there too; and, when the flight
    controller has no ["Specifications"], every key of it other than the
    three the rebuilt mapping copies. *)
Definition touched (d : json) (p : list string) : bool :=
  starts_with ["Program version"] p
  || under_key "Components" (starts_with ["GNSS receiver"]) p
  || (has_path d ["Components"; "GNSS receiver"]
      && under_key "Components" (starts_with ["GNSS Receiver"]) p)
  || (negb (has_path d ["Components"; "Flight Controller"; "Specifications"])
      && under_key "Components"
           (under_key "Flight Controller"
              (starts_outside ["Product"; "Firmware"; "Notes"])) p).


(** The successive states of a run of the migration on a non-empty
    document: one premise per statement of the source. *)
Inductive migration_run (version : string) (d d' : json) : Prop :=
| MigrationRun (d1 d2 d3 d4 d5 d6 d7 d8 d9 d10 d11 d12 : json)
    (run_components : ensure_at [] "Components" (JDict []) d = Ok d1)
    (run_battery : ensure_at ["Components"] "Battery" (JDict []) d1 = Ok d2)
    (run_battery_spec :
       ensure_at ["Components"; "Battery"] "Specifications" (JDict []) d2 = Ok d3)
    (run_chemistry :
       ensure_at ["Components"; "Battery"; "Specifications"] "Chemistry"
         (JStr "Lipo") d3 = Ok d4)
    (run_capacity :
       ensure_at ["Components"; "Battery"; "Specifications"] "Capacity mAh"
         (JInt 0) d4 = Ok d5)
    (run_frame : ensure_at ["Components"] "Frame" (JDict []) d5 = Ok d6)
    (run_frame_spec :
       ensure_at ["Components"; "Frame"] "Specifications" (JDict []) d6 = Ok d7)
    (run_tow_min :
       ensure_at ["Components"; "Frame"; "Specifications"] "TOW min Kg"
         (JInt 1) d7 = Ok d8)
    (run_tow_max :
       ensure_at ["Components"; "Frame"; "Specifications"] "TOW max Kg"
         (JInt 1) d8 = Ok d9)
    (run_rename : rename_gnss d9 = Ok d10)
    (run_stamp : py_setitem d10 "Program version" (JStr version) = Ok d11)
    (run_flight_controller :
       ensure_at ["Components"] "Flight Controller" (JDict []) d11 = Ok d12)
    (run_rebuild : rebuild_flight_controller d12 = Ok d').

(** A version string and two small documents for the examples: a current
    one, and an older one that lacks the battery chemistry and the
    specifications of the flight controller. *)
Definition sample_version : string := "1.4.7".

Definition sample_flight_controller : json :=
  JDict [("Product", JDict [("Model", JStr "Pixhawk 6X")]);
         ("Firmware", JDict [("Type", JStr "ArduCopter");
                             ("Version", JStr "4.5.1")]);
         ("Notes", JStr "")].

Definition sample_old_document : json :=
  JDict [("Format version", JInt 1);
         ("Components",
          JDict [("Flight Controller", sample_flight_controller);
                 ("Battery",
                  JDict [("Specifications",
                          JDict [("Number of cells", JInt 4)])])])].

(** Every region a step of the migration may rewrite. *)
Definition rewritten_region (q : list string) : bool :=
  starts_with ["Program version"] q
  || under_key "Components" (starts_with ["GNSS receiver"; "GNSS Receiver"]) q
  || under_key "Components"
       (under_key "Flight Controller"
          (starts_outside ["Product"; "Firmware"; "Notes"])) q.

(** A document in the current shape that still carries the deprecated
    receiver key next to the current one, and one whose flight controller
    has an extra key and no ["Specifications"]. *)
Definition sample_two_receivers : json :=
  JDict [("Format version", JInt 1);
         ("Components",
          JDict [("Flight Controller",
                  JDict [("Product", JDict [("Model", JStr "Pixhawk 6X")]);
                         ("Firmware", JDict [("Type", JStr "ArduCopter");
                                             ("Version", JStr "4.5.1")]);
                         ("Specifications",
                          JDict [("MCU Series", JStr "STM32H7xx")]);
                         ("Notes", JStr "")]);
                 ("GNSS Receiver",
                  JDict [("Product", JDict [("Model", JStr "u-blox M9N")])]);
                 ("GNSS receiver",
                  JDict [("Product", JDict [("Model", JStr "u-blox M8N")])])])].

Definition sample_extra_key : json :=
  JDict [("Components",
          JDict [("Flight Controller",
                  JDict [("Product", JDict [("Model", JStr "Pixhawk 6X")]);
                         ("Firmware", JDict [("Type", JStr "ArduCopter")]);
                         ("Notes", JStr "");
                         ("Options", JDict [("Safety switch", JStr "none")])])])].

(** Documents on which the migration is sure to return: ["Components"] is a
    mapping; ["Battery"], ["Frame"] and their ["Specifications"] are
    mappings where they are present; and ["Flight Controller"] is a mapping
    that has ["Specifications"], or else the three keys the rebuilt mapping
    copies. *)
Definition mapping_or_absent (d : json) (p : list string) : bool :=
  match lookup d p with
  | None => true
  | Some v => isinstance_dict v
  end.

Definition flight_controller_ready (d : json) : bool :=
  match lookup d ["Components"; "Flight Controller"] with
  | Some (JDict fc) =>
      dict_mem "Specifications" fc
      || (dict_mem "Product" fc && dict_mem "Firmware" fc && dict_mem "Notes" fc)
  | _ => false
  end.

Definition migratable (d : json) : bool :=
  match lookup d ["Components"] with
  | Some (JDict _) =>
      mapping_or_absent d ["Components"; "Battery"]
      && mapping_or_absent d ["Components"; "Battery"; "Specifications"]
      && mapping_or_absent d ["Components"; "Frame"]
      && mapping_or_absent d ["Components"; "Frame"; "Specifications"]
      && flight_controller_ready d
  | _ => false
  end.

(** The key paths of the other fields the migration inserts. *)
Definition capacity_path : list string :=
  ["Components"; "Battery"; "Specifications"; "Capacity mAh"].
Definition tow_min_path : list string :=
  ["Components"; "Frame"; "Specifications"; "TOW min Kg"].
Definition tow_max_path : list string :=
  ["Components"; "Frame"; "Specifications"; "TOW max Kg"].
Definition flight_controller_path : list string :=
  ["Components"; "Flight Controller"].

(* ================================================================== *)
(** ** [ComponentEditorWindowBase]: the entry widgets *)

(** [__add_widget(parent, key, value, path)], as the entries it adds to
    [self.entry_widgets]: a mapping gets a frame and one call per item, with
    [path] followed by [key] as the path; any other value gets one entry
    widget, stored under the tuple of [path] followed by [key] and created
    from the value. *)
Fixpoint add_widget (key : string) (value : json) (path : list string)
  : list (list string * json) :=
  match value with
  | JDict items =>
      (fix each (l : dict) : list (list string * json) :=
         match l with
         | [] => []
         | (sub_key, sub_value) :: r =>
             add_widget sub_key sub_value (path ++ [key]) ++ each r
         end) items
  | _ => [(path ++ [key], value)]
  end.

(** [x.items()]: only a dict has the method. *)
Definition py_items (x : json) : result dict :=
  match x with
  | JDict d => Ok d
  | _ => Raise AttributeError
  end.

(** [populate_frames], as the entry widgets it creates, in the order of
    creation. *)
Definition populate_frames (data : json) : result (list (list string * json)) :=
  b <- py_in "Components" data ;;
  if b then
    components <- py_getitem data "Components" ;;
    items <- py_items components ;;
    Ok (flat_map (fun kv => add_widget (fst kv) (snd kv) []) items)
  else Ok [].

(** Vocabulary.  The keys of every mapping are pairwise different, as in
    any value built by [json.load]. *)
Fixpoint unique_keys (x : json) : Prop :=
  match x with
  | JDict items =>
      NoDup (map fst items)
      /\ (fix all (l : dict) : Prop :=
            match l with
            | [] => True
            | kv :: r => unique_keys (snd kv) /\ all r
            end) items
  | _ => True
  end.

(** Vocabulary.  The leaves of a value: the key paths that lead, through
    mappings, to a value that is not a mapping, with that value. *)
Fixpoint leaves (x : json) : list (list string * json) :=
  match x with
  | JDict items =>
      (fix each (l : dict) : list (list string * json) :=
         match l with
         | [] => []
         | (k, v) :: r =>
             map (fun e => (k :: fst e, snd e)) (leaves v) ++ each r
         end) items
  | _ => [([], x)]
  end.

(** Vocabulary.  No path of the list is a prefix of another one. *)
Fixpoint paths_incomparable (ps : list (list string)) : Prop :=
  match ps with
  | [] => True
  | p :: r => Forall (fun q => incomparable p q) r /\ paths_incomparable r
  end.

(** A small document for the examples of the component editor. *)
Definition sample_editor_document : json :=
  JDict [("Format version", JInt 1);
         ("Components",
          JDict [("Battery",
                  JDict [("Specifications",
                          JDict [("Chemistry", JStr "Lipo");
                                 ("Number of cells", JInt 4)]);
                         ("Notes", JStr "")]);
                 ("Flight Controller",
                  JDict [("Firmware", JDict [("Type", JStr "ArduCopter");
                                             ("Version", JStr "4.5.1")])])])].

(* ================================================================== *)
(** ** [ComponentEditorWindowBase]: the texts of the entry widgets *)

Section EntryTexts.
  (** [str(value)] of the interpreter on a value that is not a string. *)
Variable py_str : json -> string.

(** [str(value)]: a string is its own text. *)
Definition text_of (value : json) : string :=
  match value with
  | JStr s => s
  | _ => py_str value
  end.

(** [add_entry_or_combobox] of the base class, as the text of the entry it
    returns: [entry.insert(0, str(value))] on a new entry. *)
Definition add_entry_or_combobox (value : json) : string := text_of value.

(** The items of [self.entry_widgets] after [populate_frames], when no entry
    has been edited. *)
Definition unedited_entries (widgets : list (list string * json)) : list entry :=
  map (fun w => (fst w, add_entry_or_combobox (snd w))) widgets.

(** Vocabulary.  The write-back reads the text of the value back as the
    value itself. *)
Definition reads_back (py_int : string -> option Z)
  (py_float : string -> option pyfloat) (w : list string * json) : Prop :=
  converted_value py_int py_float (last (fst w) "") (add_entry_or_combobox (snd w))
  = snd w.

(* ------------------------------------------------------------------ *)
(** *** [apply_component_template] *)

  (** The text an entry holds after [entry.delete(0, tk.END)] and
      [entry.insert(0, text)]; tkinter decides, by the state of the
      widget. *)
Variable entry_replace : entry -> string -> string.

(** The classes that [except (KeyError, TypeError)] takes. *)
Definition key_or_type_error (c : exn_class) : bool :=
  match c with
  | KeyError | TypeError => true
  | _ => false
  end.

(** One turn of the loop over [self.entry_widgets.items()]. *)
Definition refresh_entry (component_name : string) (template_data : json)
  (e : entry) : result entry :=
  match fst e with
  | first :: rest =>
      if String.eqb first component_name then
        match getitem_path template_data rest with
        | Ok value => Ok (fst e, entry_replace e (text_of value))
        | Raise c => if key_or_type_error c then Ok e else Raise c
        end
      else Ok e
  | [] => Ok e
  end.

Fixpoint refresh_entries (component_name : string) (template_data : json)
  (entry_widgets : list entry) : result (list entry) :=
  match entry_widgets with
  | [] => Ok []
  | e :: r =>
      e' <- refresh_entry component_name template_data e ;;
      r' <- refresh_entries component_name template_data r ;;
      Ok (e' :: r')
  end.

(** [apply_component_template], on [self.data] and the items of
    [self.entry_widgets]: the two after the call, and the text of the
    message box when one is shown. *)
Definition apply_component_template (data : json) (entry_widgets : list entry)
  (component_name : string) (template : json)
  : result (json * list entry * option string) :=
  b <- py_in "data" template ;;
  if negb b then Ok (data, entry_widgets, None)
  else
    template_data <- py_getitem template "data" ;;
    data <- setitem_path data ["Components"] component_name template_data ;;
    entry_widgets <- refresh_entries component_name template_data entry_widgets ;;
    template_name <- py_get template "name" (JStr "Template") ;;
    Ok (data, entry_widgets,
        Some (py_format (gettext "{} has been applied to {}")
                [text_of template_name; component_name])).
End EntryTexts.

(* ------------------------------------------------------------------ *)
(** *** [save_component_as_template] *)

(** What a call of [save_component_as_template] ends with: one of the
    early returns, or the templates handed to [save_component_templates]
    before the message box that follows. *)
Inductive template_outcome : Type :=
| NoComponentData
| NoTemplateName
| OverwriteDeclined
| TemplateUpdated (templates : json)
| TemplateSaved (templates : json).

Definition saved_templates (o : template_outcome) : option json :=
  match o with
  | TemplateUpdated templates | TemplateSaved templates => Some templates
  | _ => None
  end.

(** The loop [for i, template in enumerate(...)] up to its first match:
    the index of the first template whose [get("name")] equals the name,
    counted from [i]. *)
Fixpoint find_template (template_name : string) (l : list json) (i : nat)
  : result (option nat) :=
  match l with
  | [] => Ok None
  | template :: r =>
      name <- py_get template "name" JNull ;;
      if json_eq_str name template_name then Ok (Some i)
      else find_template template_name r (S i)
  end.

(** [l[i] = v] on a list. *)
Fixpoint list_set (i : nat) (v : json) (l : list json) : result (list json) :=
  match l, i with
  | [], _ => Raise IndexError
  | _ :: r, O => Ok (v :: r)
  | x :: r, S j => r' <- list_set j v r ;; Ok (x :: r')
  end.

Section SaveAsTemplate.
  (** [self.template_controls["manager"].save_component_templates]. *)
Variable manager_save : json -> result (bool * string).

(** The part of [save_component_as_template] that follows the two early
    returns, on the value of [templates[component_name]].  A mapping or a
    string in that place is iterated by its keys or characters, strings
    that have no [get]; with nothing to iterate, it has no [append]: both
    raise [AttributeError].  Any other value cannot be iterated. *)
Definition store_template (templates : json) (component_name : string)
  (new_template : json) (template_name : string) (confirm : bool)
  : result template_outcome :=
  existing <- py_getitem templates component_name ;;
  match existing with
  | JList items =>
      found <- find_template template_name items 0 ;;
      match found with
      | Some i =>
          if confirm then
            items <- list_set i new_template items ;;
            templates <- py_setitem templates component_name (JList items) ;;
            _ <- manager_save templates ;;
            Ok (TemplateUpdated templates)
          else Ok OverwriteDeclined
      | None =>
          templates <- py_setitem templates component_name
                         (JList (items ++ [new_template])) ;;
          _ <- manager_save templates ;;
          Ok (TemplateSaved templates)
      end
  | JDict _ | JStr _ => Raise AttributeError
  | _ => Raise TypeError
  end.

(** [save_component_as_template].  [asked] is what [askstring] returns
    ([None] when the dialog is cancelled), [confirm] the answer of
    [askyesno] when it is asked, [loaded] what [load_component_templates]
    returns. *)
Definition save_component_as_template (data : json) (component_name : string)
  (asked : option string) (confirm : bool) (loaded : json)
  : result template_outcome :=
  components <- py_getitem data "Components" ;;
  component_data <- py_get components component_name (JDict []) ;;
  if negb (py_truthy component_data) then Ok NoComponentData
  else
    match asked with
    | None => Ok NoTemplateName
    | Some template_name =>
        if String.eqb template_name "" then Ok NoTemplateName
        else
          b <- py_in component_name loaded ;;
          templates <- (if negb b
                        then py_setitem loaded component_name (JList [])
                        else Ok loaded) ;;
          store_template templates component_name
            (JDict [("name", JStr template_name); ("data", component_data)])
            template_name confirm
    end.
End SaveAsTemplate.

(** Vocabulary.  The name of a template, when it is a mapping: what
    [template.get("name")] returns. *)
Definition name_of (template : json) : option json :=
  match template with
  | JDict d => Some (match dict_get "name" d with Some v => v | None => JNull end)
  | _ => None
  end.

(** Vocabulary.  The first template of the list that has the name. *)
Fixpoint first_named (template_name : string) (l : list json) : option json :=
  match l with
  | [] => None
  | template :: r =>
      match name_of template with
      | Some name =>
          if json_eq_str name template_name then Some template
          else first_named template_name r
      | None => first_named template_name r
      end
  end.

(* ================================================================== *)
(** ** [VehicleComponents.save_component_templates] *)

Definition templates_filename : string := "vehicle_components_template.json".

Section SavingTemplates.
Variable os_path_join : string -> string -> string.
  (** [ProgramSettings.get_templates_base_dir()]. *)
Variable templates_dir : string.
  (** [os_makedirs(templates_dir, exist_ok=True)]: [None] when it
      completes, the exception otherwise. *)
Variable os_makedirs : string -> option py_exception.
  (** [open(filepath, "w", ...)] followed by [json_dump]. *)
Variable write_json : string -> json -> option py_exception.

(** The guarded block of [save_component_templates]. *)
Definition write_templates (filepath : string) (templates : json)
  : option py_exception :=
  match os_makedirs templates_dir with
  | Some e => Some e
  | None => write_json filepath templates
  end.

Definition save_component_templates (templates : json) : result (bool * string) :=
  let filepath := os_path_join templates_dir templates_filename in
  match write_templates filepath templates with
  | None => Ok (false, "")
  | Some e =>
      if isinstance_exn (exc_class e) HFileNotFoundError then
        Ok (true, py_format (gettext "Failed to save templates to file '{}': {}")
                    [filepath; gettext "File not found"])
      else Raise (exc_class e)
  end.
End SavingTemplates.

(* ================================================================== *)
(** ** [main]: the vehicle type *)

(** The vehicle type [main] goes on with: [args.vehicle_type] when it is
    set, else the type the flight controller reports when there is one,
    else ["ArduCopter"]. *)
Definition choose_vehicle_type (args_vehicle_type : string)
  (detected : option string) : string :=
  let vehicle_type :=
    if String.eqb args_vehicle_type "" then
      match detected with
      | Some t => t
      | None => args_vehicle_type
      end
    else args_vehicle_type in
  if String.eqb vehicle_type "" then "ArduCopter" else vehicle_type.

(* ================================================================== *)
(** ** Samples for the component editor *)

(** A stand-in for [str] on the values of the examples: integers in
    decimal, the two booleans and [None] by their names. *)
Fixpoint decimal_digits (fuel : nat) (z : Z) (acc : string) : string :=
  match fuel with
  | O => acc
  | S f =>
      let acc' := String (ascii_of_nat (48 + Z.to_nat (z mod 10))) acc in
      if (z <? 10)%Z then acc' else decimal_digits f (z / 10)%Z acc'
  end.

Definition sample_str (v : json) : string :=
  match v with
  | JInt z =>
      if (z <? 0)%Z then ("-" ++ decimal_digits 64 (- z)%Z "")%string
      else decimal_digits 64 z ""
  | JBool true => "True"
  | JBool false => "False"
  | JNull => "None"
  | JStr s => s
  | _ => ""
  end.

(** A stand-in for tkinter on an entry in its normal state: the new text
    replaces the old one. *)
Definition sample_entry_replace (e : entry) (text : string) : string := text.

Definition sample_template : json :=
  JDict [("name", JStr "4S pack");
         ("data", JDict [("Specifications",
                          JDict [("Chemistry", JStr "LiIon");
                                 ("Number of cells", JInt 4)])])].

Definition sample_templates : json :=
  JDict [("Battery", JList [JDict [("name", JStr "4S pack"); ("data", JDict [])];
                            JDict [("name", JStr "6S pack"); ("data", JDict [])]])].

(** The entry widgets of [sample_editor_document], with the values they are
    made from. *)
Definition sample_editor_widgets : list (list string * json) :=
  [(["Battery"; "Specifications"; "Chemistry"], JStr "Lipo");
   (["Battery"; "Specifications"; "Number of cells"], JInt 4);
   (["Battery"; "Notes"], JStr "");
   (["Flight Controller"; "Firmware"; "Type"], JStr "ArduCopter");
   (["Flight Controller"; "Firmware"; "Version"], JStr "4.5.1")].

(** A template whose data has no ["Specifications"]. *)
Definition sample_partial_template : json :=
  JDict [("name", JStr "bare"); ("data", JDict [("Notes", JStr "spare")])].
(* ================================================================== *)
(** * Properties *)

(** ** Dictionaries and key paths *)

Lemma dict_get_set (a k : string) (v : json) (d : dict) :
  dict_get a (dict_set k v d) = if String.eqb a k then Some v else dict_get a d.
Proof.
  induction d as [|[k' v'] r IH]; cbn.
  - destruct (String.eqb a k); reflexivity.
  - destruct (String.eqb k k') eqn:E; cbn.
    + apply String.eqb_eq in E. subst k'.
      destruct (String.eqb a k); reflexivity.
    + destruct (String.eqb a k') eqn:E'; [|exact IH].
      apply String.eqb_eq in E'. subst k'.
      rewrite String.eqb_sym, E. reflexivity.
Qed.

Lemma dict_get_remove (a k : string) (d : dict) :
  dict_get a (dict_remove k d) = if String.eqb a k then None else dict_get a d.
Proof.
  induction d as [|[k' v'] r IH]; cbn.
  - destruct (String.eqb a k); reflexivity.
  - destruct (String.eqb k k') eqn:E; cbn.
    + apply String.eqb_eq in E. subst k'. rewrite IH.
      destruct (String.eqb a k); reflexivity.
    + destruct (String.eqb a k') eqn:E'; [|exact IH].
      apply String.eqb_eq in E'. subst k'.
      rewrite String.eqb_sym, E. reflexivity.
Qed.

Lemma dict_set_same (k : string) (v : json) (d : dict) :
  dict_get k d = Some v -> dict_set k v d = d.
Proof.
  induction d as [|[k' v'] r IH]; cbn; [discriminate|].
  destruct (String.eqb k k'); [intros [= ->]; reflexivity|].
  intros H. rewrite (IH H). reflexivity.
Qed.

Lemma dict_mem_get (k : string) (d : dict) :
  dict_mem k d = true <-> exists v, dict_get k d = Some v.
Proof.
  unfold dict_mem. destruct (dict_get k d) as [v|].
  - split; [eauto | reflexivity].
  - split; [discriminate | intros [v H]; discriminate H].
Qed.

(** What a successful store tells about the object stored into. *)
Lemma py_setitem_ok (x x' : json) (k : string) (v : json) :
  py_setitem x k v = Ok x' ->
  exists d, x = JDict d /\ x' = JDict (dict_set k v d).
Proof.
  destruct x; cbn; try discriminate. intros [= <-]. eauto.
Qed.

Lemma py_getitem_ok (x v : json) (k : string) :
  py_getitem x k = Ok v -> exists d, x = JDict d /\ dict_get k d = Some v.
Proof.
  destruct x as [| | | | | |d]; cbn; try discriminate.
  destruct (dict_get k d) as [w|] eqn:E; [|discriminate].
  intros [= <-]. exists d. split; [reflexivity | exact E].
Qed.

Lemma setitem_path_cons (x x' : json) (k0 : string) (r : list string)
  (k : string) (v : json) :
  setitem_path x (k0 :: r) k v = Ok x' ->
  exists d sub sub',
    x = JDict d /\ dict_get k0 d = Some sub /\
    setitem_path sub r k v = Ok sub' /\ x' = JDict (dict_set k0 sub' d).
Proof.
  cbn [setitem_path]. intros H.
  destruct (py_getitem x k0) as [sub|e] eqn:Hg; [|discriminate H].
  apply py_getitem_ok in Hg as (d & -> & Hd).
  cbn [bind] in H.
  destruct (setitem_path sub r k v) as [sub'|e] eqn:Hs; [|discriminate H].
  cbn in H. injection H as <-.
  exists d, sub, sub'. repeat split; assumption.
Qed.

(** After [x[p1]...[pn][k] = v] the path [p1...pn, k] resolves to [v]. *)
Lemma lookup_setitem_path_same (p : list string) :
  forall (x x' : json) (k : string) (v : json),
    setitem_path x p k v = Ok x' -> lookup x' (p ++ [k]) = Some v.
Proof.
  induction p as [|k0 r IH]; intros x x' k v H.
  - apply py_setitem_ok in H as (d & -> & ->).
    cbn. rewrite dict_get_set, String.eqb_refl. reflexivity.
  - apply setitem_path_cons in H as (d & sub & sub' & -> & Hd & Hs & ->).
    cbn [app lookup]. rewrite dict_get_set, String.eqb_refl.
    apply (IH _ _ _ _ Hs).
Qed.

(** The store leaves alone every path that is incomparable with the path
    stored at. *)
Lemma lookup_setitem_path_other (p : list string) :
  forall (x x' : json) (k : string) (v : json) (q : list string),
    setitem_path x p k v = Ok x' ->
    incomparable (p ++ [k]) q ->
    lookup x' q = lookup x q.
Proof.
  induction p as [|k0 r IH]; intros x x' k v q H [H1 H2].
  - apply py_setitem_ok in H as (d & -> & ->).
    destruct q as [|a q]; [discriminate H2|].
    cbn in H1. rewrite andb_true_r in H1.
    cbn [lookup]. rewrite dict_get_set, String.eqb_sym, H1. reflexivity.
  - apply setitem_path_cons in H as (d & sub & sub' & -> & Hd & Hs & ->).
    destruct q as [|a q]; [discriminate H2|].
    cbn [app is_prefix] in H1, H2. cbn [lookup].
    rewrite dict_get_set.
    destruct (String.eqb a k0) eqn:E.
    + apply String.eqb_eq in E. subst a. rewrite Hd.
      rewrite ?String.eqb_refl in H1. rewrite ?String.eqb_refl in H2.
      cbn [andb] in H1, H2.
      apply (IH _ _ _ _ _ Hs). split; assumption.
    + reflexivity.
Qed.

(** ** Wiping *)

Lemma clear_dict_unfold (items : dict) :
  _recursively_clear_dict (JDict items)
  = JDict (map (fun kv => (fst kv, cleared (snd kv))) items).
Proof.
  cbn [_recursively_clear_dict]. f_equal.
  induction items as [|[k v] r IH]; [reflexivity|].
  rewrite IH. reflexivity.
Qed.

(** The default each kind of leaf receives from the loop. *)
Lemma cleared_leaf (value : json) :
  cleared value =
  match value with
  | JDict _ => _recursively_clear_dict value
  | JList _ => JList []
  | JInt _ => JInt 0
  | JBool _ => JInt 0
  | JFloat _ => JFloat float_zero
  | JStr _ => JStr ""
  | JNull => JNull
  end.
Proof. destruct value; reflexivity. Qed.

Lemma clear_idempotent (data : json) :
  _recursively_clear_dict (_recursively_clear_dict data)
  = _recursively_clear_dict data.
Proof.
  induction data as [| | | | | |items IH] using json_nested_ind;
    try reflexivity.
  rewrite !clear_dict_unfold. f_equal.
  rewrite map_map. cbn [fst snd].
  induction IH as [|[k v] r Hv _ IHr]; [reflexivity|].
  cbn [map fst snd]. rewrite IHr. f_equal. f_equal.
  destruct v; try reflexivity.
  cbn [snd] in Hv.
  change (cleared (JDict items)) with (_recursively_clear_dict (JDict items)).
  rewrite clear_dict_unfold.
  change (cleared (JDict ?l)) with (_recursively_clear_dict (JDict l)).
  rewrite <- clear_dict_unfold. exact Hv.
Qed.

Lemma shape_dict_unfold (items : dict) :
  shape_of (JDict items) = Node (map (fun kv => (fst kv, shape_of (snd kv))) items).
Proof.
  cbn [shape_of]. f_equal.
  induction items as [|[k v] r IH]; [reflexivity|].
  rewrite IH. reflexivity.
Qed.

Lemma clear_keeps_shape (data : json) :
  shape_of (_recursively_clear_dict data) = shape_of data.
Proof.
  induction data as [| | | | | |items IH] using json_nested_ind;
    try reflexivity.
  rewrite clear_dict_unfold, !shape_dict_unfold. f_equal.
  rewrite map_map. cbn [fst snd].
  induction IH as [|[k v] r Hv _ IHr]; [reflexivity|].
  cbn [map fst snd]. rewrite IHr. f_equal. f_equal.
  destruct v; try reflexivity. exact Hv.
Qed.

(** A key path resolves in the wiped document exactly when it resolves in
    the original. *)
Lemma clear_keeps_paths (data : json) (p : list string) :
  lookup (_recursively_clear_dict data) p = None <-> lookup data p = None.
Proof.
  revert p.
  induction data as [| | | | | |items IH] using json_nested_ind;
    intros p; try tauto.
  rewrite clear_dict_unfold.
  destruct p as [|k p]; [cbn; split; discriminate|].
  cbn [lookup].
  induction IH as [|[k0 v] r Hv _ IHr]; [cbn; tauto|].
  cbn [map dict_get fst snd].
  destruct (String.eqb k k0); [|exact IHr].
  destruct v; try (cbn; destruct p; cbn; split; congruence).
  apply Hv.
Qed.

Lemma dict_get_cleared (k : string) (items : dict) :
  dict_get k (map (fun kv => (fst kv, cleared (snd kv))) items)
  = option_map cleared (dict_get k items).
Proof.
  induction items as [|[k0 v] r IH]; [reflexivity|].
  cbn [map dict_get fst snd]. destruct (String.eqb k k0); [reflexivity | exact IH].
Qed.

(** A mapping of the document is a mapping of the wiped document, with the
    same keys in the same order. *)
Lemma clear_keeps_keys (data : json) :
  forall (p : list string) (items : dict),
    lookup data p = Some (JDict items) ->
    exists items',
      lookup (_recursively_clear_dict data) p = Some (JDict items')
      /\ map fst items' = map fst items.
Proof.
  induction data as [| | | | |l _|its IH] using json_nested_ind;
    intros p items H;
    try (destruct p; cbn in H; discriminate H).
  rewrite clear_dict_unfold.
  destruct p as [|k p].
  - cbn in H. injection H as <-. eexists. split; [reflexivity|].
    rewrite map_map. reflexivity.
  - cbn [lookup] in *. rewrite dict_get_cleared.
    destruct (dict_get k its) as [v|] eqn:Hk; [|discriminate H].
    cbn [option_map].
    assert (Hv : forall q its', lookup v q = Some (JDict its') ->
                   exists items',
                     lookup (_recursively_clear_dict v) q = Some (JDict items')
                     /\ map fst items' = map fst its').
    { clear H. induction IH as [|[k0 v0] r Hv0 _ IHr]; [discriminate Hk|].
      cbn [dict_get] in Hk. destruct (String.eqb k k0).
      - injection Hk as ->. exact Hv0.
      - apply IHr, Hk. }
    destruct v; try (destruct p; cbn in H; discriminate H).
    apply (Hv p items H).
Qed.

(** Below the root, the wipe puts at a path what one turn of the loop
    stores for the value that was there. *)
Lemma clear_lookup (data : json) :
  forall (p : list string) (v : json),
    p <> [] -> lookup data p = Some v ->
    lookup (_recursively_clear_dict data) p = Some (cleared v).
Proof.
  induction data as [| | | | |l _|its IH] using json_nested_ind;
    intros p v Hp H;
    try (destruct p; [contradiction Hp; reflexivity | discriminate H]).
  rewrite clear_dict_unfold.
  destruct p as [|k p]; [contradiction Hp; reflexivity|].
  cbn [lookup] in *. rewrite dict_get_cleared.
  destruct (dict_get k its) as [v0|] eqn:Hk; [|discriminate H].
  cbn [option_map].
  destruct p as [|k' p].
  - cbn in *. injection H as ->. reflexivity.
  - assert (Hv0 : forall q w, q <> [] -> lookup v0 q = Some w ->
                    lookup (_recursively_clear_dict v0) q = Some (cleared w)).
    { clear H. induction IH as [|[k0 w0] r Hw0 _ IHr]; [discriminate Hk|].
      cbn [dict_get] in Hk. destruct (String.eqb k k0).
      - injection Hk as ->. exact Hw0.
      - apply IHr, Hk. }
    destruct v0; try discriminate H.
    apply Hv0; [discriminate | exact H].
Qed.

(** C5.  Wiping is idempotent and keeps the key structure: wiping a wiped
    document changes nothing more; the tree of mapping keys of the wiped
    document is the tree of the original; every mapping of the document, at
    any depth, is a mapping of the wiped document with the same keys, in the
    same number and order; and a key path resolves after the wipe exactly
    when it resolved before.  Leaf values are changed to their
    type-appropriate defaults, but for one kind: a leaf that is not a
    boolean holds its default after the wipe, and a boolean leaf holds the
    integer [0], not [false].  On [{"Enabled": true}] the wipe leaves
    [{"Enabled": 0}]. *)
Theorem wipe_idempotent_keeps_keys (d : json) :
  wipe_component_info (wipe_component_info d) = wipe_component_info d
  /\ shape_of (wipe_component_info d) = shape_of d
  /\ (forall p items,
        lookup d p = Some (JDict items) ->
        exists items',
          lookup (wipe_component_info d) p = Some (JDict items')
          /\ map fst items' = map fst items)
  /\ (forall p, lookup (wipe_component_info d) p = None <-> lookup d p = None)
  /\ (forall p v,
        p <> [] -> lookup d p = Some v -> isinstance_dict v = false ->
        lookup (wipe_component_info d) p
        = Some (if isinstance_bool v then JInt 0 else type_default v))
  /\ (lookup (wipe_component_info (JDict [("Enabled", JBool true)])) ["Enabled"]
      = Some (JInt 0)
      /\ type_default (JBool true) = JBool false
      /\ lookup (wipe_component_info (JDict [("Enabled", JBool true)])) ["Enabled"]
         <> Some (type_default (JBool true))).
Proof.
  assert (E : wipe_component_info d = _recursively_clear_dict d)
    by (destruct d; reflexivity).
  rewrite E.
  assert (E' : wipe_component_info (_recursively_clear_dict d)
               = _recursively_clear_dict (_recursively_clear_dict d)).
  { destruct d; try reflexivity. }
  rewrite E'.
  split; [apply clear_idempotent|].
  split; [apply clear_keeps_shape|].
  split; [apply clear_keeps_keys|].
  split; [intros p; apply clear_keeps_paths|].
  split.
  - intros p v Hp H Hleaf. rewrite (clear_lookup d p v Hp H). f_equal.
    destruct v; try reflexivity. discriminate Hleaf.
  - split; [reflexivity|]. split; [reflexivity | discriminate].
Qed.

(** C1.  On the document [{"Enabled": true}] the wipe stores the integer
    [0] under ["Enabled"], not [false]: a boolean is an instance of [int],
    so the numeric branch of the chain takes it and the boolean branch
    after it is never reached. *)
Theorem wipe_boolean_leaf_becomes_integer_zero :
  wipe_component_info (JDict [("Enabled", JBool true)])
  = JDict [("Enabled", JInt 0)]
  /\ wipe_component_info (JDict [("Enabled", JBool true)])
     <> JDict [("Enabled", JBool false)].
Proof. split; [reflexivity | discriminate]. Qed.

(** ** Firmware queries *)

Lemma components_or_none_dict (items : dict) :
  components_or_none (JDict items)
  = Ok (match dict_get "Components" items with Some c => c | None => JNull end).
Proof.
  unfold components_or_none.
  destruct items as [|kv r]; [reflexivity|].
  cbn [py_truthy py_in bind]. unfold dict_mem, py_getitem.
  destruct (dict_get "Components" (kv :: r)); reflexivity.
Qed.

Lemma truthy_dict_get (k : string) (d : dict) (v : json) :
  dict_get k d = Some v -> py_truthy (JDict d) = true.
Proof.
  destruct d; [discriminate | reflexivity].
Qed.

(** The three chained [.get] calls, on a document whose path is made of
    mappings as far as it goes. *)
Lemma chained_get (doc : json) (field : string) :
  resolve doc ["Components"; "Flight Controller"; "Firmware"; field] <> NotMapping ->
  exists components,
    components_or_none doc = Ok components /\
    (if py_truthy components then
       fc <- py_get components "Flight Controller" (JDict []) ;;
       fw <- py_get fc "Firmware" (JDict []) ;;
       py_get fw field (JStr "")
     else Ok (JStr ""))
    = Ok (match resolve doc ["Components"; "Flight Controller"; "Firmware"; field] with
          | Found v => v
          | _ => JStr ""
          end).
Proof.
  intros H.
  destruct doc as [| | | | | |items]; try (exfalso; apply H; reflexivity).
  rewrite components_or_none_dict. cbn [resolve] in *.
  destruct (dict_get "Components" items) as [c|]; [|eexists; split; reflexivity].
  exists c. split; [reflexivity|].
  destruct c as [| | | | | |cl]; try (exfalso; apply H; reflexivity).
  destruct (dict_get "Flight Controller" cl) as [fc|] eqn:Hfc.
  - rewrite (truthy_dict_get _ _ _ Hfc). cbn [py_get bind]. rewrite Hfc.
    destruct fc as [| | | | | |fcl]; try (exfalso; apply H; reflexivity).
    cbn [py_get bind].
    destruct (dict_get "Firmware" fcl) as [fw|]; [|reflexivity].
    destruct fw as [| | | | | |fwl]; try (exfalso; apply H; reflexivity).
    cbn [py_get bind].
    destruct (dict_get field fwl); reflexivity.
  - destruct (py_truthy (JDict cl)); [|reflexivity].
    cbn [py_get bind]. rewrite Hfc. reflexivity.
Qed.

(** C9, as amended.  On a document whose ["Components"],
    ["Flight Controller"] and ["Firmware"] entries, where present, are
    mappings, the query returns the value of [Firmware.Type] when it is
    present and one of the supported names, and the empty string otherwise;
    the empty string is not a supported name. *)
Theorem firmware_type_on_mapping_documents (doc : json) :
  resolve doc firmware_type_path <> NotMapping ->
  get_fc_fw_type_from_vehicle_components_json doc
  = Ok (match resolve doc firmware_type_path with
        | Found v => if in_supported_vehicles v then v else JStr ""
        | _ => JStr ""
        end)
  /\ in_supported_vehicles (JStr "") = false.
Proof.
  intros H. split; [|reflexivity].
  destruct (chained_get doc "Type" H) as (components & Hc & Hget).
  unfold get_fc_fw_type_from_vehicle_components_json.
  rewrite Hc. cbn [bind].
  unfold firmware_type_path in *.
  set (r := resolve doc _) in *. clearbody r.
  destruct (py_truthy components).
  - destruct (py_get components "Flight Controller" (JDict [])) as [fc|e];
      [|discriminate Hget].
    cbn [bind] in *.
    destruct (py_get fc "Firmware" (JDict [])) as [fw|e]; [|discriminate Hget].
    cbn [bind] in *. rewrite Hget. cbn [bind].
    destruct r as [v| |]; try reflexivity.
    destruct (in_supported_vehicles v); reflexivity.
  - destruct r as [v| |]; try reflexivity.
    injection Hget as <-. reflexivity.
Qed.

Lemma firmware_type_on_mapping_documents_witness :
  resolve (document_with firmware_type_path (JStr "ArduPlane")) firmware_type_path
    <> NotMapping
  /\ get_fc_fw_type_from_vehicle_components_json
       (document_with firmware_type_path (JStr "ArduPlane"))
     = Ok (JStr "ArduPlane").
Proof.
  split; [discriminate|].
  exact (proj1 (firmware_type_on_mapping_documents
                  (document_with firmware_type_path (JStr "ArduPlane"))
                  ltac:(discriminate))).
Defined.

(** C9, as stated, fails on a loaded document whose ["Firmware"] entry is a
    string: the field [Type] is absent, and the query raises
    [AttributeError] instead of returning the empty string. *)
Lemma firmware_type_raises_on_string_firmware :
  get_fc_fw_type_from_vehicle_components_json
    (document_with ["Components"; "Flight Controller"; "Firmware"] (JStr "ArduPlane"))
  = Raise AttributeError.
Proof. reflexivity. Qed.

(** The two documents the spec names. *)
Example firmware_type_arduplane :
  get_fc_fw_type_from_vehicle_components_json
    (document_with firmware_type_path (JStr "ArduPlane"))
  = Ok (JStr "ArduPlane").
Proof. reflexivity. Qed.

Example firmware_type_unknown_vehicle :
  get_fc_fw_type_from_vehicle_components_json
    (document_with firmware_type_path (JStr "UnknownVehicle"))
  = Ok (JStr "").
Proof. reflexivity. Qed.

(** *** The version pattern *)

Lemma skip_digits_split (s : string) :
  exists a, all_digits a = true /\ s = (a ++ skip_digits s)%string.
Proof.
  induction s as [|c r [a [Ha Hs]]]; [exists ""; split; reflexivity|].
  cbn [skip_digits]. destruct (is_digit c) eqn:Hc.
  - exists (String c a). split; [cbn; rewrite Hc, Ha; reflexivity|].
    cbn. f_equal. exact Hs.
  - exists "". split; reflexivity.
Qed.

Lemma re_digits1_split (s r : string) :
  re_digits1 s = Some r -> exists a, is_number a /\ s = (a ++ r)%string.
Proof.
  destruct s as [|c s']; [discriminate|].
  cbn [re_digits1]. destruct (is_digit c) eqn:Hc; [|discriminate].
  intros [= <-].
  destruct (skip_digits_split s') as [a [Ha Hs]].
  exists (String c a). split.
  - split; [cbn; rewrite Hc, Ha; reflexivity | discriminate].
  - cbn. f_equal. exact Hs.
Qed.

Lemma re_char_split (c : ascii) (s r : string) :
  re_char c s = Some r -> s = String c r.
Proof.
  destruct s as [|c' s']; [discriminate|].
  cbn [re_char]. destruct (Ascii.eqb c' c) eqn:E; [|discriminate].
  apply Ascii.eqb_eq in E. subst c'. intros [= <-]. reflexivity.
Qed.

Lemma re_at_end_cases (s : string) :
  re_at_end s = true -> s = "" \/ s = newline.
Proof.
  destruct s as [|c [|c' s']]; cbn; intros H; try discriminate; auto.
  apply Ascii.eqb_eq in H. subst c. right. reflexivity.
Qed.

(** A run of digits followed by something that does not start with a digit
    is consumed whole. *)
Definition no_leading_digit (s : string) : Prop :=
  match s with
  | EmptyString => True
  | String c _ => is_digit c = false
  end.

Lemma skip_digits_app (a rest : string) :
  all_digits a = true -> no_leading_digit rest ->
  skip_digits (a ++ rest) = rest.
Proof.
  intros Ha Hr. induction a as [|c a IH].
  - cbn. destruct rest as [|c r]; [reflexivity|]. cbn in *. rewrite Hr. reflexivity.
  - cbn in *. apply andb_prop in Ha as [Hc Ha]. rewrite Hc. apply IH. exact Ha.
Qed.

Lemma re_digits1_app (a rest : string) :
  is_number a -> no_leading_digit rest ->
  re_digits1 (a ++ rest) = Some rest.
Proof.
  intros [Ha Hne] Hr. destruct a as [|c a]; [contradiction Hne; reflexivity|].
  cbn in *. apply andb_prop in Ha as [Hc Ha]. rewrite Hc.
  f_equal. apply skip_digits_app; assumption.
Qed.

Lemma re_match_version_triple (major minor patch tail : string) :
  is_number major -> is_number minor -> is_number patch ->
  tail = "" \/ tail = newline ->
  re_match_version (major ++ "." ++ minor ++ "." ++ patch ++ tail) = true.
Proof.
  intros H1 H2 H3 Ht. unfold re_match_version.
  rewrite (re_digits1_app major) by (assumption || reflexivity).
  cbn [append re_char Ascii.eqb Bool.eqb].
  rewrite (re_digits1_app minor) by (assumption || reflexivity).
  cbn [append re_char Ascii.eqb Bool.eqb].
  rewrite (re_digits1_app patch);
    [destruct Ht; subst tail; reflexivity | assumption |].
  destruct Ht; subst tail; reflexivity.
Qed.

Lemma append_empty_right (s : string) : (s ++ "")%string = s.
Proof. induction s as [|c s IH]; [reflexivity|]. cbn. rewrite IH. reflexivity. Qed.

(** The pattern accepts exactly the version triples. *)
Lemma re_match_version_iff (t : string) :
  re_match_version t = true <-> is_version_triple t.
Proof.
  split.
  - unfold re_match_version.
    destruct (re_digits1 t) as [r1|] eqn:E1; [|discriminate].
    destruct (re_char "." r1) as [r2|] eqn:E2; [|discriminate].
    destruct (re_digits1 r2) as [r3|] eqn:E3; [|discriminate].
    destruct (re_char "." r3) as [r4|] eqn:E4; [|discriminate].
    destruct (re_digits1 r4) as [r5|] eqn:E5; [|discriminate].
    intros E6.
    apply re_digits1_split in E1 as [a [Ha ->]].
    apply re_char_split in E2 as ->.
    apply re_digits1_split in E3 as [b [Hb ->]].
    apply re_char_split in E4 as ->.
    apply re_digits1_split in E5 as [c [Hc ->]].
    exists a, b, c. repeat split; try apply Ha; try apply Hb; try apply Hc.
    apply re_at_end_cases in E6 as [-> | ->].
    + left. rewrite append_empty_right. reflexivity.
    + right. reflexivity.
  - intros (a & b & c & Ha & Hb & Hc & [-> | ->]).
    + rewrite <- (append_empty_right c).
      apply (re_match_version_triple a b c ""); auto.
    + apply (re_match_version_triple a b c newline); auto.
Qed.

Lemma first_token_leading (s : string) :
  first_token (JStr s) = Ok (leading_token s).
Proof.
  unfold first_token, leading_token.
  destruct (py_split " " (py_lstrip s)) as [|tok r] eqn:E; [|reflexivity].
  exfalso. revert E. generalize (py_lstrip s). intros t.
  induction t as [|c t IH]; [discriminate|].
  cbn [py_split]. destruct (Ascii.eqb c " "); [discriminate|].
  destruct (py_split " " t); discriminate.
Qed.

(** C2, as amended.  On a document that holds the text [s] at
    [Components."Flight Controller".Firmware.Version], the query keeps the
    first space-delimited field of [s], leading whitespace dropped, and
    returns it when the whole field is a version triple, the empty string
    otherwise: text after the triple is dropped only when a space separates
    it from the triple. *)
Theorem firmware_version_is_leading_token (doc : json) (s : string) :
  resolve doc firmware_version_path = Found (JStr s) ->
  get_fc_fw_version_from_vehicle_components_json doc
  = Ok (JStr (version_of_text s))
  /\ ((is_version_triple (leading_token s) /\ version_of_text s = leading_token s)
      \/ (~ is_version_triple (leading_token s) /\ version_of_text s = "")).
Proof.
  intros H. split.
  - assert (Hn : resolve doc ["Components"; "Flight Controller"; "Firmware"; "Version"]
                 <> NotMapping).
    { unfold firmware_version_path in H. rewrite H. discriminate. }
    destruct (chained_get doc "Version" Hn) as (components & Hc & Hget).
    unfold get_fc_fw_version_from_vehicle_components_json.
    rewrite Hc. cbn [bind].
    unfold firmware_version_path in H. rewrite H in Hget.
    destruct (py_truthy components).
    + destruct (py_get components "Flight Controller" (JDict [])) as [fc|e];
        [|discriminate Hget].
      cbn [bind] in *.
      destruct (py_get fc "Firmware" (JDict [])) as [fw|e]; [|discriminate Hget].
      cbn [bind] in *. rewrite Hget. cbn [bind].
      unfold version_of_text.
      destruct (py_truthy (JStr s)) eqn:Ht.
      * rewrite first_token_leading. cbn [bind].
        destruct (re_match_version (leading_token s)); reflexivity.
      * cbn in Ht. apply negb_false_iff, String.eqb_eq in Ht. subst s.
        reflexivity.
    + injection Hget as <-. reflexivity.
  - unfold version_of_text.
    destruct (re_match_version (leading_token s)) eqn:E.
    + left. split; [apply re_match_version_iff; exact E | reflexivity].
    + right. split; [|reflexivity].
      intros Ht. apply re_match_version_iff in Ht. congruence.
Qed.

Lemma firmware_version_is_leading_token_witness :
  resolve (document_with firmware_version_path (JStr "  4.3.1 dev"))
    firmware_version_path = Found (JStr "  4.3.1 dev")
  /\ get_fc_fw_version_from_vehicle_components_json
       (document_with firmware_version_path (JStr "  4.3.1 dev"))
     = Ok (JStr "4.3.1").
Proof.
  split; [reflexivity|].
  exact (proj1 (firmware_version_is_leading_token
                  (document_with firmware_version_path (JStr "  4.3.1 dev"))
                  "  4.3.1 dev" eq_refl)).
Defined.

(** C2, as stated, fails on [Version = "4.3.1-dev"]: no space separates the
    triple from the suffix, the whole field is matched against the anchored
    pattern, and the query returns the empty string, not ["4.3.1"]. *)
Lemma firmware_version_dev_suffix_is_rejected :
  get_fc_fw_version_from_vehicle_components_json
    (document_with firmware_version_path (JStr "4.3.1-dev"))
  = Ok (JStr "")
  /\ get_fc_fw_version_from_vehicle_components_json
       (document_with firmware_version_path (JStr "4.3.1-dev"))
     <> Ok (JStr "4.3.1").
Proof. split; [reflexivity | discriminate]. Qed.

Example firmware_version_bogus :
  get_fc_fw_version_from_vehicle_components_json
    (document_with firmware_version_path (JStr "bogus"))
  = Ok (JStr "").
Proof. reflexivity. Qed.

Example firmware_version_plain_triple :
  get_fc_fw_version_from_vehicle_components_json
    (document_with firmware_version_path (JStr "4.3.1"))
  = Ok (JStr "4.3.1").
Proof. reflexivity. Qed.

(** A field that is missing from a mapping on the way gives the empty
    string. *)
Lemma firmware_version_missing (doc : json) :
  resolve doc firmware_version_path = Missing ->
  get_fc_fw_version_from_vehicle_components_json doc = Ok (JStr "").
Proof.
  intros H.
  assert (Hn : resolve doc ["Components"; "Flight Controller"; "Firmware"; "Version"]
               <> NotMapping).
  { unfold firmware_version_path in H. rewrite H. discriminate. }
  destruct (chained_get doc "Version" Hn) as (components & Hc & Hget).
  unfold get_fc_fw_version_from_vehicle_components_json.
  rewrite Hc. cbn [bind].
  unfold firmware_version_path in H. rewrite H in Hget.
  destruct (py_truthy components); [|reflexivity].
  destruct (py_get components "Flight Controller" (JDict [])) as [fc|e];
    [|discriminate Hget].
  cbn [bind] in *.
  destruct (py_get fc "Firmware" (JDict [])) as [fw|e]; [|discriminate Hget].
  cbn [bind] in *. rewrite Hget. reflexivity.
Qed.

(** ** Saving *)

(** C6.  The save returns [(false, "")] when the write completes, and for
    every exception of the write it returns [(true, message)] without
    raising, the message being the one of the failure cause: directory
    missing (the directory is named in the message), permission denied,
    path is a directory, other OS error, non-serializable value, invalid
    value, or the catch-all.  Messages of different causes are different
    strings, whatever the paths and details they carry. *)
Theorem save_reports_every_failure
  (os_path_join : string -> string -> string)
  (write_json : string -> json -> option py_exception)
  (data : json) (vehicle_dir : string) :
  save_vehicle_components_json_data os_path_join write_json data vehicle_dir
  = match write_json (os_path_join vehicle_dir vehicle_components_json_filename) data with
    | None => Ok (false, "")
    | Some e =>
        Ok (true,
            failure_message (first_handler (exc_class e)) vehicle_dir
              (os_path_join vehicle_dir vehicle_components_json_filename)
              (exc_str e))
    end
  /\ (forall filepath detail,
        failure_message HFileNotFoundError vehicle_dir filepath detail
        = ("Directory '" ++ vehicle_dir ++ "' not found")%string)
  /\ (forall c1 c2 dir1 dir2 path1 path2 detail1 detail2,
        c1 <> c2 ->
        failure_message c1 dir1 path1 detail1
        <> failure_message c2 dir2 path2 detail2).
Proof.
  split; [|split].
  - unfold save_vehicle_components_json_data.
    destruct (write_json _ data) as [[c s]|]; [|reflexivity].
    destruct c; cbn; rewrite ?append_empty_right; reflexivity.
  - reflexivity.
  - intros c1 c2 dir1 dir2 path1 path2 detail1 detail2 Hne.
    destruct c1, c2; try (exfalso; apply Hne; reflexivity);
      cbn; discriminate.
Qed.

(** ** Validation *)

(** C8, as amended.  When the schema is cached or its file is read, found
    missing or found malformed, and the validator raises nothing but
    [ValidationError], the validation does not raise and returns
    [(false, m)] with [m] not empty when the schema is empty and when the
    validator reports a violation (as it does, by the hypothesis on the
    library, for a document that lacks a field the schema requires); it
    returns [(true, "")] exactly when the schema is not empty and the
    document conforms. *)
Theorem validation_outcomes
  (jsonschema_validate : json -> json -> validation)
  (cached : option json) (file : schema_file) (data schema : json) :
  load_schema cached file = Ok schema ->
  (forall e, jsonschema_validate data schema <> ValidatorRaises e) ->
  (lacks_required_field schema data = true ->
   exists m, jsonschema_validate data schema = ValidationError m) ->
  exists is_valid message,
    validate_vehicle_components jsonschema_validate cached file data
    = Ok (is_valid, message)
    /\ (is_valid = true <->
        py_truthy schema = true /\ jsonschema_validate data schema = Conforms)
    /\ (is_valid = true -> message = "")
    /\ (is_valid = false -> message <> "")
    /\ (py_truthy schema = false ->
        is_valid = false /\ message = "Could not load validation schema")
    /\ (forall m, py_truthy schema = true ->
        jsonschema_validate data schema = ValidationError m ->
        is_valid = false /\ message = ("Validation error: " ++ m)%string)
    /\ (lacks_required_field schema data = true -> is_valid = false).
Proof.
  intros Hload Hlib Hreq.
  unfold validate_vehicle_components. rewrite Hload. cbn [bind].
  destruct (py_truthy schema) eqn:Ht; cbn [negb].
  - destruct (jsonschema_validate data schema) as [|m|e] eqn:Hv.
    + exists true, "".
      split; [reflexivity|]. split; [tauto|]. split; [reflexivity|].
      split; [discriminate|]. split; [discriminate|].
      split; [intros m _ Hm; discriminate Hm|].
      intros Hl. destruct (Hreq Hl) as [m Hm]. discriminate Hm.
    + exists false, ("Validation error: " ++ m)%string.
      split; [reflexivity|].
      split; [split; [discriminate | intros [_ Hc]; discriminate Hc]|].
      split; [discriminate|]. split; [intros _; discriminate|].
      split; [discriminate|].
      split; [intros m' _ [= <-]; split; reflexivity|].
      reflexivity.
    + exfalso. apply (Hlib e). reflexivity.
  - exists false, "Could not load validation schema".
    split; [reflexivity|].
    split; [split; [discriminate | intros [Hc _]; discriminate Hc]|].
    split; [discriminate|]. split; [intros _; discriminate|].
    split; [intros _; split; reflexivity|].
    split; [intros m Hc; discriminate Hc|].
    reflexivity.
Qed.

Lemma validation_outcomes_witness :
  let schema := JDict [("required", JList [JStr "Components"])] in
  let data := JDict [("Format version", JInt 1)] in
  load_schema None (SchemaParsed schema) = Ok schema
  /\ lacks_required_field schema data = true
  /\ exists is_valid message,
       validate_vehicle_components required_only_validator None
         (SchemaParsed schema) data = Ok (is_valid, message)
       /\ is_valid = false /\ message <> "".
Proof.
  intros schema data.
  split; [reflexivity|]. split; [reflexivity|].
  destruct (validation_outcomes required_only_validator None
              (SchemaParsed schema) data schema eq_refl)
    as (is_valid & message & Hrun & _ & _ & Hmsg & _ & _ & Hreq).
  - intros e. discriminate.
  - intros _. eexists. reflexivity.
  - exists is_valid, message.
    split; [exact Hrun|].
    assert (Hv : is_valid = false) by (apply Hreq; reflexivity).
    split; [exact Hv | apply Hmsg; exact Hv].
Defined.

(** C8, as stated, fails when the schema file cannot be read for a reason
    other than its absence: [load_schema] handles [FileNotFoundError] and
    [JSONDecodeError] only, and a [PermissionError] leaves the validation
    as an exception. *)
Lemma validation_raises_on_unreadable_schema :
  validate_vehicle_components required_only_validator None
    (SchemaReadRaises PermissionError) (JDict [("Format version", JInt 1)])
  = Raise PermissionError.
Proof. reflexivity. Qed.

(** ** The write-back loop of the component editor *)

Section WriteBackFacts.
Variable py_int : string -> option Z.
Variable py_float : string -> option pyfloat.

Lemma converted_value_expected (path : list string) (text : string) :
    converted_value py_int py_float (last path "") text
    = expected_entry_value py_int py_float (path, text).
Proof.
    unfold converted_value, expected_entry_value, ordered_fallback.
    cbn [fst snd]. destruct (String.eqb (last path "") "Version"); reflexivity.
Qed.

  (** One turn stores the expected value at the path of the entry and
      leaves every incomparable path alone. *)
Lemma store_entry_ok (data data' : json) (e : entry) :
    store_entry py_int py_float data e = Ok data' ->
    lookup data' ("Components" :: fst e)
    = Some (expected_entry_value py_int py_float e)
    /\ (forall q, incomparable (fst e) q ->
        lookup data' ("Components" :: q) = lookup data ("Components" :: q)).
Proof.
    destruct e as [path text]. unfold store_entry. cbn [fst].
    intros H.
    destruct (py_getitem data "Components") as [components|x] eqn:Hc;
      [|discriminate H].
    apply py_getitem_ok in Hc as (d & -> & Hd).
    cbn [bind] in H.
    destruct (getitem_path components (removelast path)); [|discriminate H].
    cbn [bind] in H.
    destruct path as [|k0 rest]; [discriminate H|].
    assert (Hsplit : k0 :: rest = removelast (k0 :: rest) ++ [last (k0 :: rest) ""])
      by (apply app_removelast_last; discriminate).
    set (path := k0 :: rest) in *. clearbody path.
    destruct (setitem_path components (removelast path) (last path "")
                (converted_value py_int py_float (last path "") text))
      as [components'|x] eqn:Hs; [|destruct (last path ""); discriminate H].
    assert (H' : py_setitem (JDict d) "Components" components' = Ok data').
    { destruct (last path ""); exact H. }
    cbn in H'. injection H' as <-.
    split.
    - cbn [lookup]. rewrite dict_get_set. cbn.
      rewrite Hsplit.
      rewrite (lookup_setitem_path_same _ _ _ _ _ Hs).
      rewrite <- Hsplit, converted_value_expected. reflexivity.
    - intros q Hq. cbn [lookup]. rewrite dict_get_set, Hd. cbn.
      apply (lookup_setitem_path_other _ _ _ _ _ _ Hs).
      rewrite <- Hsplit. exact Hq.
Qed.

Lemma loop_keeps_other_paths (entries : list entry) :
    forall (data data' : json) (q : list string),
      save_component_json_loop py_int py_float entries data = Ok data' ->
      Forall (fun e => incomparable q (fst e)) entries ->
      lookup data' ("Components" :: q) = lookup data ("Components" :: q).
Proof.
    induction entries as [|e r IH]; intros data data' q H Hq.
    - cbn in H. injection H as <-. reflexivity.
    - cbn [save_component_json_loop] in H.
      destruct (store_entry py_int py_float data e) as [d1|x] eqn:Hs;
        [|discriminate H].
      cbn [bind] in H. inversion Hq as [|? ? [Ha Hb] Hr]; subst.
      rewrite (IH _ _ _ H Hr).
      apply (proj2 (store_entry_ok _ _ _ Hs)). split; assumption.
Qed.

Lemma loop_stores_entries (entries : list entry) :
forall (data data' : json),
  pairwise_incomparable entries ->
  save_component_json_loop py_int py_float entries data = Ok data' ->
  forall e, In e entries ->
    lookup data' ("Components" :: fst e)
    = Some (expected_entry_value py_int py_float e).
Proof.
  induction entries as [|e0 r IH]; intros data data' Hinc H e Hin;
    [contradiction Hin|].
  cbn [save_component_json_loop] in H.
  destruct (store_entry py_int py_float data e0) as [d1|x] eqn:Hs;
    [|discriminate H].
  cbn [bind] in H. destruct Hinc as [Hhere Hrest].
  destruct Hin as [-> | Hin].
  - rewrite (loop_keeps_other_paths r d1 data' (fst e) H Hhere).
    apply (proj1 (store_entry_ok _ _ _ Hs)).
  - apply (IH _ _ Hrest H _ Hin).
Qed.

(** C10.  Each turn of the write-back loop stores, at the path of its
    entry under ["Components"], the raw entered text when the last key of
    the path is ["Version"], and otherwise the integer parse of the text if
    it succeeds, else the float parse if it succeeds, else the text
    stripped of surrounding whitespace.  When the loop completes and no
    entry path is a prefix of another, every entry is found in the document
    with that value. *)
Theorem entries_are_stored_with_ordered_fallback :
  (forall path text,
     expected_entry_value py_int py_float (path, text)
     = if String.eqb (last path "") "Version" then JStr text
       else match py_int text with
            | Some n => JInt n
            | None =>
                match py_float text with
                | Some x => JFloat x
                | None => JStr (py_strip text)
                end
            end)
  /\ (forall data data' path text,
        store_entry py_int py_float data (path, text) = Ok data' ->
        lookup data' ("Components" :: path)
        = Some (expected_entry_value py_int py_float (path, text)))
  /\ (forall entries data data',
        pairwise_incomparable entries ->
        save_component_json_loop py_int py_float entries data = Ok data' ->
        forall path text, In (path, text) entries ->
          lookup data' ("Components" :: path)
          = Some (expected_entry_value py_int py_float (path, text))).
Proof.
  split; [reflexivity|]. split.
  - intros data data' path text H.
    apply (proj1 (store_entry_ok _ _ _ H)).
  - intros entries data data' Hinc H path text Hin.
    apply (loop_stores_entries entries data data' Hinc H (path, text) Hin).
Qed.
End WriteBackFacts.

Lemma entries_are_stored_with_ordered_fallback_witness :
  let data :=
    JDict [("Components",
            JDict [("Battery", JDict [("Cells", JInt 0); ("Notes", JStr "")]);
                   ("Flight Controller",
                    JDict [("Firmware", JDict [("Version", JStr "")])])])] in
  let entries :=
    [(["Battery"; "Cells"], "4");
     (["Battery"; "Notes"], "  spare pack ");
     (["Flight Controller"; "Firmware"; "Version"], "4.5 ")] in
  pairwise_incomparable entries
  /\ (exists data',
        save_component_json_loop sample_int sample_float entries data = Ok data'
        /\ lookup data' ["Components"; "Battery"; "Cells"] = Some (JInt 4)
        /\ lookup data' ["Components"; "Battery"; "Notes"] = Some (JStr "spare pack")
        /\ lookup data' ["Components"; "Flight Controller"; "Firmware"; "Version"]
           = Some (JStr "4.5 ")).
Proof.
  intros data entries.
  assert (Hinc : pairwise_incomparable entries).
  { cbn. repeat split; repeat constructor. }
  split; [exact Hinc|].
  eexists. split; [reflexivity|].
  pose proof (proj2 (proj2 (entries_are_stored_with_ordered_fallback
                              sample_int sample_float))
                entries data _ Hinc eq_refl) as Hall.
  split; [|split].
  - exact (Hall ["Battery"; "Cells"] "4" (or_introl eq_refl)).
  - exact (Hall ["Battery"; "Notes"] "  spare pack "
             (or_intror (or_introl eq_refl))).
  - exact (Hall ["Flight Controller"; "Firmware"; "Version"] "4.5 "
             (or_intror (or_intror (or_introl eq_refl)))).
Defined.

(** ** Migration *)

(** *** Paths, lookups and stores *)

Lemma getitem_path_lookup (p : list string) :
  forall x v, getitem_path x p = Ok v <-> lookup x p = Some v.
Proof.
  induction p as [|k r IH]; intros x v; cbn.
  - split; intros [= ->]; reflexivity.
  - destruct x as [| | | | | |d]; cbn; try (split; discriminate).
    destruct (dict_get k d) as [sub|]; cbn; [apply IH | split; discriminate].
Qed.

Lemma lookup_app (p q : list string) :
  forall x, lookup x (p ++ q)
            = match lookup x p with Some y => lookup y q | None => None end.
Proof.
  induction p as [|k r IH]; intros x; cbn; [reflexivity|].
  destruct x as [| | | | | |d]; try reflexivity.
  destruct (dict_get k d); [apply IH | reflexivity].
Qed.

Lemma contains_at_inv (x : json) (p : list string) (k : string) (b : bool) :
  contains_at x p k = Ok b <->
  exists c, lookup x p = Some c /\ py_in k c = Ok b.
Proof.
  unfold contains_at. split.
  - destruct (getitem_path x p) as [c|e] eqn:E; [|discriminate].
    cbn. intros H. exists c. split; [apply getitem_path_lookup, E | exact H].
  - intros (c & Hc & Hb). apply getitem_path_lookup in Hc. rewrite Hc. exact Hb.
Qed.

Lemma lookup_snoc_some (x : json) (p : list string) (k : string) (v : json) :
  lookup x (p ++ [k]) = Some v ->
  exists d, lookup x p = Some (JDict d) /\ dict_get k d = Some v.
Proof.
  rewrite lookup_app. destruct (lookup x p) as [y|]; [|discriminate].
  destruct y as [| | | | | |d]; cbn; try discriminate.
  destruct (dict_get k d) as [w|] eqn:E; [|discriminate].
  intros [= ->]. eauto.
Qed.

Lemma keeps_refl (E : list string -> bool) (x : json) : keeps E x x.
Proof. intros q w _ H. exists w. auto. Qed.

Lemma keeps_trans (E1 E2 : list string -> bool) (x y z : json) :
  keeps E1 x y -> keeps E2 y z -> keeps (fun q => E1 q || E2 q) x z.
Proof.
  intros H1 H2 q w HE Hq. apply orb_false_elim in HE as [HE1 HE2].
  destruct (H1 q w HE1 Hq) as (w1 & Hw1 & L1).
  destruct (H2 q w1 HE2 Hw1) as (w2 & Hw2 & L2).
  exists w2. split; [exact Hw2|].
  intros Hleaf. rewrite <- (L1 Hleaf). apply L2. rewrite (L1 Hleaf). exact Hleaf.
Qed.

Lemma keeps_weaken (E1 E2 : list string -> bool) (x y : json) :
  (forall q, E2 q = false -> E1 q = false) -> keeps E1 x y -> keeps E2 x y.
Proof. intros HE H q w Hq. apply H, HE, Hq. Qed.

(** A store under a key that was absent keeps every path. *)
Lemma setitem_path_keeps (p : list string) :
  forall (x x' : json) (k : string) (v : json),
    setitem_path x p k v = Ok x' ->
    contains_at x p k = Ok false ->
    keeps nowhere x x'.
Proof.
  induction p as [|k0 r IH]; intros x x' k v H Hc q w _ Hq.
  - apply py_setitem_ok in H as (d & -> & ->).
    cbn in Hc. injection Hc as Hc. unfold dict_mem in Hc.
    destruct q as [|a q]; [cbn in *; injection Hq as <-; eexists; split;
                           [reflexivity | discriminate]|].
    cbn [lookup] in *. rewrite dict_get_set.
    destruct (String.eqb a k) eqn:E.
    + apply String.eqb_eq in E. subst a.
      destruct (dict_get k d); discriminate.
    + exists w. auto.
  - apply setitem_path_cons in H as (d & sub & sub' & -> & Hd & Hs & ->).
    assert (Hc' : contains_at sub r k = Ok false).
    { unfold contains_at in *. cbn in Hc. rewrite Hd in Hc. exact Hc. }
    destruct q as [|a q]; [cbn in *; injection Hq as <-; eexists; split;
                           [reflexivity | discriminate]|].
    cbn [lookup] in *. rewrite dict_get_set.
    destruct (String.eqb a k0) eqn:E.
    + apply String.eqb_eq in E. subst a. rewrite Hd in Hq.
      apply (IH _ _ _ _ Hs Hc' q w eq_refl Hq).
    + exists w. auto.
Qed.

Lemma ensure_at_inv (p : list string) (k : string) (v : json) (x x' : json) :
  ensure_at p k v x = Ok x' ->
  (contains_at x p k = Ok true /\ x' = x)
  \/ (contains_at x p k = Ok false /\ setitem_path x p k v = Ok x').
Proof.
  unfold ensure_at.
  destruct (contains_at x p k) as [[|]|e]; cbn; try discriminate.
  - intros [= <-]. auto.
  - intros H. auto.
Qed.

Lemma ensure_at_keeps (p : list string) (k : string) (v : json) (x x' : json) :
  ensure_at p k v x = Ok x' -> keeps nowhere x x'.
Proof.
  intros H. apply ensure_at_inv in H as [[_ ->] | [Hc Hs]].
  - apply keeps_refl.
  - apply (setitem_path_keeps _ _ _ _ _ Hs Hc).
Qed.

(** After the step the key is there. *)
Lemma ensure_at_contains (p : list string) (k : string) (v : json) (x x' : json) :
  ensure_at p k v x = Ok x' -> contains_at x' p k = Ok true.
Proof.
  intros H. apply ensure_at_inv in H as [[Hc ->] | [_ Hs]]; [exact Hc|].
  apply lookup_setitem_path_same in Hs.
  apply lookup_snoc_some in Hs as (d & Hd & Hk).
  apply contains_at_inv. exists (JDict d). split; [exact Hd|].
  cbn. unfold dict_mem. rewrite Hk. reflexivity.
Qed.

(** A key that is there stays there under any change that keeps the paths
    [p] and [p ++ [k]]. *)
Lemma contains_kept (E : list string -> bool) (x x' : json)
  (p : list string) (k : string) :
  keeps E x x' -> E p = false -> E (p ++ [k]) = false ->
  contains_at x p k = Ok true -> contains_at x' p k = Ok true.
Proof.
  intros HK Ep Epk Hc.
  apply contains_at_inv in Hc as (c & Hc & Hin).
  destruct (HK p c Ep Hc) as (c' & Hc' & Hleaf).
  apply contains_at_inv.
  destruct c as [| | | | | |d];
    try (exists c'; split; [exact Hc' | rewrite (Hleaf eq_refl); exact Hin]).
  cbn in Hin. injection Hin as Hin. apply dict_mem_get in Hin as [v Hv].
  assert (Hpk : lookup x (p ++ [k]) = Some v).
  { rewrite lookup_app, Hc. cbn. rewrite Hv. reflexivity. }
  destruct (HK _ _ Epk Hpk) as (v' & Hv' & _).
  apply lookup_snoc_some in Hv' as (d' & Hd' & Hk').
  exists (JDict d'). split; [exact Hd'|].
  cbn. unfold dict_mem. rewrite Hk'. reflexivity.
Qed.

(** A change inside the value under [k] is a change of the mapping that
    holds it, in the region under [k]. *)
Lemma keeps_under_key (E : list string -> bool) (k : string) (d : dict)
  (sub sub' : json) :
  dict_get k d = Some sub ->
  keeps E sub sub' ->
  keeps (under_key k E) (JDict d) (JDict (dict_set k sub' d)).
Proof.
  intros Hd HK q w HE Hq.
  destruct q as [|a q].
  - cbn in *. injection Hq as <-. eexists. split; [reflexivity | discriminate].
  - cbn [lookup under_key] in *. rewrite dict_get_set.
    destruct (String.eqb a k) eqn:Ea.
    + apply String.eqb_eq in Ea. subst a. rewrite Hd in Hq.
      cbn in HE. apply (HK q w HE Hq).
    + exists w. auto.
Qed.

(** Outside the key [k] the two mappings have the same paths. *)
Lemma lookup_dict_set_other (k a : string) (v : json) (d : dict) (q : list string) :
  String.eqb a k = false ->
  lookup (JDict (dict_set k v d)) (a :: q) = lookup (JDict d) (a :: q).
Proof. intros E. cbn. rewrite dict_get_set, E. reflexivity. Qed.

(** *** The three steps that are not insertions *)

Lemma rename_gnss_inv (x x' : json) :
  rename_gnss x = Ok x' ->
  (contains_at x ["Components"] "GNSS receiver" = Ok false /\ x' = x)
  \/ (exists d c g,
        x = JDict d /\ dict_get "Components" d = Some (JDict c) /\
        dict_get "GNSS receiver" c = Some g /\
        x' = JDict (dict_set "Components"
                      (JDict (dict_set "GNSS Receiver" g
                                (dict_remove "GNSS receiver" c))) d)).
Proof.
  unfold rename_gnss.
  destruct (contains_at x ["Components"] "GNSS receiver") as [[|]|e] eqn:Hc;
    cbn; try discriminate.
  - intros H. right.
    destruct (py_getitem x "Components") as [components|e] eqn:Hg;
      [|discriminate H].
    apply py_getitem_ok in Hg as (d & -> & Hd). cbn [bind] in H.
    destruct components as [| | | | | |c]; try discriminate H.
    cbn [py_pop] in H.
    destruct (dict_get "GNSS receiver" c) as [g|] eqn:Hgn; [|discriminate H].
    cbn in H. injection H as <-.
    exists d, c, g. auto.
  - intros [= <-]. auto.
Qed.

Lemma rename_gnss_keeps (x x' : json) :
  rename_gnss x = Ok x' ->
  x' = x
  \/ (has_path x ["Components"; "GNSS receiver"] = true
      /\ keeps (under_key "Components"
                  (starts_with ["GNSS receiver"; "GNSS Receiver"])) x x').
Proof.
  intros H. apply rename_gnss_inv in H as [[_ ->] | (d & c & g & -> & Hd & Hg & ->)];
    [left; reflexivity | right].
  split; [unfold has_path; cbn; rewrite Hd, Hg; reflexivity|].
  apply (keeps_under_key _ _ _ _ _ Hd).
  intros q w HE Hq. destruct q as [|a q].
  - cbn in *. injection Hq as <-. eexists. split; [reflexivity | discriminate].
  - cbn [starts_with existsb] in HE. rewrite orb_false_r in HE.
    apply orb_false_elim in HE as [E1 E2].
    cbn [lookup] in *. rewrite dict_get_set, E2, dict_get_remove, E1.
    exists w. auto.
Qed.

(** After the renaming step the deprecated key is not in the components. *)
Lemma rename_gnss_removes (x x' : json) :
  rename_gnss x = Ok x' ->
  contains_at x' ["Components"] "GNSS receiver" = Ok false.
Proof.
  intros H. apply rename_gnss_inv in H as [[Hc ->] | (d & c & g & -> & Hd & Hg & ->)];
    [exact Hc|].
  unfold contains_at. cbn. rewrite dict_get_set. cbn.
  unfold dict_mem. rewrite dict_get_set. cbn. rewrite dict_get_remove. reflexivity.
Qed.

Lemma stamp_keeps (version : string) (x x' : json) :
  py_setitem x "Program version" (JStr version) = Ok x' ->
  keeps (starts_with ["Program version"]) x x'.
Proof.
  intros H. apply py_setitem_ok in H as (d & -> & ->).
  intros q w HE Hq. destruct q as [|a q].
  - cbn in *. injection Hq as <-. eexists. split; [reflexivity | discriminate].
  - cbn [starts_with existsb] in HE. rewrite orb_false_r in HE.
    rewrite (lookup_dict_set_other _ _ _ _ _ HE). exists w. auto.
Qed.

Lemma rebuild_flight_controller_inv (x x' : json) :
  rebuild_flight_controller x = Ok x' ->
  (contains_at x ["Components"; "Flight Controller"] "Specifications" = Ok true
   /\ x' = x)
  \/ (exists d c fc product firmware notes,
        x = JDict d /\ dict_get "Components" d = Some (JDict c) /\
        dict_get "Flight Controller" c = Some (JDict fc) /\
        dict_get "Specifications" fc = None /\
        dict_get "Product" fc = Some product /\
        dict_get "Firmware" fc = Some firmware /\
        dict_get "Notes" fc = Some notes /\
        x' = JDict (dict_set "Components"
                      (JDict (dict_set "Flight Controller"
                                (rebuilt_flight_controller product firmware notes)
                                c)) d)).
Proof.
  unfold rebuild_flight_controller.
  destruct (contains_at x ["Components"; "Flight Controller"] "Specifications")
    as [[|]|e] eqn:Hc; cbn [bind negb]; try discriminate.
  - intros [= <-]. auto.
  - intros H. right.
    apply contains_at_inv in Hc as (fcv & Hl & Hin).
    destruct x as [| | | | | |d]; try discriminate Hl.
    cbn [lookup] in Hl.
    destruct (dict_get "Components" d) as [cv|] eqn:Hd; [|discriminate Hl].
    destruct cv as [| | | | | |c]; try discriminate Hl.
    destruct (dict_get "Flight Controller" c) as [fcv'|] eqn:Hfc; [|discriminate Hl].
    injection Hl as ->.
    cbn [getitem_path py_getitem bind] in H. rewrite Hd in H.
    cbn [getitem_path py_getitem bind] in H. rewrite Hfc in H.
    cbn [getitem_path py_getitem bind] in H.
    destruct fcv as [| | | | | |fc]; cbn [py_getitem bind] in H;
      try discriminate H.
    destruct (dict_get "Product" fc) as [product|] eqn:Hp;
      cbn [bind] in H; [|discriminate H].
    destruct (dict_get "Firmware" fc) as [firmware|] eqn:Hf;
      cbn [bind] in H; [|discriminate H].
    destruct (dict_get "Notes" fc) as [notes|] eqn:Hn;
      cbn [bind] in H; [|discriminate H].
    cbn [bind setitem_path py_getitem py_setitem] in H. rewrite Hd in H.
    cbn in H. injection H as <-.
    cbn in Hin. injection Hin as Hin. unfold dict_mem in Hin.
    destruct (dict_get "Specifications" fc) eqn:Hs; [discriminate Hin|].
    exists d, c, fc, product, firmware, notes. repeat split; auto.
Qed.

Lemma rebuild_flight_controller_keeps (x x' : json) :
  rebuild_flight_controller x = Ok x' ->
  x' = x
  \/ (has_path x ["Components"; "Flight Controller"; "Specifications"] = false
      /\ keeps (under_key "Components"
                  (under_key "Flight Controller"
                     (starts_outside ["Product"; "Firmware"; "Notes"]))) x x').
Proof.
  intros H.
  apply rebuild_flight_controller_inv in H
    as [[_ ->] | (d & c & fc & p & f & n & -> & Hd & Hfc & Hs & Hp & Hf & Hn & ->)];
    [left; reflexivity | right].
  split; [unfold has_path; cbn; rewrite Hd, Hfc, Hs; reflexivity|].
  apply (keeps_under_key _ _ _ _ _ Hd).
  apply (keeps_under_key _ _ _ _ _ Hfc).
  intros q w HE Hq. destruct q as [|a q].
  - cbn in *. injection Hq as <-. eexists. split; [reflexivity | discriminate].
  - cbn [starts_outside existsb] in HE. rewrite orb_false_r in HE.
    apply negb_false_iff in HE.
    cbn [lookup] in Hq. unfold rebuilt_flight_controller. cbn [lookup dict_get].
    destruct (String.eqb a "Product") eqn:E1.
    { apply String.eqb_eq in E1. subst a. rewrite Hp in Hq. exists w. auto. }
    destruct (String.eqb a "Firmware") eqn:E2.
    { apply String.eqb_eq in E2. subst a. rewrite Hf in Hq. exists w. auto. }
    cbn [orb] in HE.
    destruct (String.eqb a "Specifications") eqn:E3.
    { apply String.eqb_eq in E3. subst a. discriminate HE. }
    rewrite HE. apply String.eqb_eq in HE. subst a. rewrite Hn in Hq.
    exists w. auto.
Qed.

Lemma rebuild_flight_controller_contains (x x' : json) :
  rebuild_flight_controller x = Ok x' ->
  contains_at x' ["Components"; "Flight Controller"] "Specifications" = Ok true.
Proof.
  intros H.
  apply rebuild_flight_controller_inv in H
    as [[Hc ->] | (d & c & fc & p & f & n & -> & Hd & Hfc & Hs & Hp & Hf & Hn & ->)];
    [exact Hc|].
  unfold contains_at. cbn. rewrite dict_get_set. cbn. rewrite dict_get_set. reflexivity.
Qed.

(** *** A run, statement by statement *)

Lemma update_falsy (version : string) (d : json) :
  py_truthy d = false -> update_vehicle_components version d = Ok (JDict []).
Proof. intros H. unfold update_vehicle_components. rewrite H. reflexivity. Qed.

Ltac next_step H :=
  match type of H with
  | bind ?m _ = Ok _ =>
      let E := fresh "Hstep" in
      destruct m eqn:E; cbn [bind] in H; [|discriminate H]
  end.

Lemma update_run (version : string) (d d' : json) :
  py_truthy d = true ->
  update_vehicle_components version d = Ok d' ->
  migration_run version d d'.
Proof.
  intros Ht H. unfold update_vehicle_components in H. rewrite Ht in H.
  cbn [negb] in H.
  do 13 next_step H.
  injection H as <-.
  econstructor; eassumption.
Qed.

Lemma run_update (version : string) (d d' : json) :
  py_truthy d = true ->
  migration_run version d d' ->
  update_vehicle_components version d = Ok d'.
Proof.
  intros Ht [d1 d2 d3 d4 d5 d6 d7 d8 d9 d10 d11 d12
             H1 H2 H3 H4 H5 H6 H7 H8 H9 H10 H11 H12 H13].
  unfold update_vehicle_components. rewrite Ht. cbn [negb].
  rewrite H1; cbn [bind]. rewrite H2; cbn [bind]. rewrite H3; cbn [bind].
  rewrite H4; cbn [bind]. rewrite H5; cbn [bind]. rewrite H6; cbn [bind].
  rewrite H7; cbn [bind]. rewrite H8; cbn [bind]. rewrite H9; cbn [bind].
  rewrite H10; cbn [bind]. rewrite H11; cbn [bind]. rewrite H12; cbn [bind].
  rewrite H13; reflexivity.
Qed.

(** *** Paths that a step leaves exactly as they are *)

Lemma setitem_path_exact (p : list string) :
  forall (x x' : json) (k : string) (v : json) (q : list string) (w : json),
    setitem_path x p k v = Ok x' ->
    contains_at x p k = Ok false ->
    is_prefix q p = false ->
    lookup x q = Some w -> lookup x' q = Some w.
Proof.
  induction p as [|k0 r IH]; intros x x' k v q w H Hc Hp Hq.
  - apply py_setitem_ok in H as (d & -> & ->).
    cbn in Hc. injection Hc as Hc. unfold dict_mem in Hc.
    destruct q as [|a q]; [discriminate Hp|].
    cbn [lookup] in *. rewrite dict_get_set.
    destruct (String.eqb a k) eqn:E; [|exact Hq].
    apply String.eqb_eq in E. subst a.
    destruct (dict_get k d); discriminate.
  - apply setitem_path_cons in H as (d & sub & sub' & -> & Hd & Hs & ->).
    assert (Hc' : contains_at sub r k = Ok false).
    { unfold contains_at in *. cbn in Hc. rewrite Hd in Hc. exact Hc. }
    destruct q as [|a q]; [discriminate Hp|].
    cbn [lookup is_prefix] in *. rewrite dict_get_set.
    destruct (String.eqb a k0) eqn:E; [|exact Hq].
    apply String.eqb_eq in E. subst a. rewrite Hd in Hq.
    cbn [andb] in Hp. apply (IH _ _ _ _ _ _ Hs Hc' Hp Hq).
Qed.

(** An insertion leaves every path that is not an ancestor of the place of
    insertion. *)
Lemma ensure_at_exact (p : list string) (k : string) (v : json) (x x' : json)
  (q : list string) (w : json) :
  ensure_at p k v x = Ok x' ->
  is_prefix q p = false ->
  lookup x q = Some w -> lookup x' q = Some w.
Proof.
  intros H Hp Hq. apply ensure_at_inv in H as [[_ ->] | [Hc Hs]]; [exact Hq|].
  apply (setitem_path_exact _ _ _ _ _ _ _ Hs Hc Hp Hq).
Qed.

Lemma rename_gnss_exact (x x' : json) (a : string) (q : list string) :
  rename_gnss x = Ok x' ->
  existsb (String.eqb a) ["GNSS receiver"; "GNSS Receiver"] = false ->
  lookup x' ("Components" :: a :: q) = lookup x ("Components" :: a :: q).
Proof.
  intros H Ha.
  apply rename_gnss_inv in H as [[_ ->] | (d & c & g & -> & Hd & Hg & ->)];
    [reflexivity|].
  cbn [existsb] in Ha. rewrite orb_false_r in Ha.
  apply orb_false_elim in Ha as [E1 E2].
  cbn [lookup]. rewrite dict_get_set, Hd. cbn.
  rewrite dict_get_set, E2, dict_get_remove, E1. reflexivity.
Qed.

Lemma stamp_exact (version : string) (x x' : json) (a : string) (q : list string) :
  py_setitem x "Program version" (JStr version) = Ok x' ->
  String.eqb a "Program version" = false ->
  lookup x' (a :: q) = lookup x (a :: q).
Proof.
  intros H Ha. apply py_setitem_ok in H as (d & -> & ->).
  apply lookup_dict_set_other. exact Ha.
Qed.

Lemma rebuild_flight_controller_exact (x x' : json) (a : string) (q : list string) :
  rebuild_flight_controller x = Ok x' ->
  String.eqb a "Flight Controller" = false ->
  lookup x' ("Components" :: a :: q) = lookup x ("Components" :: a :: q).
Proof.
  intros H Ha.
  apply rebuild_flight_controller_inv in H
    as [[_ ->] | (d & c & fc & p & f & n & -> & Hd & Hfc & Hs & Hp & Hf & Hn & ->)];
    [reflexivity|].
  cbn [lookup]. rewrite dict_get_set, Hd. cbn.
  rewrite dict_get_set, Ha. reflexivity.
Qed.

(** *** The battery chemistry *)

Lemma resolve_after_lookup (p q : list string) :
  forall x c, lookup x p = Some c -> resolve x (p ++ q) = resolve c q.
Proof.
  induction p as [|k r IH]; intros x c H.
  - cbn in *. injection H as ->. reflexivity.
  - cbn [app resolve lookup] in *.
    destruct x as [| | | | | |d]; try discriminate H.
    destruct (dict_get k d) as [sub|]; [|discriminate H].
    apply (IH _ _ H).
Qed.

(** Inserting an empty mapping on the way to [q] leaves [q] missing. *)
Lemma setitem_path_still_missing (p : list string) :
  forall (x x' : json) (k : string) (q : list string),
    setitem_path x p k (JDict []) = Ok x' ->
    resolve x (p ++ k :: q) = Missing ->
    q <> [] ->
    resolve x' (p ++ k :: q) = Missing.
Proof.
  induction p as [|k0 r IH]; intros x x' k q H Hm Hq.
  - apply py_setitem_ok in H as (d & -> & ->).
    cbn [app resolve]. rewrite dict_get_set, String.eqb_refl.
    destruct q as [|a q]; [contradiction Hq; reflexivity | reflexivity].
  - apply setitem_path_cons in H as (d & sub & sub' & -> & Hd & Hs & ->).
    cbn [app resolve] in *. rewrite dict_get_set, String.eqb_refl.
    rewrite Hd in Hm. apply (IH _ _ _ _ Hs Hm Hq).
Qed.

Lemma ensure_at_still_missing (p : list string) (k : string) (x x' : json)
  (q : list string) :
  ensure_at p k (JDict []) x = Ok x' ->
  resolve x (p ++ k :: q) = Missing ->
  q <> [] ->
  resolve x' (p ++ k :: q) = Missing.
Proof.
  intros H Hm Hq. apply ensure_at_inv in H as [[_ ->] | [_ Hs]]; [exact Hm|].
  apply (setitem_path_still_missing _ _ _ _ _ Hs Hm Hq).
Qed.

(** Inserting the field that is missing puts the default there. *)
Lemma ensure_at_fills_missing (p : list string) (k : string) (v : json)
  (x x' : json) :
  ensure_at p k v x = Ok x' ->
  resolve x (p ++ [k]) = Missing ->
  lookup x' (p ++ [k]) = Some v.
Proof.
  intros H Hm. apply ensure_at_inv in H as [[Hc ->] | [_ Hs]].
  - exfalso. apply contains_at_inv in Hc as (c & Hc & Hin).
    rewrite (resolve_after_lookup _ _ _ _ Hc) in Hm.
    destruct c as [| | | | | |s]; try discriminate Hm.
    cbn in Hm, Hin. unfold dict_mem in Hin.
    destruct (dict_get k s); discriminate.
  - apply (lookup_setitem_path_same _ _ _ _ _ Hs).
Qed.

(** C7, as amended.  On a non-empty document on which the migration
    completes: if the field [Components.Battery.Specifications.Chemistry] is
    missing from a mapping on its path, the result has it, set to
    ["Lipo"]; if the document has the field, the result has it with the
    same value. *)
Theorem migration_chemistry (version : string) (d d' : json) :
  py_truthy d = true ->
  update_vehicle_components version d = Ok d' ->
  (resolve d chemistry_path = Missing ->
   lookup d' chemistry_path = Some (JStr "Lipo"))
  /\ (forall v, lookup d chemistry_path = Some v ->
      lookup d' chemistry_path = Some v).
Proof.
  intros Ht H.
  destruct (update_run _ _ _ Ht H)
    as [d1 d2 d3 d4 d5 d6 d7 d8 d9 d10 d11 d12
        H1 H2 H3 H4 H5 H6 H7 H8 H9 H10 H11 H12 H13].
  assert (Tail : forall w,
             lookup d4 chemistry_path = Some w ->
             lookup d' chemistry_path = Some w).
  { intros w Hw.
    apply (ensure_at_exact _ _ _ _ _ chemistry_path _ H5 eq_refl) in Hw.
    apply (ensure_at_exact _ _ _ _ _ chemistry_path _ H6 eq_refl) in Hw.
    apply (ensure_at_exact _ _ _ _ _ chemistry_path _ H7 eq_refl) in Hw.
    apply (ensure_at_exact _ _ _ _ _ chemistry_path _ H8 eq_refl) in Hw.
    apply (ensure_at_exact _ _ _ _ _ chemistry_path _ H9 eq_refl) in Hw.
    unfold chemistry_path in *.
    rewrite <- (rename_gnss_exact _ _ "Battery" _ H10 eq_refl) in Hw.
    rewrite <- (stamp_exact _ _ _ "Components" _ H11 eq_refl) in Hw.
    apply (ensure_at_exact _ _ _ _ _
             ["Components"; "Battery"; "Specifications"; "Chemistry"] _ H12 eq_refl)
      in Hw.
    rewrite <- (rebuild_flight_controller_exact _ _ "Battery" _ H13 eq_refl) in Hw.
    exact Hw. }
  split.
  - intros Hm. apply Tail. unfold chemistry_path in *.
    apply (ensure_at_still_missing [] "Components" _ _
             ["Battery"; "Specifications"; "Chemistry"] H1) in Hm;
      [|discriminate].
    apply (ensure_at_still_missing ["Components"] "Battery" _ _
             ["Specifications"; "Chemistry"] H2) in Hm; [|discriminate].
    apply (ensure_at_still_missing ["Components"; "Battery"] "Specifications"
             _ _ ["Chemistry"] H3) in Hm; [|discriminate].
    apply (ensure_at_fills_missing ["Components"; "Battery"; "Specifications"]
             "Chemistry" _ _ _ H4 Hm).
  - intros v Hv. apply Tail.
    apply (ensure_at_exact _ _ _ _ _ chemistry_path _ H1 eq_refl) in Hv.
    apply (ensure_at_exact _ _ _ _ _ chemistry_path _ H2 eq_refl) in Hv.
    apply (ensure_at_exact _ _ _ _ _ chemistry_path _ H3 eq_refl) in Hv.
    apply (ensure_at_exact _ _ _ _ _ chemistry_path _ H4 eq_refl) in Hv.
    exact Hv.
Qed.

Lemma migration_chemistry_witness :
  py_truthy sample_old_document = true
  /\ (exists d',
        update_vehicle_components sample_version sample_old_document = Ok d'
        /\ resolve sample_old_document chemistry_path = Missing
        /\ lookup d' chemistry_path = Some (JStr "Lipo")).
Proof.
  split; [reflexivity|].
  eexists. split; [reflexivity|]. split; [reflexivity|].
  exact (proj1 (migration_chemistry sample_version sample_old_document _
                  eq_refl eq_refl) eq_refl).
Defined.

(** C7, as stated, fails on the empty document: the migration returns the
    empty document, which has no battery chemistry. *)
Lemma migration_of_empty_document_adds_nothing :
  update_vehicle_components sample_version (JDict []) = Ok (JDict [])
  /\ lookup (JDict []) chemistry_path = None.
Proof. split; reflexivity. Qed.

(** *** Idempotence *)

Lemma keeps_region_trans (x y z : json) :
  keeps rewritten_region x y -> keeps rewritten_region y z ->
  keeps rewritten_region x z.
Proof.
  intros H1 H2.
  apply (keeps_weaken (fun q => rewritten_region q || rewritten_region q)).
  - intros q H. rewrite H. reflexivity.
  - apply (keeps_trans _ _ _ _ _ H1 H2).
Qed.

Lemma ensure_at_keeps_region (p : list string) (k : string) (v : json)
  (x x' : json) :
  ensure_at p k v x = Ok x' -> keeps rewritten_region x x'.
Proof.
  intros H. apply (keeps_weaken nowhere); [reflexivity|].
  apply (ensure_at_keeps _ _ _ _ _ H).
Qed.

Lemma rename_gnss_keeps_region (x x' : json) :
  rename_gnss x = Ok x' -> keeps rewritten_region x x'.
Proof.
  intros H. apply rename_gnss_keeps in H as [-> | [_ H]]; [apply keeps_refl|].
  revert H. apply keeps_weaken. intros q Hq. unfold rewritten_region in Hq.
  apply orb_false_elim in Hq as [Hq _]. apply orb_false_elim in Hq as [_ Hq].
  exact Hq.
Qed.

Lemma stamp_keeps_region (version : string) (x x' : json) :
  py_setitem x "Program version" (JStr version) = Ok x' ->
  keeps rewritten_region x x'.
Proof.
  intros H. apply stamp_keeps in H.
  revert H. apply keeps_weaken. intros q Hq. unfold rewritten_region in Hq.
  apply orb_false_elim in Hq as [Hq _]. apply orb_false_elim in Hq as [Hq _].
  exact Hq.
Qed.

Lemma rebuild_keeps_region (x x' : json) :
  rebuild_flight_controller x = Ok x' -> keeps rewritten_region x x'.
Proof.
  intros H. apply rebuild_flight_controller_keeps in H as [-> | [_ H]];
    [apply keeps_refl|].
  revert H. apply keeps_weaken. intros q Hq. unfold rewritten_region in Hq.
  apply orb_false_elim in Hq as [_ Hq]. exact Hq.
Qed.

Lemma ensure_at_noop (p : list string) (k : string) (v : json) (x : json) :
  contains_at x p k = Ok true -> ensure_at p k v x = Ok x.
Proof. intros H. unfold ensure_at. rewrite H. reflexivity. Qed.

Lemma contains_false_by_lookup (x : json) (c : dict) (k : string) :
  lookup x ["Components"] = Some (JDict c) ->
  lookup x ["Components"; k] = None ->
  contains_at x ["Components"] k = Ok false.
Proof.
  intros Hc Hk. apply contains_at_inv. exists (JDict c). split; [exact Hc|].
  change ["Components"; k] with (["Components"] ++ [k]) in Hk.
  rewrite lookup_app, Hc in Hk. cbn in *. unfold dict_mem.
  destruct (dict_get k c); [discriminate Hk | reflexivity].
Qed.

Lemma lookup_by_contains_false (x : json) (k : string) :
  contains_at x ["Components"] k = Ok false ->
  (exists c, lookup x ["Components"] = Some (JDict c)) ->
  lookup x ["Components"; k] = None.
Proof.
  intros Hc [c Hl]. apply contains_at_inv in Hc as (c' & Hc' & Hin).
  rewrite Hl in Hc'. injection Hc' as <-.
  change ["Components"; k] with (["Components"] ++ [k]).
  rewrite lookup_app, Hl. cbn in *. unfold dict_mem in Hin.
  destruct (dict_get k c); [discriminate Hin | reflexivity].
Qed.

Lemma components_is_mapping (x : json) (k : string) (p : list string) (w : json) :
  lookup x ("Components" :: k :: p) = Some w ->
  exists c, lookup x ["Components"] = Some (JDict c).
Proof.
  destruct x as [| | | | | |d]; try discriminate. cbn.
  destruct (dict_get "Components" d) as [c|]; [|discriminate].
  destruct c as [| | | | | |c]; try discriminate. eauto.
Qed.

Ltac stays K H :=
  apply (contains_kept _ _ _ _ _ K);
  [reflexivity | reflexivity | apply (ensure_at_contains _ _ _ _ _ H)].

(** What holds of the result of a run, and makes a second run change
    nothing. *)
Lemma run_reaches_fixed_point (version : string) (d d' : json) :
  migration_run version d d' ->
  migration_run version d' d' /\ py_truthy d' = true.
Proof.
  intros [d1 d2 d3 d4 d5 d6 d7 d8 d9 d10 d11 d12
          H1 H2 H3 H4 H5 H6 H7 H8 H9 H10 H11 H12 H13].
  pose proof (rebuild_keeps_region _ _ H13) as K13.
  pose proof (keeps_region_trans _ _ _ (ensure_at_keeps_region _ _ _ _ _ H12) K13) as K12.
  pose proof (keeps_region_trans _ _ _ (stamp_keeps_region _ _ _ H11) K12) as K11.
  pose proof (keeps_region_trans _ _ _ (rename_gnss_keeps_region _ _ H10) K11) as K10.
  pose proof (keeps_region_trans _ _ _ (ensure_at_keeps_region _ _ _ _ _ H9) K10) as K9.
  pose proof (keeps_region_trans _ _ _ (ensure_at_keeps_region _ _ _ _ _ H8) K9) as K8.
  pose proof (keeps_region_trans _ _ _ (ensure_at_keeps_region _ _ _ _ _ H7) K8) as K7.
  pose proof (keeps_region_trans _ _ _ (ensure_at_keeps_region _ _ _ _ _ H6) K7) as K6.
  pose proof (keeps_region_trans _ _ _ (ensure_at_keeps_region _ _ _ _ _ H5) K6) as K5.
  pose proof (keeps_region_trans _ _ _ (ensure_at_keeps_region _ _ _ _ _ H4) K5) as K4.
  pose proof (keeps_region_trans _ _ _ (ensure_at_keeps_region _ _ _ _ _ H3) K4) as K3.
  pose proof (keeps_region_trans _ _ _ (ensure_at_keeps_region _ _ _ _ _ H2) K3) as K2.
  assert (F1 : contains_at d' [] "Components" = Ok true) by stays K2 H1.
  assert (F2 : contains_at d' ["Components"] "Battery" = Ok true) by stays K3 H2.
  assert (F3 : contains_at d' ["Components"; "Battery"] "Specifications" = Ok true)
    by stays K4 H3.
  assert (F4 : contains_at d' ["Components"; "Battery"; "Specifications"]
                 "Chemistry" = Ok true) by stays K5 H4.
  assert (F5 : contains_at d' ["Components"; "Battery"; "Specifications"]
                 "Capacity mAh" = Ok true) by stays K6 H5.
  assert (F6 : contains_at d' ["Components"] "Frame" = Ok true) by stays K7 H6.
  assert (F7 : contains_at d' ["Components"; "Frame"] "Specifications" = Ok true)
    by stays K8 H7.
  assert (F8 : contains_at d' ["Components"; "Frame"; "Specifications"]
                 "TOW min Kg" = Ok true) by stays K9 H8.
  assert (F9 : contains_at d' ["Components"; "Frame"; "Specifications"]
                 "TOW max Kg" = Ok true) by stays K10 H9.
  assert (F12 : contains_at d' ["Components"] "Flight Controller" = Ok true)
    by stays K13 H12.
  assert (F13 := rebuild_flight_controller_contains _ _ H13).
  (* the components are a mapping from the second statement on *)
  assert (M : forall x, contains_at x ["Components"; "Battery"] "Specifications" = Ok true ->
                        exists c, lookup x ["Components"] = Some (JDict c)).
  { intros x Hx. apply contains_at_inv in Hx as (b & Hb & _).
    apply (components_is_mapping _ _ _ _ Hb). }
  (* the deprecated key stays away *)
  assert (F10 : contains_at d' ["Components"] "GNSS receiver" = Ok false).
  { destruct (M d' F3) as [c' Hc'].
    apply (contains_false_by_lookup _ _ _ Hc').
    assert (M10 : exists c, lookup d10 ["Components"] = Some (JDict c)).
    { apply M.
      assert (K : keeps rewritten_region d3 d10).
      { repeat (eapply keeps_region_trans;
                [eapply ensure_at_keeps_region; eassumption|]).
        apply (rename_gnss_keeps_region _ _ H10). }
      stays K H3. }
    pose proof (lookup_by_contains_false _ _ (rename_gnss_removes _ _ H10) M10) as L10.
    rewrite <- (stamp_exact _ _ _ "Components" _ H11 eq_refl) in L10.
    rewrite (rebuild_flight_controller_exact _ _ "GNSS receiver" _ H13 eq_refl).
    apply ensure_at_inv in H12 as [[_ ->] | [_ Hs]]; [exact L10|].
    rewrite (lookup_setitem_path_other _ _ _ _ _ ["Components"; "GNSS receiver"] Hs);
      [exact L10 | split; reflexivity]. }
  (* the stamp stays *)
  assert (F11 : py_setitem d' "Program version" (JStr version) = Ok d').
  { assert (L11 : lookup d11 ["Program version"] = Some (JStr version)).
    { apply py_setitem_ok in H11 as (l10 & _ & ->). cbn.
      rewrite dict_get_set. reflexivity. }
    apply (ensure_at_exact _ _ _ _ _ ["Program version"] _ H12 eq_refl) in L11.
    assert (L' : lookup d' ["Program version"] = Some (JStr version)).
    { apply rebuild_flight_controller_keeps in H13 as [-> | [_ K]]; [exact L11|].
      destruct (K ["Program version"] _ eq_refl L11) as (w' & Hw' & Hleaf).
      rewrite Hw', (Hleaf eq_refl). reflexivity. }
    destruct d' as [| | | | | |l']; try discriminate L'.
    cbn in L'. cbn.
    destruct (dict_get "Program version" l') as [w|] eqn:E; [|discriminate L'].
    injection L' as ->. rewrite (dict_set_same _ _ _ E). reflexivity. }
  split.
  - apply (MigrationRun version d' d' d' d' d' d' d' d' d' d' d' d' d' d');
      try (apply ensure_at_noop; assumption).
    + unfold rename_gnss. rewrite F10. reflexivity.
    + exact F11.
    + unfold rebuild_flight_controller. rewrite F13. reflexivity.
  - apply py_setitem_ok in F11 as (l' & -> & _).
    cbn in F1. injection F1 as F1.
    destruct l'; [discriminate F1 | reflexivity].
Qed.

Lemma update_result_is_fixed (version : string) (d d' : json) :
  update_vehicle_components version d = Ok d' ->
  update_vehicle_components version d' = Ok d'.
Proof.
  intros H. destruct (py_truthy d) eqn:Ht.
  - apply update_run in H; [|exact Ht].
    apply run_reaches_fixed_point in H as [Hrun Ht'].
    apply (run_update _ _ _ Ht' Hrun).
  - rewrite (update_falsy _ _ Ht) in H. injection H as <-. reflexivity.
Qed.

(** C4.  The migration is idempotent: when it returns a document, running
    it on that document returns the same document, so that
    [migrate(migrate(d))] and [migrate(d)] are the same outcome. *)
Theorem migration_idempotent (version : string) (d d' : json) :
  update_vehicle_components version d = Ok d' ->
  update_vehicle_components version d' = Ok d'
  /\ bind (update_vehicle_components version d)
          (update_vehicle_components version)
     = update_vehicle_components version d.
Proof.
  intros H. pose proof (update_result_is_fixed _ _ _ H) as H'.
  split; [exact H'|]. rewrite H. cbn. exact H'.
Qed.

Lemma migration_idempotent_witness :
  exists d',
    update_vehicle_components sample_version sample_old_document = Ok d'
    /\ lookup d' ["Components"; "Flight Controller"; "Specifications"; "MCU Series"]
       = Some (JStr "Unknown")
    /\ update_vehicle_components sample_version d' = Ok d'.
Proof.
  eexists. split; [reflexivity|]. split; [reflexivity|].
  exact (proj1 (migration_idempotent sample_version sample_old_document _ eq_refl)).
Defined.

(** The same, with the exception of a failing run carried along:
    [migrate(migrate(d))] and [migrate(d)] are the same outcome. *)
Lemma migration_idempotent_outcome (version : string) (d : json) :
  bind (update_vehicle_components version d) (update_vehicle_components version)
  = update_vehicle_components version d.
Proof.
  destruct (update_vehicle_components version d) as [d'|e] eqn:H; [|reflexivity].
  cbn. apply (update_result_is_fixed _ _ _ H).
Qed.

(** *** What the migration keeps *)

Lemma keeps_nowhere_trans (x y z : json) :
  keeps nowhere x y -> keeps nowhere y z -> keeps nowhere x z.
Proof.
  intros H1 H2. apply (keeps_weaken (fun q => nowhere q || nowhere q));
    [reflexivity | apply (keeps_trans _ _ _ _ _ H1 H2)].
Qed.

Lemma ensure_at_other (p : list string) (k : string) (v : json) (x x' : json)
  (q : list string) :
  ensure_at p k v x = Ok x' ->
  incomparable (p ++ [k]) q ->
  lookup x' q = lookup x q.
Proof.
  intros H Hq. apply ensure_at_inv in H as [[_ ->] | [_ Hs]]; [reflexivity|].
  apply (lookup_setitem_path_other _ _ _ _ _ _ Hs Hq).
Qed.

(** The insertions before the renaming neither add nor remove the
    deprecated key, in a document that has its components. *)
Lemma deprecated_key_before_rename (version : string)
  (d d1 d2 d3 d4 d5 d6 d7 d8 d9 : json) (b : string) (q : list string) (w : json) :
  lookup d ("Components" :: b :: q) = Some w ->
  ensure_at [] "Components" (JDict []) d = Ok d1 ->
  ensure_at ["Components"] "Battery" (JDict []) d1 = Ok d2 ->
  ensure_at ["Components"; "Battery"] "Specifications" (JDict []) d2 = Ok d3 ->
  ensure_at ["Components"; "Battery"; "Specifications"] "Chemistry"
    (JStr "Lipo") d3 = Ok d4 ->
  ensure_at ["Components"; "Battery"; "Specifications"] "Capacity mAh"
    (JInt 0) d4 = Ok d5 ->
  ensure_at ["Components"] "Frame" (JDict []) d5 = Ok d6 ->
  ensure_at ["Components"; "Frame"] "Specifications" (JDict []) d6 = Ok d7 ->
  ensure_at ["Components"; "Frame"; "Specifications"] "TOW min Kg"
    (JInt 1) d7 = Ok d8 ->
  ensure_at ["Components"; "Frame"; "Specifications"] "TOW max Kg"
    (JInt 1) d8 = Ok d9 ->
  has_path d9 ["Components"; "GNSS receiver"]
  = has_path d ["Components"; "GNSS receiver"].
Proof.
  intros Hw H1 H2 H3 H4 H5 H6 H7 H8 H9.
  assert (E1 : d1 = d).
  { apply ensure_at_inv in H1 as [[_ ->] | [Hc _]]; [reflexivity|].
    exfalso. destruct d as [| | | | | |l]; try discriminate Hw.
    cbn in Hc, Hw. unfold dict_mem in Hc.
    destruct (dict_get "Components" l); discriminate. }
  subst d1. unfold has_path.
  rewrite (ensure_at_other _ _ _ _ _ ["Components"; "GNSS receiver"] H9)
    by (split; reflexivity).
  rewrite (ensure_at_other _ _ _ _ _ ["Components"; "GNSS receiver"] H8)
    by (split; reflexivity).
  rewrite (ensure_at_other _ _ _ _ _ ["Components"; "GNSS receiver"] H7)
    by (split; reflexivity).
  rewrite (ensure_at_other _ _ _ _ _ ["Components"; "GNSS receiver"] H6)
    by (split; reflexivity).
  rewrite (ensure_at_other _ _ _ _ _ ["Components"; "GNSS receiver"] H5)
    by (split; reflexivity).
  rewrite (ensure_at_other _ _ _ _ _ ["Components"; "GNSS receiver"] H4)
    by (split; reflexivity).
  rewrite (ensure_at_other _ _ _ _ _ ["Components"; "GNSS receiver"] H3)
    by (split; reflexivity).
  rewrite (ensure_at_other _ _ _ _ _ ["Components"; "GNSS receiver"] H2)
    by (split; reflexivity).
  reflexivity.
Qed.

Lemma rename_gnss_keeps_region' (x x' : json) :
  rename_gnss x = Ok x' ->
  keeps (under_key "Components" (starts_with ["GNSS receiver"; "GNSS Receiver"]))
    x x'.
Proof.
  intros H. apply rename_gnss_keeps in H as [-> | [_ H]];
    [apply keeps_refl | exact H].
Qed.

Lemma has_path_kept (E : list string -> bool) (x x' : json) (q : list string) :
  keeps E x x' -> E q = false -> has_path x q = true -> has_path x' q = true.
Proof.
  unfold has_path. intros K HE H.
  destruct (lookup x q) as [w|] eqn:Hq; [|discriminate H].
  destruct (K q w HE Hq) as (w' & Hw' & _). rewrite Hw'. reflexivity.
Qed.

(** C3, as amended.  When the migration returns, every key path of the
    input document is a key path of the result, and leads to the same value
    when that value is not a mapping, except for the paths the migration
    rewrites: those under ["Program version"]; those under the deprecated
    [Components."GNSS receiver"]; those under [Components."GNSS Receiver"]
    when the deprecated key is present too; and, when
    [Components."Flight Controller"] has no ["Specifications"], those under
    a key of it other than ["Product"], ["Firmware"] and ["Notes"]. *)
Theorem migration_keeps_paths (version : string) (d d' : json)
  (p : list string) (v : json) :
  update_vehicle_components version d = Ok d' ->
  p <> [] ->
  lookup d p = Some v ->
  touched d p = false ->
  exists v', lookup d' p = Some v' /\ (isinstance_dict v = false -> v' = v).
Proof.
  intros H Hp Hv Ht.
  destruct p as [|a q]; [contradiction Hp; reflexivity|]. clear Hp.
  assert (Htruthy : py_truthy d = true).
  { destruct d as [| | | | | |l]; try discriminate Hv.
    destruct l; [discriminate Hv | reflexivity]. }
  destruct (update_run _ _ _ Htruthy H)
    as [d1 d2 d3 d4 d5 d6 d7 d8 d9 d10 d11 d12
        H1 H2 H3 H4 H5 H6 H7 H8 H9 H10 H11 H12 H13].
  unfold touched in Ht.
  apply orb_false_elim in Ht as [Ht T4].
  apply orb_false_elim in Ht as [Ht T3].
  apply orb_false_elim in Ht as [T1 T2].
  (* the nine insertions *)
  assert (KA : keeps nowhere d d9).
  { repeat (eapply keeps_nowhere_trans;
            [eapply ensure_at_keeps; eassumption|]).
    apply keeps_refl. }
  (* the renaming *)
  assert (KR : exists ER, keeps ER d9 d10 /\ ER (a :: q) = false).
  { destruct (rename_gnss_keeps _ _ H10) as [-> | [Hhas K]].
    - exists nowhere. split; [apply keeps_refl | reflexivity].
    - eexists. split; [exact K|].
      cbn [under_key] in *.
      destruct (String.eqb a "Components") eqn:Ea; [|reflexivity].
      apply String.eqb_eq in Ea. subst a. cbn [andb] in *.
      destruct q as [|b q]; [reflexivity|].
      rewrite (deprecated_key_before_rename version _ _ _ _ _ _ _ _ _ _ _ _ _
                 Hv H1 H2 H3 H4 H5 H6 H7 H8 H9) in Hhas.
      rewrite Hhas in T3. cbn [andb] in T3.
      cbn [starts_with existsb] in *.
      rewrite orb_false_r in T2, T3. rewrite T2, T3. reflexivity. }
  destruct KR as (ER & KR & HER).
  assert (KS := stamp_keeps _ _ _ H11).
  assert (K12 := ensure_at_keeps _ _ _ _ _ H12).
  (* the rebuilding *)
  assert (KB : exists EB, keeps EB d12 d' /\ EB (a :: q) = false).
  { destruct (rebuild_flight_controller_keeps _ _ H13) as [-> | [Hhas K]].
    - exists nowhere. split; [apply keeps_refl | reflexivity].
    - eexists. split; [exact K|].
      destruct (has_path d ["Components"; "Flight Controller"; "Specifications"])
        eqn:Hd; [|exact T4].
      exfalso.
      assert (K' : keeps (fun q => ((nowhere q
                                    || under_key "Components"
                                         (starts_with ["GNSS receiver"; "GNSS Receiver"]) q)
                                   || starts_with ["Program version"] q)
                                  || nowhere q) d d12).
      { apply (keeps_trans _ _ _ _ _
                 (keeps_trans _ _ _ _ _
                    (keeps_trans _ _ _ _ _ KA (rename_gnss_keeps_region' _ _ H10))
                    KS) K12). }
      apply (has_path_kept _ _ _
               ["Components"; "Flight Controller"; "Specifications"] K' eq_refl)
        in Hd.
      rewrite Hd in Hhas. discriminate Hhas. }
  destruct KB as (EB & KB & HEB).
  pose proof (keeps_trans _ _ _ _ _
                (keeps_trans _ _ _ _ _
                   (keeps_trans _ _ _ _ _ (keeps_trans _ _ _ _ _ KA KR) KS)
                   K12) KB) as K.
  apply (K (a :: q) v); [|exact Hv].
  cbn beta. rewrite HER, HEB, T1. reflexivity.
Qed.

Lemma migration_keeps_paths_witness :
  exists d',
    update_vehicle_components sample_version sample_old_document = Ok d'
    /\ lookup sample_old_document
         ["Components"; "Battery"; "Specifications"; "Number of cells"]
       = Some (JInt 4)
    /\ touched sample_old_document
         ["Components"; "Battery"; "Specifications"; "Number of cells"] = false
    /\ exists v',
         lookup d' ["Components"; "Battery"; "Specifications"; "Number of cells"]
         = Some v'
         /\ (isinstance_dict (JInt 4) = false -> v' = JInt 4).
Proof.
  eexists. split; [reflexivity|]. split; [reflexivity|]. split; [reflexivity|].
  apply (migration_keeps_paths sample_version sample_old_document _
           ["Components"; "Battery"; "Specifications"; "Number of cells"]
           (JInt 4) eq_refl);
    [discriminate | reflexivity | reflexivity].
Defined.

(** C3, as stated, fails on a document that has the current receiver key
    and the deprecated one: the value under the current key, which is in
    the current shape, is replaced by the value of the deprecated key. *)
Lemma migration_overwrites_current_receiver :
  lookup sample_two_receivers ["Components"; "GNSS Receiver"; "Product"; "Model"]
  = Some (JStr "u-blox M9N")
  /\ exists d',
       update_vehicle_components sample_version sample_two_receivers = Ok d'
       /\ lookup d' ["Components"; "GNSS Receiver"; "Product"; "Model"]
          = Some (JStr "u-blox M8N").
Proof. split; [reflexivity|]. eexists. split; reflexivity. Qed.

(** The rebuilt flight controller has the four keys of the source and no
    other: a key such as ["Options"] is gone after the migration. *)
Example migration_drops_extra_flight_controller_key :
  lookup sample_extra_key ["Components"; "Flight Controller"; "Options"; "Safety switch"]
  = Some (JStr "none")
  /\ exists d',
       update_vehicle_components sample_version sample_extra_key = Ok d'
       /\ lookup d' ["Components"; "Flight Controller"; "Options"] = None
       /\ lookup d' ["Components"; "Flight Controller"; "Specifications"; "MCU Series"]
          = Some (JStr "Unknown").
Proof. split; [reflexivity|]. eexists. repeat split; reflexivity. Qed.

(** A document without a flight controller makes the migration raise: the
    empty mapping inserted for it has no ["Product"]. *)
Example migration_raises_without_flight_controller :
  update_vehicle_components sample_version (JDict [("Format version", JInt 1)])
  = Raise KeyError.
Proof. reflexivity. Qed.

(** *** Documents on which the migration returns *)

Lemma setitem_path_succeeds (p : list string) :
  forall (x : json) (c : dict) (k : string) (v : json),
    lookup x p = Some (JDict c) -> exists x', setitem_path x p k v = Ok x'.
Proof.
  induction p as [|k0 r IH]; intros x c k v H.
  - cbn in H. injection H as ->. eexists. reflexivity.
  - cbn [lookup] in H. destruct x as [| | | | | |d]; try discriminate H.
    destruct (dict_get k0 d) as [sub|] eqn:Hd; [|discriminate H].
    destruct (IH _ _ k v H) as [sub' Hs].
    cbn [setitem_path py_getitem]. rewrite Hd. cbn [bind]. rewrite Hs.
    eexists. reflexivity.
Qed.

(** An insertion into a mapping returns, and the mapping is still one. *)
Lemma ensure_at_succeeds (p : list string) (k : string) (v : json)
  (x : json) (c : dict) :
  lookup x p = Some (JDict c) ->
  exists x',
    ensure_at p k v x = Ok x'
    /\ (exists c', lookup x' p = Some (JDict c'))
    /\ lookup x' (p ++ [k])
       = Some (match lookup x (p ++ [k]) with Some w => w | None => v end).
Proof.
  intros H.
  assert (Hc : contains_at x p k = Ok (dict_mem k c)).
  { apply contains_at_inv. exists (JDict c). split; [exact H | reflexivity]. }
  assert (Hl : lookup x (p ++ [k]) = dict_get k c).
  { rewrite lookup_app, H. cbn. destruct (dict_get k c); reflexivity. }
  unfold ensure_at. rewrite Hc. unfold dict_mem. rewrite Hl.
  destruct (dict_get k c) as [w|] eqn:Hk; cbn [negb bind].
  - exists x. split; [reflexivity|]. split; [eauto|].
    rewrite Hl. reflexivity.
  - destruct (setitem_path_succeeds p x c k v H) as [x' Hs].
    exists x'. split; [exact Hs|].
    pose proof (lookup_setitem_path_same _ _ _ _ _ Hs) as Hv.
    split; [|exact Hv].
    apply lookup_snoc_some in Hv as (c' & Hc' & _). eauto.
Qed.

(** Inserting an empty mapping where a mapping may already be: the place
    holds a mapping afterwards, and what is below it is as it was. *)
Lemma ensure_mapping_succeeds (p : list string) (k : string) (x : json)
  (c : dict) :
  lookup x p = Some (JDict c) ->
  mapping_or_absent x (p ++ [k]) = true ->
  exists x',
    ensure_at p k (JDict []) x = Ok x'
    /\ (exists c', lookup x' (p ++ [k]) = Some (JDict c'))
    /\ (forall k2, mapping_or_absent x ((p ++ [k]) ++ [k2]) = true ->
                   mapping_or_absent x' ((p ++ [k]) ++ [k2]) = true).
Proof.
  intros H Hm.
  destruct (ensure_at_succeeds p k (JDict []) x c H) as (x' & Hx' & _ & Hv).
  exists x'. split; [exact Hx'|].
  unfold mapping_or_absent in *.
  destruct (lookup x (p ++ [k])) as [w|] eqn:Hw.
  - destruct w as [| | | | | |c']; try discriminate Hm.
    split; [eauto|].
    intros k2 Hk2.
    apply ensure_at_inv in Hx' as [[_ ->] | [Hc _]]; [exact Hk2|].
    exfalso. apply contains_at_inv in Hc as (c0 & Hc0 & Hin).
    rewrite H in Hc0. injection Hc0 as <-.
    rewrite lookup_app, H in Hw. cbn in Hw, Hin. unfold dict_mem in Hin.
    destruct (dict_get k c); discriminate.
  - split; [eauto|].
    intros k2 _. rewrite lookup_app, Hv. reflexivity.
Qed.

Lemma rename_gnss_succeeds (x : json) (c : dict) :
  lookup x ["Components"] = Some (JDict c) ->
  exists x' c',
    rename_gnss x = Ok x' /\ lookup x' ["Components"] = Some (JDict c').
Proof.
  intros H. destruct x as [| | | | | |d]; try discriminate H.
  cbn in H. destruct (dict_get "Components" d) as [cv|] eqn:Hd; [|discriminate H].
  injection H as ->.
  unfold rename_gnss, contains_at.
  cbn [getitem_path py_getitem bind]. rewrite Hd.
  cbn [getitem_path py_getitem bind py_in py_pop]. unfold dict_mem.
  destruct (dict_get "GNSS receiver" c) as [g|] eqn:Hg.
  - cbn [bind fst snd py_setitem]. eexists. eexists. split; [reflexivity|].
    cbn [lookup]. rewrite dict_get_set. reflexivity.
  - exists (JDict d), c. split; [reflexivity|]. cbn [lookup]. rewrite Hd. reflexivity.
Qed.

Lemma rebuild_flight_controller_succeeds (x : json) :
  flight_controller_ready x = true ->
  exists x', rebuild_flight_controller x = Ok x'.
Proof.
  unfold flight_controller_ready. intros H.
  destruct x as [| | | | | |d]; try discriminate H.
  cbn [lookup] in H.
  destruct (dict_get "Components" d) as [cv|] eqn:Hd; [|discriminate H].
  destruct cv as [| | | | | |c]; try discriminate H.
  destruct (dict_get "Flight Controller" c) as [fcv|] eqn:Hfc; [|discriminate H].
  destruct fcv as [| | | | | |fc]; try discriminate H.
  unfold rebuild_flight_controller, contains_at. cbn. rewrite Hd. cbn.
  rewrite Hfc. cbn.
  destruct (dict_mem "Specifications" fc); cbn; [eexists; reflexivity|].
  cbn in H. unfold dict_mem in H.
  destruct (dict_get "Product" fc); [|discriminate H].
  destruct (dict_get "Firmware" fc); [|discriminate H].
  destruct (dict_get "Notes" fc); [|discriminate H].
  cbn. eexists. reflexivity.
Qed.

Ltac same_lookup H :=
  rewrite (ensure_at_other _ _ _ _ _ _ H) by (split; reflexivity).

(** X6.  On a migratable document (its components are a mapping; the
    battery, the frame and their specifications are mappings where they are
    present; the flight controller is a mapping that has its specifications
    or else a product, a firmware and notes) the migration returns a
    document. *)
Lemma migration_returns (version : string) (d : json) :
  migratable d = true ->
  exists d', update_vehicle_components version d = Ok d'.
Proof.
  unfold migratable. intros Hm.
  destruct (lookup d ["Components"]) as [cv|] eqn:HC; [|discriminate Hm].
  destruct cv as [| | | | | |c]; try discriminate Hm.
  apply andb_prop in Hm as [Hm HFC].
  apply andb_prop in Hm as [Hm HFS].
  apply andb_prop in Hm as [Hm HF].
  apply andb_prop in Hm as [HB HBS].
  assert (Ht : py_truthy d = true).
  { destruct d as [| | | | | |l]; try discriminate HC.
    destruct l; [discriminate HC | reflexivity]. }
  assert (S1 : ensure_at [] "Components" (JDict []) d = Ok d).
  { apply ensure_at_noop. apply contains_at_inv. exists d.
    split; [reflexivity|].
    destruct d as [| | | | | |l]; try discriminate HC.
    cbn in *. unfold dict_mem.
    destruct (dict_get "Components" l); [reflexivity | discriminate HC]. }
  destruct (ensure_mapping_succeeds ["Components"] "Battery" d c HC HB)
    as (d2 & S2 & [b2 L2] & M2).
  specialize (M2 "Specifications" HBS). cbn [app] in L2, M2.
  destruct (ensure_mapping_succeeds ["Components"; "Battery"] "Specifications"
              d2 b2 L2 M2) as (d3 & S3 & [s3 L3] & _).
  cbn [app] in L3.
  destruct (ensure_at_succeeds ["Components"; "Battery"; "Specifications"]
              "Chemistry" (JStr "Lipo") d3 s3 L3) as (d4 & S4 & [s4 L4] & _).
  destruct (ensure_at_succeeds ["Components"; "Battery"; "Specifications"]
              "Capacity mAh" (JInt 0) d4 s4 L4) as (d5 & S5 & [s5 L5] & _).
  destruct (components_is_mapping d5 "Battery" ["Specifications"] _ L5) as [c5 C5].
  assert (HF5 : mapping_or_absent d5 ["Components"; "Frame"] = true).
  { unfold mapping_or_absent in *.
    same_lookup S5. same_lookup S4. same_lookup S3. same_lookup S2. exact HF. }
  assert (HFS5 : mapping_or_absent d5 ["Components"; "Frame"; "Specifications"]
                 = true).
  { unfold mapping_or_absent in *.
    same_lookup S5. same_lookup S4. same_lookup S3. same_lookup S2. exact HFS. }
  destruct (ensure_mapping_succeeds ["Components"] "Frame" d5 c5 C5 HF5)
    as (d6 & S6 & [f6 L6] & M6).
  specialize (M6 "Specifications" HFS5). cbn [app] in L6, M6.
  destruct (ensure_mapping_succeeds ["Components"; "Frame"] "Specifications"
              d6 f6 L6 M6) as (d7 & S7 & [s7 L7] & _).
  cbn [app] in L7.
  destruct (ensure_at_succeeds ["Components"; "Frame"; "Specifications"]
              "TOW min Kg" (JInt 1) d7 s7 L7) as (d8 & S8 & [s8 L8] & _).
  destruct (ensure_at_succeeds ["Components"; "Frame"; "Specifications"]
              "TOW max Kg" (JInt 1) d8 s8 L8) as (d9 & S9 & [s9 L9] & _).
  destruct (components_is_mapping d9 "Frame" ["Specifications"] _ L9) as [c9 C9].
  destruct (rename_gnss_succeeds d9 c9 C9) as (d10 & c10 & S10 & C10).
  assert (S11 : exists d11,
             py_setitem d10 "Program version" (JStr version) = Ok d11).
  { destruct d10 as [| | | | | |l10]; try discriminate C10.
    eexists. reflexivity. }
  destruct S11 as [d11 S11].
  assert (C11 : lookup d11 ["Components"] = Some (JDict c10)).
  { rewrite (stamp_exact _ _ _ "Components" _ S11 eq_refl). exact C10. }
  destruct (ensure_at_succeeds ["Components"] "Flight Controller" (JDict [])
              d11 c10 C11) as (d12 & S12 & _ & _).
  assert (R12 : flight_controller_ready d12 = true).
  { unfold flight_controller_ready in *.
    destruct (lookup d ["Components"; "Flight Controller"]) as [fcv|] eqn:Lfc;
      [|discriminate HFC].
    assert (L9fc : lookup d9 ["Components"; "Flight Controller"] = Some fcv).
    { same_lookup S9. same_lookup S8. same_lookup S7. same_lookup S6.
      same_lookup S5. same_lookup S4. same_lookup S3. same_lookup S2.
      exact Lfc. }
    rewrite <- (rename_gnss_exact _ _ "Flight Controller" [] S10 eq_refl) in L9fc.
    rewrite <- (stamp_exact _ _ _ "Components" _ S11 eq_refl) in L9fc.
    apply (ensure_at_exact _ _ _ _ _ ["Components"; "Flight Controller"] _
             S12 eq_refl) in L9fc.
    rewrite L9fc. exact HFC. }
  destruct (rebuild_flight_controller_succeeds d12 R12) as [d' S13].
  exists d'. apply (run_update _ _ _ Ht).
  apply (MigrationRun version d d' d d2 d3 d4 d5 d6 d7 d8 d9 d10 d11 d12);
    assumption.
Qed.

Example sample_old_document_is_migratable :
  migratable sample_old_document = true.
Proof. reflexivity. Qed.

(* ================================================================== *)
(** * Further properties *)

(** ** Wiping, leaf by leaf *)


Lemma cleared_leaf_falsy (v : json) :
  isinstance_dict v = false -> py_truthy (cleared v) = false.
Proof. destruct v; intros H; try reflexivity; discriminate H. Qed.

(** X1.  The wipe works path by path: below the root, a sequence becomes
    the empty sequence, an integer or a boolean the integer [0], a float
    [0.0], a string the empty string, [None] stays [None], and a mapping
    becomes its own wipe; so every leaf of a wiped document is falsy. *)
Theorem wipe_value_at_path (d : json) (p : list string) (v : json) :
  p <> [] ->
  lookup d p = Some v ->
  lookup (wipe_component_info d) p
  = Some (match v with
          | JDict _ => _recursively_clear_dict v
          | JList _ => JList []
          | JInt _ | JBool _ => JInt 0
          | JFloat _ => JFloat float_zero
          | JStr _ => JStr ""
          | JNull => JNull
          end)
  /\ (isinstance_dict v = false ->
      forall w, lookup (wipe_component_info d) p = Some w -> py_truthy w = false).
Proof.
  intros Hp H.
  assert (E : wipe_component_info d = _recursively_clear_dict d)
    by (destruct d; reflexivity).
  rewrite E, (clear_lookup d p v Hp H). split.
  - f_equal. destruct v; reflexivity.
  - intros Hleaf w [= <-]. apply cleared_leaf_falsy, Hleaf.
Qed.

Lemma wipe_value_at_path_witness :
  lookup sample_old_document
    ["Components"; "Flight Controller"; "Firmware"; "Version"]
  = Some (JStr "4.5.1")
  /\ lookup (wipe_component_info sample_old_document)
       ["Components"; "Flight Controller"; "Firmware"; "Version"]
     = Some (JStr "").
Proof.
  split; [reflexivity|].
  exact (proj1 (wipe_value_at_path sample_old_document
                  ["Components"; "Flight Controller"; "Firmware"; "Version"]
                  (JStr "4.5.1") ltac:(discriminate) eq_refl)).
Defined.

(** ** Firmware queries: what they can return *)

(** X2.  Whatever the document, a firmware type that is returned is the
    empty string or one of the supported names. *)
Theorem firmware_type_is_supported_or_empty (doc : json) (r : json) :
  get_fc_fw_type_from_vehicle_components_json doc = Ok r ->
  r = JStr "" \/ exists t, r = JStr t /\ In t supported_vehicles.
Proof.
  unfold get_fc_fw_type_from_vehicle_components_json.
  destruct (components_or_none doc) as [components|e]; [|discriminate].
  cbn [bind].
  destruct (py_truthy components); [|intros [= <-]; auto].
  destruct (py_get components "Flight Controller" (JDict [])) as [fc|e];
    [|discriminate].
  cbn [bind].
  destruct (py_get fc "Firmware" (JDict [])) as [fw|e]; [|discriminate].
  cbn [bind].
  destruct (py_get fw "Type" (JStr "")) as [fw_type|e]; [|discriminate].
  cbn [bind].
  destruct (in_supported_vehicles fw_type) eqn:E; intros [= <-]; [|auto].
  right. unfold in_supported_vehicles in E.
  apply existsb_exists in E as (t & Hin & Ht).
  destruct fw_type; try discriminate Ht.
  cbn in Ht. apply String.eqb_eq in Ht. subst t. eauto.
Qed.

Lemma firmware_type_is_supported_or_empty_witness :
  get_fc_fw_type_from_vehicle_components_json sample_old_document
  = Ok (JStr "ArduCopter")
  /\ (JStr "ArduCopter" = JStr ""
      \/ exists t, JStr "ArduCopter" = JStr t /\ In t supported_vehicles).
Proof.
  split; [reflexivity|].
  exact (firmware_type_is_supported_or_empty sample_old_document
           (JStr "ArduCopter") eq_refl).
Defined.

(** X3.  Whatever the document, a firmware version that is returned is the
    empty string or a version triple. *)
Theorem firmware_version_is_triple_or_empty (doc : json) (r : json) :
  get_fc_fw_version_from_vehicle_components_json doc = Ok r ->
  r = JStr "" \/ exists t, r = JStr t /\ is_version_triple t.
Proof.
  unfold get_fc_fw_version_from_vehicle_components_json.
  destruct (components_or_none doc) as [components|e]; [|discriminate].
  cbn [bind].
  destruct (py_truthy components); [|intros [= <-]; auto].
  destruct (py_get components "Flight Controller" (JDict [])) as [fc|e];
    [|discriminate].
  cbn [bind].
  destruct (py_get fc "Firmware" (JDict [])) as [fw|e]; [|discriminate].
  cbn [bind].
  destruct (py_get fw "Version" (JStr "")) as [version_str|e]; [|discriminate].
  cbn [bind].
  destruct (if py_truthy version_str then first_token version_str else Ok "")
    as [tok|e]; [|discriminate].
  cbn [bind].
  destruct (re_match_version tok) eqn:E; intros [= <-]; [|auto].
  right. exists tok. split; [reflexivity | apply re_match_version_iff, E].
Qed.

Lemma firmware_version_is_triple_or_empty_witness :
  get_fc_fw_version_from_vehicle_components_json sample_old_document
  = Ok (JStr "4.5.1")
  /\ (JStr "4.5.1" = JStr ""
      \/ exists t, JStr "4.5.1" = JStr t /\ is_version_triple t).
Proof.
  split; [reflexivity|].
  exact (firmware_version_is_triple_or_empty sample_old_document
           (JStr "4.5.1") eq_refl).
Defined.

(** X4.  A version field that is not a string: when it is truthy (a number
    other than zero, [true], a non-empty sequence or mapping) the query
    raises [AttributeError]; when it is falsy ([None], [0], [false], an
    empty sequence or mapping) the query returns the empty string. *)
Theorem firmware_version_of_non_string (doc : json) (v : json) :
  resolve doc firmware_version_path = Found v ->
  isinstance_str v = false ->
  get_fc_fw_version_from_vehicle_components_json doc
  = if py_truthy v then Raise AttributeError else Ok (JStr "").
Proof.
  intros H Hs.
  assert (Hn : resolve doc ["Components"; "Flight Controller"; "Firmware"; "Version"]
               <> NotMapping).
  { unfold firmware_version_path in H. rewrite H. discriminate. }
  destruct (chained_get doc "Version" Hn) as (components & Hc & Hget).
  unfold get_fc_fw_version_from_vehicle_components_json.
  rewrite Hc. cbn [bind].
  unfold firmware_version_path in H. rewrite H in Hget.
  destruct (py_truthy components).
  - destruct (py_get components "Flight Controller" (JDict [])) as [fc|e];
      [|discriminate Hget].
    cbn [bind] in *.
    destruct (py_get fc "Firmware" (JDict [])) as [fw|e]; [|discriminate Hget].
    cbn [bind] in *. rewrite Hget. cbn [bind].
    destruct (py_truthy v) eqn:Ht; [|reflexivity].
    destruct v; try reflexivity. discriminate Hs.
  - injection Hget as <-. discriminate Hs.
Qed.

Lemma firmware_version_of_non_string_witness :
  resolve (document_with firmware_version_path (JInt 4))
    firmware_version_path = Found (JInt 4)
  /\ get_fc_fw_version_from_vehicle_components_json
       (document_with firmware_version_path (JInt 4))
     = Raise AttributeError.
Proof.
  split; [reflexivity|].
  exact (firmware_version_of_non_string
           (document_with firmware_version_path (JInt 4))
           (JInt 4) eq_refl eq_refl).
Defined.

(** ** A wiped document reports no firmware *)

Lemma py_get_of_cleared (x : json) (k : string) (default r : json) :
  (x = JDict [] \/ exists v, x = cleared v) ->
  py_get x k default = Ok r ->
  r = default \/ exists w, r = cleared w.
Proof.
  intros [-> | [v ->]] H.
  - cbn in H. injection H as <-. auto.
  - destruct v as [| | | | | |its]; try discriminate H.
    change (cleared (JDict its)) with (_recursively_clear_dict (JDict its)) in H.
    rewrite clear_dict_unfold in H. cbn [py_get] in H.
    rewrite dict_get_cleared in H.
    destruct (dict_get k its) as [w|]; cbn in H; injection H as <-; eauto.
Qed.

Lemma in_supported_vehicles_cleared (w : json) :
  in_supported_vehicles (cleared w) = false.
Proof.
  destruct w; reflexivity.
Qed.

Lemma components_of_wiped (d : json) (components : json) :
  components_or_none (wipe_component_info d) = Ok components ->
  components = JNull \/ exists v, components = cleared v.
Proof.
  destruct d as [| | | | | |its].
  7:{ change (wipe_component_info (JDict its))
        with (_recursively_clear_dict (JDict its)).
      rewrite clear_dict_unfold, components_or_none_dict, dict_get_cleared.
      destruct (dict_get "Components" its) as [c|]; cbn; intros [= <-]; eauto. }
  all: unfold components_or_none; cbn;
    repeat match goal with
           | |- context [if ?b then _ else _] => destruct b; cbn
           end;
    intros H; try discriminate H; injection H as <-; auto.
Qed.

(** X5.  After a wipe the document reports neither a firmware type nor a
    firmware version: each of the two queries, when it returns, returns the
    empty string. *)
Theorem wiped_document_reports_no_firmware (d : json) :
  (forall r,
     get_fc_fw_type_from_vehicle_components_json (wipe_component_info d) = Ok r ->
     r = JStr "")
  /\ (forall r,
        get_fc_fw_version_from_vehicle_components_json (wipe_component_info d)
        = Ok r ->
        r = JStr "").
Proof.
  split; intros r.
  - unfold get_fc_fw_type_from_vehicle_components_json.
    destruct (components_or_none (wipe_component_info d)) as [components|e] eqn:Hc;
      [|discriminate].
    apply components_of_wiped in Hc. cbn [bind].
    destruct (py_truthy components); [|intros [= <-]; reflexivity].
    destruct Hc as [-> | Hc]; [discriminate|].
    destruct (py_get components "Flight Controller" (JDict [])) as [fc|e] eqn:Hfc;
      [|discriminate].
    apply (py_get_of_cleared _ _ _ _ (or_intror Hc)) in Hfc. cbn [bind].
    destruct (py_get fc "Firmware" (JDict [])) as [fw|e] eqn:Hfw; [|discriminate].
    apply (py_get_of_cleared _ _ _ _ Hfc) in Hfw. cbn [bind].
    destruct (py_get fw "Type" (JStr "")) as [fw_type|e] eqn:Hty; [|discriminate].
    apply (py_get_of_cleared _ _ _ _ Hfw) in Hty. cbn [bind].
    destruct Hty as [-> | [w ->]].
    + cbn. intros [= <-]. reflexivity.
    + rewrite in_supported_vehicles_cleared. intros [= <-]. reflexivity.
  - unfold get_fc_fw_version_from_vehicle_components_json.
    destruct (components_or_none (wipe_component_info d)) as [components|e] eqn:Hc;
      [|discriminate].
    apply components_of_wiped in Hc. cbn [bind].
    destruct (py_truthy components); [|intros [= <-]; reflexivity].
    destruct Hc as [-> | Hc]; [discriminate|].
    destruct (py_get components "Flight Controller" (JDict [])) as [fc|e] eqn:Hfc;
      [|discriminate].
    apply (py_get_of_cleared _ _ _ _ (or_intror Hc)) in Hfc. cbn [bind].
    destruct (py_get fc "Firmware" (JDict [])) as [fw|e] eqn:Hfw; [|discriminate].
    apply (py_get_of_cleared _ _ _ _ Hfc) in Hfw. cbn [bind].
    destruct (py_get fw "Version" (JStr "")) as [version_str|e] eqn:Hv;
      [|discriminate].
    apply (py_get_of_cleared _ _ _ _ Hfw) in Hv. cbn [bind].
    destruct Hv as [-> | [w ->]].
    + cbn. intros [= <-]. reflexivity.
    + destruct (py_truthy (cleared w)) eqn:Ht.
      * destruct w as [| | | | | |its]; try discriminate Ht.
        change (cleared (JDict its)) with (_recursively_clear_dict (JDict its)).
        rewrite clear_dict_unfold. cbn. discriminate.
      * cbn. intros [= <-]. reflexivity.
Qed.

Lemma wiped_document_reports_no_firmware_witness :
  get_fc_fw_type_from_vehicle_components_json sample_old_document
  = Ok (JStr "ArduCopter")
  /\ get_fc_fw_type_from_vehicle_components_json
       (wipe_component_info sample_old_document) = Ok (JStr "")
  /\ (forall r,
        get_fc_fw_type_from_vehicle_components_json
          (wipe_component_info sample_old_document) = Ok r ->
        r = JStr "").
Proof.
  split; [reflexivity|]. split; [reflexivity|].
  exact (proj1 (wiped_document_reports_no_firmware sample_old_document)).
Defined.

(** ** Migration: what a run returns *)

Lemma migration_returns_witness :
  migratable sample_old_document = true
  /\ exists d', update_vehicle_components sample_version sample_old_document = Ok d'.
Proof.
  split; [reflexivity|].
  exact (migration_returns sample_version sample_old_document eq_refl).
Defined.

Lemma resolve_setitem_path_other (p : list string) :
  forall (x x' : json) (k : string) (v : json) (q : list string),
    setitem_path x p k v = Ok x' ->
    incomparable (p ++ [k]) q ->
    resolve x' q = resolve x q.
Proof.
  induction p as [|k0 r IH]; intros x x' k v q H [H1 H2].
  - apply py_setitem_ok in H as (d & -> & ->).
    destruct q as [|a q]; [discriminate H2|].
    cbn in H1. rewrite andb_true_r in H1.
    cbn [resolve]. rewrite dict_get_set, String.eqb_sym, H1. reflexivity.
  - apply setitem_path_cons in H as (d & sub & sub' & -> & Hd & Hs & ->).
    destruct q as [|a q]; [discriminate H2|].
    cbn [app is_prefix] in H1, H2. cbn [resolve].
    rewrite dict_get_set.
    destruct (String.eqb a k0) eqn:E; [|reflexivity].
    apply String.eqb_eq in E. subst a. rewrite Hd.
    rewrite ?String.eqb_refl in H1. rewrite ?String.eqb_refl in H2.
    cbn [andb] in H1, H2.
    apply (IH _ _ _ _ _ Hs). split; assumption.
Qed.

Lemma ensure_at_resolve_other (p : list string) (k : string) (v : json)
  (x x' : json) (q : list string) :
  ensure_at p k v x = Ok x' ->
  incomparable (p ++ [k]) q ->
  resolve x' q = resolve x q.
Proof.
  intros H Hq. apply ensure_at_inv in H as [[_ ->] | [_ Hs]]; [reflexivity|].
  apply (resolve_setitem_path_other _ _ _ _ _ _ Hs Hq).
Qed.

Lemma rename_gnss_resolve (x x' : json) (a : string) (q : list string) :
  rename_gnss x = Ok x' ->
  existsb (String.eqb a) ["GNSS receiver"; "GNSS Receiver"] = false ->
  resolve x' ("Components" :: a :: q) = resolve x ("Components" :: a :: q).
Proof.
  intros H Ha.
  apply rename_gnss_inv in H as [[_ ->] | (d & c & g & -> & Hd & Hg & ->)];
    [reflexivity|].
  cbn [existsb] in Ha. rewrite orb_false_r in Ha.
  apply orb_false_elim in Ha as [E1 E2].
  cbn [resolve]. rewrite dict_get_set, Hd. cbn.
  rewrite dict_get_set, E2, dict_get_remove, E1. reflexivity.
Qed.

Lemma stamp_resolve (version : string) (x x' : json) (a : string) (q : list string) :
  py_setitem x "Program version" (JStr version) = Ok x' ->
  String.eqb a "Program version" = false ->
  resolve x' (a :: q) = resolve x (a :: q).
Proof.
  intros H Ha. apply py_setitem_ok in H as (d & -> & ->).
  cbn. rewrite dict_get_set, Ha. reflexivity.
Qed.

Ltac same_resolve H Hm :=
  rewrite <- (ensure_at_resolve_other _ _ _ _ _ _ H) in Hm
    by (split; reflexivity).

(** X7.  On a non-empty document that has no flight controller the
    migration raises: the empty mapping it inserts for the flight
    controller has no ["Specifications"], and the mapping rebuilt in its
    place needs a ["Product"] that is not there. *)
Theorem migration_raises_without_flight_controller_entry
  (version : string) (d : json) :
  py_truthy d = true ->
  resolve d flight_controller_path = Missing ->
  exists e, update_vehicle_components version d = Raise e.
Proof.
  intros Ht Hm.
  destruct (update_vehicle_components version d) as [d'|e] eqn:H; [|eauto].
  exfalso.
  destruct (update_run _ _ _ Ht H)
    as [d1 d2 d3 d4 d5 d6 d7 d8 d9 d10 d11 d12
        H1 H2 H3 H4 H5 H6 H7 H8 H9 H10 H11 H12 H13].
  unfold flight_controller_path in Hm.
  apply (ensure_at_still_missing [] "Components" _ _ ["Flight Controller"] H1)
    in Hm; [|discriminate].
  cbn [app] in Hm.
  same_resolve H2 Hm. same_resolve H3 Hm. same_resolve H4 Hm.
  same_resolve H5 Hm. same_resolve H6 Hm. same_resolve H7 Hm.
  same_resolve H8 Hm. same_resolve H9 Hm.
  rewrite <- (rename_gnss_resolve _ _ "Flight Controller" [] H10 eq_refl) in Hm.
  rewrite <- (stamp_resolve _ _ _ "Components" _ H11 eq_refl) in Hm.
  apply (ensure_at_fills_missing ["Components"] "Flight Controller" _ _ _ H12)
    in Hm.
  apply rebuild_flight_controller_inv in H13
    as [[Hc _] | (l & c & fc & p & f & n & -> & Hd & Hfc & _ & Hp & _)].
  - apply contains_at_inv in Hc as (fcv & Hl & Hin).
    cbn [app] in Hm. rewrite Hm in Hl. injection Hl as <-. discriminate Hin.
  - cbn in Hm. rewrite Hd, Hfc in Hm. injection Hm as ->. discriminate Hp.
Qed.

Lemma migration_raises_without_flight_controller_entry_witness :
  py_truthy (JDict [("Format version", JInt 1)]) = true
  /\ resolve (JDict [("Format version", JInt 1)]) flight_controller_path = Missing
  /\ exists e,
       update_vehicle_components sample_version (JDict [("Format version", JInt 1)])
       = Raise e.
Proof.
  split; [reflexivity|]. split; [reflexivity|].
  exact (migration_raises_without_flight_controller_entry sample_version
           (JDict [("Format version", JInt 1)]) eq_refl eq_refl).
Defined.

Ltac carry H Hw :=
  match type of Hw with
  | lookup _ ?q = Some _ => apply (ensure_at_exact _ _ _ _ _ q _ H eq_refl) in Hw
  end.

(** X8.  The other defaults of the migration.  On a non-empty document on
    which the migration returns, each of the battery capacity, the minimum
    and the maximum take-off weight is set to its default ([0], [1], [1])
    when it is missing from a mapping on its path, and keeps its value when
    the document has it. *)
Theorem migration_other_defaults (version : string) (d d' : json) :
  py_truthy d = true ->
  update_vehicle_components version d = Ok d' ->
  ((resolve d capacity_path = Missing -> lookup d' capacity_path = Some (JInt 0))
   /\ (forall v, lookup d capacity_path = Some v -> lookup d' capacity_path = Some v))
  /\ ((resolve d tow_min_path = Missing -> lookup d' tow_min_path = Some (JInt 1))
      /\ (forall v, lookup d tow_min_path = Some v -> lookup d' tow_min_path = Some v))
  /\ ((resolve d tow_max_path = Missing -> lookup d' tow_max_path = Some (JInt 1))
      /\ (forall v, lookup d tow_max_path = Some v -> lookup d' tow_max_path = Some v)).
Proof.
  intros Ht H.
  destruct (update_run _ _ _ Ht H)
    as [d1 d2 d3 d4 d5 d6 d7 d8 d9 d10 d11 d12
        H1 H2 H3 H4 H5 H6 H7 H8 H9 H10 H11 H12 H13].
  unfold capacity_path, tow_min_path, tow_max_path.
  assert (Tail : forall comp field w,
             existsb (String.eqb comp)
               ["GNSS receiver"; "GNSS Receiver"] = false ->
             String.eqb comp "Flight Controller" = false ->
             lookup d9 ["Components"; comp; "Specifications"; field] = Some w ->
             lookup d' ["Components"; comp; "Specifications"; field] = Some w).
  { intros comp field w Hg Hf Hw.
    rewrite <- (rename_gnss_exact _ _ comp _ H10 Hg) in Hw.
    rewrite <- (stamp_exact _ _ _ "Components" _ H11 eq_refl) in Hw.
    apply (ensure_at_exact _ _ _ _ _ _ _ H12) in Hw; [|reflexivity].
    rewrite <- (rebuild_flight_controller_exact _ _ comp _ H13 Hf) in Hw.
    exact Hw. }
  repeat split.
  - intros Hm. apply (Tail "Battery" _ _ eq_refl eq_refl).
    apply (ensure_at_still_missing [] "Components" _ _
             ["Battery"; "Specifications"; "Capacity mAh"] H1) in Hm;
      [|discriminate].
    apply (ensure_at_still_missing ["Components"] "Battery" _ _
             ["Specifications"; "Capacity mAh"] H2) in Hm; [|discriminate].
    apply (ensure_at_still_missing ["Components"; "Battery"] "Specifications"
             _ _ ["Capacity mAh"] H3) in Hm; [|discriminate].
    cbn [app] in Hm. same_resolve H4 Hm.
    apply (ensure_at_fills_missing ["Components"; "Battery"; "Specifications"]
             "Capacity mAh" _ _ _ H5) in Hm.
    cbn [app] in Hm.
    carry H6 Hm. carry H7 Hm. carry H8 Hm. carry H9 Hm. exact Hm.
  - intros v Hv. apply (Tail "Battery" _ _ eq_refl eq_refl).
    carry H1 Hv. carry H2 Hv. carry H3 Hv. carry H4 Hv. carry H5 Hv.
    carry H6 Hv. carry H7 Hv. carry H8 Hv. carry H9 Hv. exact Hv.
  - intros Hm. apply (Tail "Frame" _ _ eq_refl eq_refl).
    apply (ensure_at_still_missing [] "Components" _ _
             ["Frame"; "Specifications"; "TOW min Kg"] H1) in Hm;
      [|discriminate].
    cbn [app] in Hm.
    same_resolve H2 Hm. same_resolve H3 Hm. same_resolve H4 Hm.
    same_resolve H5 Hm.
    apply (ensure_at_still_missing ["Components"] "Frame" _ _
             ["Specifications"; "TOW min Kg"] H6) in Hm; [|discriminate].
    apply (ensure_at_still_missing ["Components"; "Frame"] "Specifications"
             _ _ ["TOW min Kg"] H7) in Hm; [|discriminate].
    apply (ensure_at_fills_missing ["Components"; "Frame"; "Specifications"]
             "TOW min Kg" _ _ _ H8) in Hm.
    cbn [app] in Hm. carry H9 Hm. exact Hm.
  - intros v Hv. apply (Tail "Frame" _ _ eq_refl eq_refl).
    carry H1 Hv. carry H2 Hv. carry H3 Hv. carry H4 Hv. carry H5 Hv.
    carry H6 Hv. carry H7 Hv. carry H8 Hv. carry H9 Hv. exact Hv.
  - intros Hm. apply (Tail "Frame" _ _ eq_refl eq_refl).
    apply (ensure_at_still_missing [] "Components" _ _
             ["Frame"; "Specifications"; "TOW max Kg"] H1) in Hm;
      [|discriminate].
    cbn [app] in Hm.
    same_resolve H2 Hm. same_resolve H3 Hm. same_resolve H4 Hm.
    same_resolve H5 Hm.
    apply (ensure_at_still_missing ["Components"] "Frame" _ _
             ["Specifications"; "TOW max Kg"] H6) in Hm; [|discriminate].
    apply (ensure_at_still_missing ["Components"; "Frame"] "Specifications"
             _ _ ["TOW max Kg"] H7) in Hm; [|discriminate].
    cbn [app] in Hm. same_resolve H8 Hm.
    apply (ensure_at_fills_missing ["Components"; "Frame"; "Specifications"]
             "TOW max Kg" _ _ _ H9) in Hm.
    exact Hm.
  - intros v Hv. apply (Tail "Frame" _ _ eq_refl eq_refl).
    carry H1 Hv. carry H2 Hv. carry H3 Hv. carry H4 Hv. carry H5 Hv.
    carry H6 Hv. carry H7 Hv. carry H8 Hv. carry H9 Hv. exact Hv.
Qed.

Lemma migration_other_defaults_witness :
  py_truthy sample_old_document = true
  /\ resolve sample_old_document tow_min_path = Missing
  /\ exists d',
       update_vehicle_components sample_version sample_old_document = Ok d'
       /\ lookup d' tow_min_path = Some (JInt 1).
Proof.
  split; [reflexivity|]. split; [reflexivity|].
  eexists. split; [reflexivity|].
  exact (proj1 (proj1 (proj2 (migration_other_defaults sample_version
                                sample_old_document _ eq_refl eq_refl)))
           eq_refl).
Defined.

Lemma run_stamps (version : string) (d d' : json) :
  migration_run version d d' ->
  lookup d' ["Program version"] = Some (JStr version).
Proof.
  intros [d1 d2 d3 d4 d5 d6 d7 d8 d9 d10 d11 d12
          H1 H2 H3 H4 H5 H6 H7 H8 H9 H10 H11 H12 H13].
  assert (L11 : lookup d11 ["Program version"] = Some (JStr version)).
  { apply py_setitem_ok in H11 as (l10 & _ & ->). cbn.
    rewrite dict_get_set. reflexivity. }
  carry H12 L11.
  apply rebuild_flight_controller_keeps in H13 as [-> | [_ K]]; [exact L11|].
  destruct (K ["Program version"] _ eq_refl L11) as (w' & Hw' & Hleaf).
  rewrite Hw', (Hleaf eq_refl). reflexivity.
Qed.

(** X9.  On a non-empty document on which the migration returns, the
    result carries the version of the program under ["Program version"],
    whatever the document had there. *)
Theorem migration_stamps_program_version (version : string) (d d' : json) :
  py_truthy d = true ->
  update_vehicle_components version d = Ok d' ->
  lookup d' ["Program version"] = Some (JStr version).
Proof.
  intros Ht H. apply (run_stamps version d), update_run; assumption.
Qed.

Lemma migration_stamps_program_version_witness :
  py_truthy sample_old_document = true
  /\ exists d',
       update_vehicle_components sample_version sample_old_document = Ok d'
       /\ lookup d' ["Program version"] = Some (JStr sample_version).
Proof.
  split; [reflexivity|]. eexists. split; [reflexivity|].
  exact (migration_stamps_program_version sample_version sample_old_document _
           eq_refl eq_refl).
Defined.

Lemma run_drops_deprecated_key (version : string) (d d' : json) :
  migration_run version d d' ->
  lookup d' ["Components"; "GNSS receiver"] = None.
Proof.
  intros [d1 d2 d3 d4 d5 d6 d7 d8 d9 d10 d11 d12
          H1 H2 H3 H4 H5 H6 H7 H8 H9 H10 H11 H12 H13].
  assert (M10 : exists c, lookup d10 ["Components"] = Some (JDict c)).
  { assert (K : keeps rewritten_region d3 d10).
    { repeat (eapply keeps_region_trans;
              [eapply ensure_at_keeps_region; eassumption|]).
      apply (rename_gnss_keeps_region _ _ H10). }
    assert (F : contains_at d10 ["Components"; "Battery"] "Specifications"
                = Ok true) by stays K H3.
    apply contains_at_inv in F as (b & Hb & _).
    apply (components_is_mapping _ _ _ _ Hb). }
  pose proof (lookup_by_contains_false _ _ (rename_gnss_removes _ _ H10) M10) as L10.
  rewrite <- (stamp_exact _ _ _ "Components" _ H11 eq_refl) in L10.
  rewrite (rebuild_flight_controller_exact _ _ "GNSS receiver" _ H13 eq_refl).
  apply ensure_at_inv in H12 as [[_ ->] | [_ Hs]]; [exact L10|].
  rewrite (lookup_setitem_path_other _ _ _ _ _ ["Components"; "GNSS receiver"] Hs);
    [exact L10 | split; reflexivity].
Qed.

(** X10.  The renaming of the receiver key.  On a non-empty document on
    which the migration returns, the result has no
    [Components."GNSS receiver"]; and what the document held under that
    deprecated key is what the result holds under
    [Components."GNSS Receiver"]. *)
Theorem migration_renames_receiver (version : string) (d d' : json) :
  py_truthy d = true ->
  update_vehicle_components version d = Ok d' ->
  lookup d' ["Components"; "GNSS receiver"] = None
  /\ (forall g, lookup d ["Components"; "GNSS receiver"] = Some g ->
                lookup d' ["Components"; "GNSS Receiver"] = Some g).
Proof.
  intros Ht H. pose proof (update_run _ _ _ Ht H) as Hrun.
  split; [apply (run_drops_deprecated_key _ _ _ Hrun)|].
  intros g Hg.
  destruct Hrun as [d1 d2 d3 d4 d5 d6 d7 d8 d9 d10 d11 d12
                    H1 H2 H3 H4 H5 H6 H7 H8 H9 H10 H11 H12 H13].
  carry H1 Hg. carry H2 Hg. carry H3 Hg. carry H4 Hg. carry H5 Hg.
  carry H6 Hg. carry H7 Hg. carry H8 Hg. carry H9 Hg.
  assert (L10 : lookup d10 ["Components"; "GNSS Receiver"] = Some g).
  { apply rename_gnss_inv in H10 as [[Hc _] | (l & c & g' & -> & Hd & Hg' & ->)].
    - exfalso. apply contains_at_inv in Hc as (cv & Hcv & Hin).
      change ["Components"; "GNSS receiver"]
        with (["Components"] ++ ["GNSS receiver"]) in Hg.
      apply lookup_snoc_some in Hg as (c & Hc & Hk).
      rewrite Hc in Hcv. injection Hcv as <-.
      cbn in Hin. unfold dict_mem in Hin. rewrite Hk in Hin. discriminate Hin.
    - cbn in Hg. rewrite Hd, Hg' in Hg. injection Hg as ->.
      cbn. rewrite dict_get_set. cbn. rewrite dict_get_set. reflexivity. }
  rewrite <- (stamp_exact _ _ _ "Components" _ H11 eq_refl) in L10.
  carry H12 L10.
  rewrite <- (rebuild_flight_controller_exact _ _ "GNSS Receiver" _ H13 eq_refl)
    in L10.
  exact L10.
Qed.

Lemma migration_renames_receiver_witness :
  py_truthy sample_two_receivers = true
  /\ lookup sample_two_receivers ["Components"; "GNSS receiver"; "Product"; "Model"]
     = Some (JStr "u-blox M8N")
  /\ exists d',
       update_vehicle_components sample_version sample_two_receivers = Ok d'
       /\ lookup d' ["Components"; "GNSS receiver"] = None.
Proof.
  split; [reflexivity|]. split; [reflexivity|].
  eexists. split; [reflexivity|].
  exact (proj1 (migration_renames_receiver sample_version sample_two_receivers _
                  eq_refl eq_refl)).
Defined.

(** X11.  The flight controller after the migration.  On a document whose
    flight controller is a mapping and on which the migration returns: a
    flight controller that has ["Specifications"] is returned as it was;
    one that has none had a product, a firmware and notes, and is returned
    as the four-key mapping of these three and of the specifications
    [{"MCU Series": "Unknown"}], in the order product, firmware,
    specifications, notes. *)
Theorem migration_flight_controller (version : string) (d d' : json) (fc : dict) :
  lookup d flight_controller_path = Some (JDict fc) ->
  update_vehicle_components version d = Ok d' ->
  match dict_get "Specifications" fc with
  | Some _ => lookup d' flight_controller_path = Some (JDict fc)
  | None =>
      exists product firmware notes,
        dict_get "Product" fc = Some product
        /\ dict_get "Firmware" fc = Some firmware
        /\ dict_get "Notes" fc = Some notes
        /\ lookup d' flight_controller_path
           = Some (rebuilt_flight_controller product firmware notes)
  end.
Proof.
  intros Hfc H. unfold flight_controller_path in *.
  assert (Ht : py_truthy d = true).
  { destruct d as [| | | | | |l]; try discriminate Hfc.
    destruct l; [discriminate Hfc | reflexivity]. }
  destruct (update_run _ _ _ Ht H)
    as [d1 d2 d3 d4 d5 d6 d7 d8 d9 d10 d11 d12
        H1 H2 H3 H4 H5 H6 H7 H8 H9 H10 H11 H12 H13].
  carry H1 Hfc. carry H2 Hfc. carry H3 Hfc. carry H4 Hfc. carry H5 Hfc.
  carry H6 Hfc. carry H7 Hfc. carry H8 Hfc. carry H9 Hfc.
  rewrite <- (rename_gnss_exact _ _ "Flight Controller" [] H10 eq_refl) in Hfc.
  rewrite <- (stamp_exact _ _ _ "Components" _ H11 eq_refl) in Hfc.
  carry H12 Hfc.
  apply rebuild_flight_controller_inv in H13
    as [[Hc ->] | (l & c & fc' & p & f & n & -> & Hd & Hfc' & Hs & Hp & Hf & Hn & ->)].
  - apply contains_at_inv in Hc as (fcv & Hl & Hin).
    rewrite Hfc in Hl. injection Hl as <-.
    cbn in Hin. unfold dict_mem in Hin.
    destruct (dict_get "Specifications" fc); [exact Hfc | discriminate Hin].
  - cbn in Hfc. rewrite Hd, Hfc' in Hfc. injection Hfc as ->.
    rewrite Hs. exists p, f, n. repeat split; try assumption.
    cbn. rewrite dict_get_set. cbn. rewrite dict_get_set. reflexivity.
Qed.

Lemma migration_flight_controller_witness :
  exists fc d',
    lookup sample_old_document flight_controller_path = Some (JDict fc)
    /\ dict_get "Specifications" fc = None
    /\ update_vehicle_components sample_version sample_old_document = Ok d'
    /\ lookup d' ["Components"; "Flight Controller"; "Specifications"; "MCU Series"]
       = Some (JStr "Unknown")
    /\ exists product firmware notes,
         lookup d' flight_controller_path
         = Some (rebuilt_flight_controller product firmware notes).
Proof.
  eexists. eexists. split; [reflexivity|]. split; [reflexivity|].
  split; [reflexivity|]. split; [reflexivity|].
  pose proof (migration_flight_controller sample_version sample_old_document _ _
                eq_refl eq_refl) as H.
  cbn [dict_get String.eqb Ascii.eqb Bool.eqb] in H.
  destruct H as (p & f & n & _ & _ & _ & H).
  exists p, f, n. exact H.
Defined.

(** ** The entry widgets of the component editor *)

Lemma leaves_dict_unfold (items : dict) :
  leaves (JDict items)
  = flat_map (fun kv => map (fun e => (fst kv :: fst e, snd e)) (leaves (snd kv)))
      items.
Proof.
  cbn [leaves].
  induction items as [|[k v] r IH]; [reflexivity|].
  rewrite IH. reflexivity.
Qed.

Lemma add_widget_dict_unfold (key : string) (items : dict) (path : list string) :
  add_widget key (JDict items) path
  = flat_map (fun kv => add_widget (fst kv) (snd kv) (path ++ [key])) items.
Proof.
  cbn [add_widget].
  induction items as [|[k v] r IH]; [reflexivity|].
  rewrite IH. reflexivity.
Qed.

(** The entries of a value are its leaves, below [path] and [key]. *)
Lemma add_widget_leaves (value : json) :
  forall (key : string) (path : list string),
    add_widget key value path
    = map (fun e => (path ++ key :: fst e, snd e)) (leaves value).
Proof.
  induction value as [| | | | |l _|items IH] using json_nested_ind;
    intros key path; try reflexivity.
  rewrite add_widget_dict_unfold, leaves_dict_unfold.
  induction IH as [|[k v] r Hv _ IHr]; [reflexivity|].
  cbn [flat_map fst snd]. rewrite map_app, IHr, Hv, map_map.
  f_equal. apply map_ext. intros [q w]. cbn [fst snd].
  rewrite <- app_assoc. reflexivity.
Qed.

Lemma populate_frames_inv (data : json) (widgets : list (list string * json)) :
  populate_frames data = Ok widgets ->
  (widgets = [] /\ lookup data ["Components"] = None)
  \/ (exists items,
        lookup data ["Components"] = Some (JDict items)
        /\ widgets = leaves (JDict items)).
Proof.
  unfold populate_frames.
  destruct data as [|b|z|f|s|l|d]; cbn [py_in bind]; try discriminate.
  - destruct (str_contains _ s); cbn; [discriminate | intros [= <-]; auto].
  - destruct (existsb _ l); cbn; [discriminate | intros [= <-]; auto].
  - unfold dict_mem. cbn [py_getitem lookup].
    destruct (dict_get "Components" d) as [c|]; cbn [bind];
      [|intros [= <-]; auto].
    destruct c as [|b|z|f|s|l|items]; cbn [py_items bind]; try discriminate.
    intros [= <-]. right. exists items. split; [reflexivity|].
    rewrite leaves_dict_unfold. apply flat_map_ext. intros [k v].
    cbn [fst snd]. rewrite add_widget_leaves. reflexivity.
Qed.

Lemma dict_get_in (k : string) (d : dict) (v : json) :
  dict_get k d = Some v -> In (k, v) d.
Proof.
  induction d as [|[k0 v0] r IH]; cbn; [discriminate|].
  destruct (String.eqb k k0) eqn:E.
  - apply String.eqb_eq in E. subst k0. intros [= ->]. auto.
  - intros H. right. apply IH, H.
Qed.

Lemma in_dict_get (k : string) (d : dict) (v : json) :
  NoDup (map fst d) -> In (k, v) d -> dict_get k d = Some v.
Proof.
  induction d as [|[k0 v0] r IH]; cbn; [contradiction|].
  intros Hnd [[= -> ->] | Hin].
  - rewrite String.eqb_refl. reflexivity.
  - apply NoDup_cons_iff in Hnd as [Hnot Hnd].
    destruct (String.eqb k k0) eqn:E.
    + apply String.eqb_eq in E. subst k0. exfalso. apply Hnot.
      apply (in_map fst) in Hin. exact Hin.
    + apply IH; assumption.
Qed.

Lemma unique_keys_dict (items : dict) :
  unique_keys (JDict items)
  <-> NoDup (map fst items) /\ Forall (fun kv => unique_keys (snd kv)) items.
Proof.
  cbn [unique_keys].
  enough (E : (fix all (l : dict) : Prop :=
                 match l with
                 | [] => True
                 | kv :: r => unique_keys (snd kv) /\ all r
                 end) items
              <-> Forall (fun kv => unique_keys (snd kv)) items) by tauto.
  induction items as [|kv r IH].
  - split; [constructor | trivial].
  - split.
    + intros [H1 H2]. constructor; [exact H1 | apply IH, H2].
    + intros H. inversion H; subst. split; [assumption | apply IH; assumption].
Qed.

(** A leaf is where its path says, when keys are unique. *)
Lemma leaves_sound (x : json) :
  unique_keys x ->
  forall p v, In (p, v) (leaves x) ->
              lookup x p = Some v /\ isinstance_dict v = false.
Proof.
  induction x as [| | | | |l _|items IH] using json_nested_ind;
    intros Hu p v Hin;
    try (cbn in Hin; destruct Hin as [[= <- <-] | []]; split; reflexivity).
  apply unique_keys_dict in Hu as [Hnd Hall].
  rewrite leaves_dict_unfold in Hin.
  apply in_flat_map in Hin as ([k v0] & Hkv & Hin).
  cbn [fst snd] in Hin. apply in_map_iff in Hin as ([q w] & [= <- <-] & Hq).
  cbn [lookup]. rewrite (in_dict_get _ _ _ Hnd Hkv).
  rewrite Forall_forall in IH, Hall.
  apply (IH _ Hkv (Hall _ Hkv) q w Hq).
Qed.

(** Every value that is not a mapping is a leaf. *)
Lemma leaves_complete (x : json) :
  forall p v, lookup x p = Some v -> isinstance_dict v = false ->
              In (p, v) (leaves x).
Proof.
  induction x as [| | | | |l _|items IH] using json_nested_ind;
    intros p v H Hleaf;
    try (destruct p; [injection H as <-; left; reflexivity | discriminate H]).
  destruct p as [|k p].
  - cbn in H. injection H as <-. discriminate Hleaf.
  - cbn [lookup] in H.
    destruct (dict_get k items) as [v0|] eqn:Hk; [|discriminate H].
    apply dict_get_in in Hk.
    rewrite leaves_dict_unfold. apply in_flat_map.
    exists (k, v0). split; [exact Hk|].
    cbn [fst snd]. apply in_map_iff. exists (p, v). split; [reflexivity|].
    rewrite Forall_forall in IH. apply (IH _ Hk p v H Hleaf).
Qed.

Lemma nodup_map_cons (k : string) (ps : list (list string)) :
  NoDup ps -> NoDup (map (cons k) ps).
Proof.
  induction 1 as [|p r Hnot Hnd IH]; cbn; constructor; [|exact IH].
  intros Hin. apply in_map_iff in Hin as (q & [= ->] & Hq). contradiction.
Qed.

(** The paths of the leaves are pairwise different, when keys are
    unique. *)
Lemma leaves_nodup (x : json) :
  unique_keys x -> NoDup (map fst (leaves x)).
Proof.
  induction x as [| | | | |l _|items IH] using json_nested_ind;
    intros Hu; try (cbn; constructor; [intros [] | constructor]).
  apply unique_keys_dict in Hu as [Hnd Hall].
  rewrite leaves_dict_unfold.
  induction items as [|[k v] r IHr]; [constructor|].
  cbn [flat_map fst snd map] in *.
  inversion IH as [|? ? Hv IHrest]; subst.
  inversion Hall as [|? ? Huv Hallr]; subst.
  apply NoDup_cons_iff in Hnd as [Hnot Hndr].
  rewrite map_app, map_map. cbn [fst].
  apply NoDup_app.
  - rewrite <- (map_map fst (cons k)). apply nodup_map_cons, Hv, Huv.
  - apply IHr; assumption.
  - intros p Hp Hq.
    apply in_map_iff in Hp as ([q w] & <- & _). cbn [fst] in Hq.
    apply in_map_iff in Hq as ([q' w'] & Hq' & Hin). cbn [fst] in Hq'. subst q'.
    apply in_flat_map in Hin as ([k' v'] & Hkv & Hin).
    cbn [fst snd] in Hin.
    apply in_map_iff in Hin as ([q'' w''] & [= -> _ _] & _).
    apply Hnot. apply (in_map fst) in Hkv. exact Hkv.
Qed.

Lemma is_prefix_app (p q : list string) :
  is_prefix p q = true -> exists r, q = p ++ r.
Proof.
  revert q. induction p as [|a p IH]; intros q H; [exists q; reflexivity|].
  destruct q as [|b q]; [discriminate H|].
  cbn in H. apply andb_prop in H as [E H].
  apply String.eqb_eq in E. subst b.
  destruct (IH _ H) as [r ->]. exists r. reflexivity.
Qed.

(** Two different leaf paths are incomparable: what is below a leaf does
    not resolve. *)
Lemma leaf_paths_incomparable (x : json) (p q : list string) (v w : json) :
  lookup x p = Some v -> isinstance_dict v = false ->
  lookup x q = Some w -> isinstance_dict w = false ->
  p <> q -> incomparable p q.
Proof.
  assert (Half : forall p q v w,
             lookup x p = Some v -> isinstance_dict v = false ->
             lookup x q = Some w -> p <> q -> is_prefix p q = false).
  { clear. intros p q v w Hp Hv Hq Hne.
    destruct (is_prefix p q) eqn:E; [|reflexivity].
    exfalso. apply is_prefix_app in E as [r ->].
    rewrite lookup_app, Hp in Hq.
    destruct r as [|a r]; [apply Hne; rewrite app_nil_r; reflexivity|].
    destruct v; try discriminate Hq. discriminate Hv. }
  intros Hp Hv Hq Hw Hne. split.
  - apply (Half p q v w); assumption.
  - apply (Half q p w v); try assumption. intros E. apply Hne. symmetry. exact E.
Qed.

Lemma leaves_incomparable (x : json) :
  unique_keys x -> paths_incomparable (map fst (leaves x)).
Proof.
  intros Hu.
  pose proof (leaves_nodup x Hu) as Hnd.
  pose proof (leaves_sound x Hu) as Hs.
  induction (leaves x) as [|[p v] r IH]; [exact I|].
  cbn [map fst paths_incomparable] in *.
  apply NoDup_cons_iff in Hnd as [Hnot Hnd].
  split.
  - apply Forall_forall. intros q Hq.
    apply in_map_iff in Hq as ([q' w] & <- & Hin). cbn [fst].
    destruct (Hs p v (or_introl eq_refl)) as [Hp Hv].
    destruct (Hs q' w (or_intror Hin)) as [Hq Hw].
    apply (leaf_paths_incomparable x p q' v w Hp Hv Hq Hw).
    intros ->. apply Hnot. apply (in_map fst) in Hin. exact Hin.
  - apply IH; [exact Hnd|]. intros p' v' Hin. apply Hs. right. exact Hin.
Qed.

Lemma unique_keys_lookup (p : list string) :
  forall x v, unique_keys x -> lookup x p = Some v -> unique_keys v.
Proof.
  induction p as [|k p IH]; intros x v Hu H.
  - cbn in H. injection H as <-. exact Hu.
  - destruct x as [|b|z|f|s|l|d]; try discriminate H.
    cbn [lookup] in H.
    destruct (dict_get k d) as [y|] eqn:Hk; [|discriminate H].
    apply unique_keys_dict in Hu as [_ Hall].
    rewrite Forall_forall in Hall.
    apply (IH y v); [|exact H].
    apply (Hall (k, y)), dict_get_in, Hk.
Qed.

Lemma leaves_of_dict_nonempty (items : dict) (p : list string) (v : json) :
  In (p, v) (leaves (JDict items)) -> p <> [].
Proof.
  rewrite leaves_dict_unfold. intros Hin.
  apply in_flat_map in Hin as (kv & _ & Hin).
  apply in_map_iff in Hin as (e & [= <- _] & _). discriminate.
Qed.

Lemma dict_set_shape (k : string) (v w : json) (d : dict) :
  dict_get k d = Some w -> shape_of v = shape_of w ->
  shape_of (JDict (dict_set k v d)) = shape_of (JDict d).
Proof.
  intros Hk Hs. rewrite !shape_dict_unfold. f_equal.
  induction d as [|[k' v'] r IH]; [discriminate Hk|].
  cbn in Hk |- *. destruct (String.eqb k k').
  - injection Hk as ->. cbn. rewrite Hs. reflexivity.
  - cbn. rewrite (IH Hk). reflexivity.
Qed.

(** An assignment that replaces a value by one of the same shape keeps the
    shape of the whole. *)
Lemma setitem_path_shape (p : list string) :
  forall (x x' : json) (k : string) (v w : json),
    setitem_path x p k v = Ok x' ->
    lookup x (p ++ [k]) = Some w -> shape_of v = shape_of w ->
    shape_of x' = shape_of x.
Proof.
  induction p as [|k0 r IH]; intros x x' k v w H Hw Hs.
  - cbn [setitem_path] in H. apply py_setitem_ok in H as (d & -> & ->).
    cbn in Hw. destruct (dict_get k d) as [y|] eqn:Hk; [|discriminate Hw].
    injection Hw as ->. apply (dict_set_shape k v w d Hk Hs).
  - cbn [setitem_path] in H.
    destruct (py_getitem x k0) as [sub|e] eqn:Hg; [|discriminate H].
    apply py_getitem_ok in Hg as (d & -> & Hd). cbn [bind] in H.
    destruct (setitem_path sub r k v) as [sub'|e] eqn:Hsub; [|discriminate H].
    cbn in H. injection H as <-.
    cbn [app lookup] in Hw. rewrite Hd in Hw.
    apply (dict_set_shape k0 sub' sub d Hd).
    apply (IH sub sub' k v w Hsub Hw Hs).
Qed.

Section EditorFacts.
Variable py_int : string -> option Z.
Variable py_float : string -> option pyfloat.

Lemma converted_value_is_leaf (last_key text : string) :
  shape_of (converted_value py_int py_float last_key text) = Leaf.
Proof.
  unfold converted_value.
  destruct (negb (String.eqb last_key "Version")); [|reflexivity].
  destruct (py_int text); [reflexivity|].
  destruct (py_float text); reflexivity.
Qed.

Lemma store_entry_inv (data data' : json) (path : list string) (text : string) :
  store_entry py_int py_float data (path, text) = Ok data' ->
  exists d c c',
    data = JDict d /\ dict_get "Components" d = Some c /\ path <> []
    /\ setitem_path c (removelast path) (last path "")
         (converted_value py_int py_float (last path "") text) = Ok c'
    /\ data' = JDict (dict_set "Components" c' d).
Proof.
  unfold store_entry. intros H.
  destruct (py_getitem data "Components") as [components|x] eqn:Hc;
    [|discriminate H].
  apply py_getitem_ok in Hc as (d & -> & Hd).
  cbn [bind] in H.
  destruct (getitem_path components (removelast path)); [|discriminate H].
  cbn [bind] in H.
  destruct path as [|k0 rest]; [discriminate H|].
  set (path := k0 :: rest) in *.
  assert (Hne : path <> []) by discriminate. clearbody path.
  destruct (setitem_path components (removelast path) (last path "")
              (converted_value py_int py_float (last path "") text))
    as [components'|x] eqn:Hs; [|destruct (last path ""); discriminate H].
  assert (H' : py_setitem (JDict d) "Components" components' = Ok data').
  { destruct (last path ""); exact H. }
  cbn in H'. injection H' as <-.
  exists d, components, components'. auto.
Qed.

(** A turn of the loop returns when the path of the entry resolves under
    ["Components"]. *)
Lemma store_entry_succeeds (data : json) (path : list string) (text : string)
  (w : json) :
  path <> [] -> lookup data ("Components" :: path) = Some w ->
  exists data', store_entry py_int py_float data (path, text) = Ok data'.
Proof.
  intros Hne Hw.
  destruct data as [|b|z|f|s|l|d]; try discriminate Hw.
  cbn [lookup] in Hw.
  destruct (dict_get "Components" d) as [c|] eqn:Hd; [|discriminate Hw].
  rewrite (app_removelast_last "" Hne) in Hw.
  apply lookup_snoc_some in Hw as (dd & Hdd & _).
  destruct (setitem_path_succeeds _ c dd (last path "")
              (converted_value py_int py_float (last path "") text) Hdd)
    as [c' Hc'].
  exists (JDict (dict_set "Components" c' d)).
  unfold store_entry. cbn [py_getitem]. rewrite Hd. cbn [bind].
  rewrite (proj2 (getitem_path_lookup _ _ _) Hdd). cbn [bind].
  rewrite Hc'. cbn [bind py_setitem].
  destruct path; [contradiction Hne; reflexivity|].
  destruct (last (s :: path) ""); reflexivity.
Qed.

(** A turn on a leaf keeps the shape of the document and what is outside
    ["Components"]. *)
Lemma store_entry_frame (data data' : json) (path : list string)
  (text : string) (w : json) :
  store_entry py_int py_float data (path, text) = Ok data' ->
  lookup data ("Components" :: path) = Some w -> isinstance_dict w = false ->
  shape_of data' = shape_of data
  /\ (forall k q, String.eqb k "Components" = false ->
                  lookup data' (k :: q) = lookup data (k :: q)).
Proof.
  intros H Hw Hleaf.
  apply store_entry_inv in H as (d & c & c' & -> & Hd & Hne & Hs & ->).
  split.
  - apply (dict_set_shape "Components" c' c d Hd).
    cbn [lookup] in Hw. rewrite Hd in Hw.
    rewrite (app_removelast_last "" Hne) in Hw.
    apply (setitem_path_shape _ _ _ _ _ w Hs Hw).
    rewrite converted_value_is_leaf. destruct w; try reflexivity.
    discriminate Hleaf.
  - intros k q Hk. apply lookup_dict_set_other, Hk.
Qed.

Lemma pairwise_incomparable_paths (entries : list entry) :
  paths_incomparable (map fst entries) -> pairwise_incomparable entries.
Proof.
  induction entries as [|e r IH]; [trivial|].
  cbn [map paths_incomparable pairwise_incomparable].
  intros [Hhere Hrest]. split; [|apply IH, Hrest].
  rewrite Forall_forall in Hhere |- *. intros e' Hin.
  apply Hhere, in_map, Hin.
Qed.

(** The loop over entries that sit on distinct leaves returns, and keeps
    the shape of the document and what is outside ["Components"]. *)
Lemma loop_on_leaves (entries : list entry) :
  forall data,
    pairwise_incomparable entries ->
    Forall (fun e => fst e <> []
                     /\ exists w, lookup data ("Components" :: fst e) = Some w
                                  /\ isinstance_dict w = false) entries ->
    exists data',
      save_component_json_loop py_int py_float entries data = Ok data'
      /\ shape_of data' = shape_of data
      /\ (forall k q, String.eqb k "Components" = false ->
                      lookup data' (k :: q) = lookup data (k :: q)).
Proof.
  induction entries as [|[path text] r IH]; intros data Hinc Hall.
  - exists data. auto.
  - destruct Hinc as [Hhere Hrest].
    inversion Hall as [|? ? [Hne (w & Hw & Hleaf)] Hr]; subst.
    cbn [fst] in *.
    destruct (store_entry_succeeds data path text w Hne Hw) as [d1 H1].
    destruct (store_entry_frame _ _ _ _ _ H1 Hw Hleaf) as [Hshape Hout].
    destruct (IH d1 Hrest) as (data' & Hloop & Hshape' & Hout').
    { rewrite Forall_forall in Hr, Hhere |- *. intros e Hin.
      destruct (Hr e Hin) as [Hne' (w' & Hw' & Hleaf')].
      split; [exact Hne'|]. exists w'. split; [|exact Hleaf'].
      rewrite <- Hw'.
      apply (proj2 (store_entry_ok _ _ _ _ _ H1)). apply (Hhere e Hin). }
    exists data'. cbn [save_component_json_loop]. rewrite H1. cbn [bind].
    split; [exact Hloop|]. split.
    + rewrite Hshape'. exact Hshape.
    + intros k q Hk. rewrite (Hout' k q Hk). apply (Hout k q Hk).
Qed.
End EditorFacts.

(** X12.  On a document whose mappings have pairwise different keys, the
    entry widgets that [populate_frames] creates are exactly the values
    under ["Components"] that are not mappings, each under its key path
    from ["Components"]; no path gets two widgets and no widget path is a
    prefix of another one. *)
Theorem populate_frames_entries_are_leaves (data : json)
  (widgets : list (list string * json)) :
  unique_keys data ->
  populate_frames data = Ok widgets ->
  (forall p v, In (p, v) widgets
               <-> lookup data ("Components" :: p) = Some v
                   /\ isinstance_dict v = false)
  /\ NoDup (map fst widgets)
  /\ paths_incomparable (map fst widgets).
Proof.
  intros Hu H.
  assert (Hsplit : forall p, lookup data ("Components" :: p)
                   = match lookup data ["Components"] with
                     | Some y => lookup y p
                     | None => None
                     end)
    by (intros p; apply (lookup_app ["Components"] p data)).
  apply populate_frames_inv in H as [[-> Hnone] | (items & Hc & ->)].
  - split; [|split; [constructor | exact I]].
    intros p v. rewrite Hsplit, Hnone. split; [contradiction|].
    intros [E _]. discriminate E.
  - pose proof (unique_keys_lookup _ _ _ Hu Hc) as Hui.
    split; [|split].
    + intros p v. rewrite Hsplit, Hc. split.
      * apply (leaves_sound _ Hui).
      * intros [Hp Hv]. apply leaves_complete; assumption.
    + apply leaves_nodup, Hui.
    + apply leaves_incomparable, Hui.
Qed.

Lemma sample_editor_document_unique_keys : unique_keys sample_editor_document.
Proof.
  cbn. repeat split;
    repeat (apply NoDup_cons; [cbn; intuition discriminate|]);
    apply NoDup_nil.
Qed.

Lemma populate_frames_entries_are_leaves_witness :
  populate_frames sample_editor_document
  = Ok [(["Battery"; "Specifications"; "Chemistry"], JStr "Lipo");
        (["Battery"; "Specifications"; "Number of cells"], JInt 4);
        (["Battery"; "Notes"], JStr "");
        (["Flight Controller"; "Firmware"; "Type"], JStr "ArduCopter");
        (["Flight Controller"; "Firmware"; "Version"], JStr "4.5.1")]
  /\ (In (["Battery"; "Notes"], JStr "")
        [(["Battery"; "Specifications"; "Chemistry"], JStr "Lipo");
         (["Battery"; "Specifications"; "Number of cells"], JInt 4);
         (["Battery"; "Notes"], JStr "");
         (["Flight Controller"; "Firmware"; "Type"], JStr "ArduCopter");
         (["Flight Controller"; "Firmware"; "Version"], JStr "4.5.1")]
      <-> lookup sample_editor_document ["Components"; "Battery"; "Notes"]
          = Some (JStr "")
          /\ isinstance_dict (JStr "") = false).
Proof.
  split; [reflexivity|].
  apply (populate_frames_entries_are_leaves sample_editor_document _
           sample_editor_document_unique_keys eq_refl).
Defined.

Section EditorWriteBack.
Variable py_int : string -> option Z.
Variable py_float : string -> option pyfloat.

(** X13.  After [populate_frames] has created the entry widgets of a
    document with pairwise different keys, the write-back loop of
    [save_component_json] over these widgets returns whatever texts they
    hold: no turn raises.  The document it leaves has every entry's
    converted value at the entry's path, the same keys in the same order
    with mappings where mappings were, and the same values outside
    ["Components"]. *)
Theorem write_back_after_populate_returns (data : json)
  (widgets : list (list string * json)) (entries : list entry) :
  unique_keys data ->
  populate_frames data = Ok widgets ->
  map fst entries = map fst widgets ->
  exists data',
    save_component_json_loop py_int py_float entries data = Ok data'
    /\ (forall e, In e entries ->
          lookup data' ("Components" :: fst e)
          = Some (expected_entry_value py_int py_float e))
    /\ shape_of data' = shape_of data
    /\ (forall k q, String.eqb k "Components" = false ->
                    lookup data' (k :: q) = lookup data (k :: q)).
Proof.
  intros Hu H Hpaths.
  assert (Hinc : pairwise_incomparable entries
          /\ Forall (fun e => fst e <> []
                       /\ exists w, lookup data ("Components" :: fst e) = Some w
                                    /\ isinstance_dict w = false) entries).
  { apply populate_frames_inv in H as [[-> Hnone] | (items & Hc & ->)].
    - destruct entries; [split; [exact I | constructor] | discriminate Hpaths].
    - pose proof (unique_keys_lookup _ _ _ Hu Hc) as Hui. split.
      + apply pairwise_incomparable_paths. rewrite Hpaths.
        apply leaves_incomparable, Hui.
      + apply Forall_forall. intros e Hin.
        apply (in_map fst) in Hin. rewrite Hpaths in Hin.
        apply in_map_iff in Hin as ([p v] & Hp & Hin). cbn [fst] in Hp.
        rewrite <- Hp. split; [apply (leaves_of_dict_nonempty _ _ _ Hin)|].
        exists v.
        change ("Components" :: p) with (["Components"] ++ p).
        rewrite lookup_app, Hc.
        apply (leaves_sound _ Hui _ _ Hin). }
  destruct Hinc as [Hinc Hall].
  destruct (loop_on_leaves py_int py_float entries data Hinc Hall)
    as (data' & Hloop & Hshape & Hout).
  exists data'. split; [exact Hloop|]. split; [|split; assumption].
  apply (loop_stores_entries py_int py_float entries data data' Hinc Hloop).
Qed.
End EditorWriteBack.

Lemma write_back_after_populate_returns_witness :
  exists data',
    save_component_json_loop sample_int sample_float
      [(["Battery"; "Specifications"; "Chemistry"], " Li-ion ");
       (["Battery"; "Specifications"; "Number of cells"], "6");
       (["Battery"; "Notes"], "spare");
       (["Flight Controller"; "Firmware"; "Type"], "ArduPlane");
       (["Flight Controller"; "Firmware"; "Version"], "4.6.0 ")]
      sample_editor_document = Ok data'
    /\ lookup data' ["Components"; "Battery"; "Specifications"; "Number of cells"]
       = Some (JInt 6)
    /\ lookup data' ["Components"; "Battery"; "Specifications"; "Chemistry"]
       = Some (JStr "Li-ion")
    /\ lookup data' ["Components"; "Flight Controller"; "Firmware"; "Version"]
       = Some (JStr "4.6.0 ")
    /\ shape_of data' = shape_of sample_editor_document.
Proof.
  destruct (write_back_after_populate_returns sample_int sample_float
              sample_editor_document _
              [(["Battery"; "Specifications"; "Chemistry"], " Li-ion ");
               (["Battery"; "Specifications"; "Number of cells"], "6");
               (["Battery"; "Notes"], "spare");
               (["Flight Controller"; "Firmware"; "Type"], "ArduPlane");
               (["Flight Controller"; "Firmware"; "Version"], "4.6.0 ")]
              sample_editor_document_unique_keys eq_refl eq_refl)
    as (data' & Hloop & Hstored & Hshape & _).
  exists data'. split; [exact Hloop|].
  split; [|split; [|split; [|exact Hshape]]].
  - apply (Hstored (["Battery"; "Specifications"; "Number of cells"], "6")).
    right. left. reflexivity.
  - apply (Hstored (["Battery"; "Specifications"; "Chemistry"], " Li-ion ")).
    left. reflexivity.
  - apply (Hstored (["Flight Controller"; "Firmware"; "Version"], "4.6.0 ")).
    do 4 right. left. reflexivity.
Defined.

(** ** Component templates *)

Lemma getitem_path_raises (p : list string) :
  forall x c, getitem_path x p = Raise c -> key_or_type_error c = true.
Proof.
  induction p as [|k p IH]; intros x c H; [discriminate H|].
  cbn [getitem_path] in H.
  destruct x as [|b|z|f|s|l|d]; cbn in H; try (injection H as <-; reflexivity).
  destruct (dict_get k d) as [v|]; cbn in H.
  - apply (IH v c H).
  - injection H as <-. reflexivity.
Qed.

Lemma setitem_path_ok_mapping (p : list string) :
  forall (x x' : json) (k : string) (v : json),
    setitem_path x p k v = Ok x' -> exists m, lookup x p = Some (JDict m).
Proof.
  induction p as [|k0 r IH]; intros x x' k v H.
  - cbn in H. apply py_setitem_ok in H as (d & -> & _). exists d. reflexivity.
  - cbn [setitem_path] in H.
    destruct (py_getitem x k0) as [sub|e] eqn:Hg; [|discriminate H].
    apply py_getitem_ok in Hg as (d & -> & Hd). cbn [bind] in H.
    destruct (setitem_path sub r k v) as [sub'|e] eqn:Hsub; [|discriminate H].
    cbn [lookup]. rewrite Hd. apply (IH _ _ _ _ Hsub).
Qed.

(** An assignment of a value that is not a mapping makes no new mapping. *)
Lemma setitem_path_no_new_mapping (p : list string) :
  forall (x x' : json) (k : string) (v : json) (q : list string) (m : dict),
    setitem_path x p k v = Ok x' -> isinstance_dict v = false ->
    lookup x' q = Some (JDict m) -> exists m0, lookup x q = Some (JDict m0).
Proof.
  induction p as [|k0 r IH]; intros x x' k v q m H Hv Hq.
  - cbn in H. apply py_setitem_ok in H as (d & -> & ->).
    destruct q as [|a q]; [exists d; reflexivity|].
    cbn [lookup] in Hq |- *. rewrite dict_get_set in Hq.
    destruct (String.eqb a k); [|exists m; exact Hq].
    destruct q; [injection Hq as ->; discriminate Hv|].
    destruct v; discriminate.
  - cbn [setitem_path] in H.
    destruct (py_getitem x k0) as [sub|e] eqn:Hg; [|discriminate H].
    apply py_getitem_ok in Hg as (d & -> & Hd). cbn [bind] in H.
    destruct (setitem_path sub r k v) as [sub'|e] eqn:Hsub; [|discriminate H].
    cbn in H. injection H as <-.
    destruct q as [|a q]; [exists d; reflexivity|].
    cbn [lookup] in Hq |- *. rewrite dict_get_set in Hq.
    destruct (String.eqb a k0) eqn:E; [|exists m; exact Hq].
    apply String.eqb_eq in E. subst a. rewrite Hd.
    apply (IH _ _ _ _ _ _ Hsub Hv Hq).
Qed.

(** Storing the value that is there already changes nothing. *)
Lemma setitem_path_same (p : list string) :
  forall (x : json) (k : string) (v : json),
    lookup x (p ++ [k]) = Some v -> setitem_path x p k v = Ok x.
Proof.
  induction p as [|k0 r IH]; intros x k v H.
  - destruct x as [|b|z|f|s|l|d]; try discriminate H.
    cbn in H |- *. destruct (dict_get k d) as [y|] eqn:Hk; [|discriminate H].
    injection H as ->. rewrite (dict_set_same _ _ _ Hk). reflexivity.
  - destruct x as [|b|z|f|s|l|d]; try discriminate H.
    cbn [app lookup] in H. cbn [setitem_path py_getitem].
    destruct (dict_get k0 d) as [sub|] eqn:Hd; [|discriminate H].
    cbn [bind]. rewrite (IH _ _ _ H). cbn.
    rewrite (dict_set_same _ _ _ Hd). reflexivity.
Qed.

Section TemplateFacts.
Variable py_str : json -> string.
Variable entry_replace : entry -> string -> string.
Variable py_int : string -> option Z.
Variable py_float : string -> option pyfloat.

Lemma converted_value_not_mapping (last_key text : string) :
  isinstance_dict (converted_value py_int py_float last_key text) = false.
Proof.
  unfold converted_value.
  destruct (negb (String.eqb last_key "Version")); [|reflexivity].
  destruct (py_int text); [reflexivity|].
  destruct (py_float text); reflexivity.
Qed.

(** A turn of the refresh never raises; it rewrites the text of an entry
    of the component whose path resolves in the template data, and no
    other. *)
Lemma refresh_entry_ok (component_name : string) (template_data : json)
  (e : entry) :
  exists e',
    refresh_entry py_str entry_replace component_name template_data e = Ok e'
    /\ fst e' = fst e
    /\ snd e' = match (if starts_with [component_name] (fst e)
                       then lookup template_data (tl (fst e)) else None) with
                | Some value => entry_replace e (text_of py_str value)
                | None => snd e
                end.
Proof.
  unfold refresh_entry, starts_with. destruct e as [[|first rest] text].
  - exists ([], text). auto.
  - cbn [fst snd tl existsb]. rewrite orb_false_r.
    destruct (String.eqb first component_name);
      [|exists (first :: rest, text); auto].
    destruct (getitem_path template_data rest) as [value|c] eqn:Hg.
    + apply getitem_path_lookup in Hg. rewrite Hg. eexists. auto.
    + rewrite (getitem_path_raises _ _ _ Hg).
      destruct (lookup template_data rest) as [value|] eqn:Hl.
      * apply getitem_path_lookup in Hl. rewrite Hl in Hg. discriminate Hg.
      * exists (first :: rest, text). auto.
Qed.

Lemma refresh_entries_ok (component_name : string) (template_data : json)
  (entry_widgets : list entry) :
  exists entry_widgets',
    refresh_entries py_str entry_replace component_name template_data
      entry_widgets = Ok entry_widgets'
    /\ Forall2 (fun e e' =>
         fst e' = fst e
         /\ snd e' = match (if starts_with [component_name] (fst e)
                            then lookup template_data (tl (fst e)) else None) with
                     | Some value => entry_replace e (text_of py_str value)
                     | None => snd e
                     end) entry_widgets entry_widgets'.
Proof.
  induction entry_widgets as [|e r (r' & Hr & Hall)].
  - exists []. split; [reflexivity | constructor].
  - destruct (refresh_entry_ok component_name template_data e) as (e' & He & Hfst).
    exists (e' :: r'). cbn [refresh_entries]. rewrite He. cbn [bind].
    rewrite Hr. cbn [bind]. split; [reflexivity|].
    constructor; assumption.
Qed.

(** What a call of [apply_component_template] with a template that has
    data does. *)
Lemma apply_component_template_inv (data : json) (entry_widgets : list entry)
  (component_name : string) (template template_data : json)
  (out : json * list entry * option string) :
  lookup template ["data"] = Some template_data ->
  apply_component_template py_str entry_replace data entry_widgets
    component_name template = Ok out ->
  exists d components entry_widgets' message,
    data = JDict d /\ dict_get "Components" d = Some (JDict components)
    /\ out = (JDict (dict_set "Components"
                       (JDict (dict_set component_name template_data components))
                       d),
              entry_widgets', Some message)
    /\ refresh_entries py_str entry_replace component_name template_data
         entry_widgets = Ok entry_widgets'.
Proof.
  intros Ht H.
  destruct template as [|b|z|f|s|l|t]; try discriminate Ht.
  cbn in Ht. destruct (dict_get "data" t) as [td|] eqn:Htd; [|discriminate Ht].
  injection Ht as ->.
  unfold apply_component_template in H. cbn [py_in bind] in H.
  unfold dict_mem in H. rewrite Htd in H. cbn [negb py_getitem] in H.
  rewrite Htd in H. cbn [bind] in H.
  destruct (setitem_path data ["Components"] component_name template_data)
    as [data'|e] eqn:Hs; [|discriminate H].
  cbn [bind] in H. cbn [setitem_path] in Hs.
  destruct (py_getitem data "Components") as [sub|e] eqn:Hg; [|discriminate Hs].
  apply py_getitem_ok in Hg as (d & -> & Hd). cbn [bind] in Hs.
  destruct (py_setitem sub component_name template_data) as [sub'|e] eqn:Hsub;
    [|discriminate Hs].
  apply py_setitem_ok in Hsub as (components & -> & ->).
  cbn in Hs. injection Hs as <-.
  destruct (refresh_entries py_str entry_replace component_name template_data
              entry_widgets) as [entry_widgets'|e] eqn:Hr; [|discriminate H].
  cbn in H. injection H as <-.
  exists d, components, entry_widgets'. eexists. auto.
Qed.

(** A turn of the write-back has a mapping at the parent of its path. *)
Lemma store_entry_ok_parent (data data' : json) (path : list string)
  (text : string) :
  store_entry py_int py_float data (path, text) = Ok data' ->
  exists m, lookup data ("Components" :: removelast path) = Some (JDict m).
Proof.
  intros H.
  apply (store_entry_inv py_int py_float) in H
    as (d & c & c' & -> & Hd & _ & Hs & _).
  cbn [lookup]. rewrite Hd. apply (setitem_path_ok_mapping _ _ _ _ _ Hs).
Qed.

Lemma store_entry_no_new_mapping (data data' : json) (e : entry)
  (q : list string) (m : dict) :
  store_entry py_int py_float data e = Ok data' ->
  lookup data' ("Components" :: q) = Some (JDict m) ->
  exists m0, lookup data ("Components" :: q) = Some (JDict m0).
Proof.
  destruct e as [path text]. intros H Hq.
  apply (store_entry_inv py_int py_float) in H
    as (d & c & c' & -> & Hd & _ & Hs & ->).
  cbn [lookup] in Hq |- *. rewrite dict_get_set in Hq. cbn in Hq. rewrite Hd.
  apply (setitem_path_no_new_mapping _ _ _ _ _ _ _ Hs
           (converted_value_not_mapping _ _) Hq).
Qed.

(** The write-back raises when the parent of an entry's path is not a
    mapping of the document. *)
Lemma loop_raises_without_parent (entries : list entry) :
  forall (data : json) (e : entry),
    In e entries ->
    (forall m, lookup data ("Components" :: removelast (fst e)) <> Some (JDict m)) ->
    exists x, save_component_json_loop py_int py_float entries data = Raise x.
Proof.
  induction entries as [|e0 r IH]; intros data e Hin Hno; [contradiction Hin|].
  cbn [save_component_json_loop].
  destruct (store_entry py_int py_float data e0) as [d1|x] eqn:Hs;
    [|exists x; reflexivity].
  cbn [bind]. destruct Hin as [-> | Hin].
  - destruct e as [path text].
    destruct (store_entry_ok_parent _ _ _ _ Hs) as [m Hm].
    exfalso. apply (Hno m Hm).
  - apply (IH d1 e Hin). intros m Hm.
    destruct (store_entry_no_new_mapping _ _ _ _ _ Hs Hm) as [m0 Hm0].
    apply (Hno m0 Hm0).
Qed.

(** A turn that stores the value that is there changes nothing. *)
Lemma store_entry_same (data : json) (path : list string) (text : string) :
  path <> [] ->
  lookup data ("Components" :: path)
  = Some (converted_value py_int py_float (last path "") text) ->
  store_entry py_int py_float data (path, text) = Ok data.
Proof.
  intros Hne Hw.
  destruct data as [|b|z|f|s|l|d]; try discriminate Hw.
  cbn [lookup] in Hw.
  destruct (dict_get "Components" d) as [c|] eqn:Hd; [|discriminate Hw].
  rewrite (app_removelast_last "" Hne) in Hw at 1.
  pose proof (setitem_path_same _ _ _ _ Hw) as Hs.
  apply lookup_snoc_some in Hw as (dd & Hdd & _).
  unfold store_entry. cbn [py_getitem]. rewrite Hd. cbn [bind].
  rewrite (proj2 (getitem_path_lookup _ _ _) Hdd). cbn [bind].
  rewrite Hs. cbn [bind py_setitem]. rewrite (dict_set_same _ _ _ Hd).
  destruct path; [contradiction Hne; reflexivity|].
  destruct (last (s :: path) ""); reflexivity.
Qed.
End TemplateFacts.

Section TemplateProperties.
Variable py_str : json -> string.
Variable entry_replace : entry -> string -> string.
Variable py_int : string -> option Z.
Variable py_float : string -> option pyfloat.

(** X14.  Applying a template that has data to a document whose
    ["Components"] is a mapping returns: the refresh of the entries never
    raises.  The component then holds the template data, every path that
    is not above or below the component is as before, and the entries keep
    their paths and order; an entry shows the text of the value at its
    path if the path starts with the component and resolves in the new
    document, and keeps its text otherwise. *)
Theorem apply_component_template_effect (data : json)
  (entry_widgets : list entry) (component_name : string)
  (template template_data : json) (components : dict) :
  lookup template ["data"] = Some template_data ->
  lookup data ["Components"] = Some (JDict components) ->
  exists data' entry_widgets' message,
    apply_component_template py_str entry_replace data entry_widgets
      component_name template = Ok (data', entry_widgets', Some message)
    /\ lookup data' ["Components"; component_name] = Some template_data
    /\ (forall q, incomparable ["Components"; component_name] q ->
                  lookup data' q = lookup data q)
    /\ Forall2 (fun e e' =>
         fst e' = fst e
         /\ snd e' = match (if starts_with [component_name] (fst e)
                            then lookup data' ("Components" :: fst e)
                            else None) with
                     | Some value => entry_replace e (text_of py_str value)
                     | None => snd e
                     end) entry_widgets entry_widgets'.
Proof.
  intros Ht Hc.
  destruct (refresh_entries_ok py_str entry_replace component_name
              template_data entry_widgets) as (entry_widgets' & Hr & Hall).
  destruct template as [|b|z|f|s|l|t]; try discriminate Ht.
  destruct data as [|b|z|f|s|l|d]; try discriminate Hc.
  cbn in Ht, Hc.
  destruct (dict_get "data" t) as [td|] eqn:Htd; [|discriminate Ht].
  injection Ht as ->.
  destruct (dict_get "Components" d) as [c|] eqn:Hd; [|discriminate Hc].
  injection Hc as ->.
  assert (Hs : setitem_path (JDict d) ["Components"] component_name template_data
               = Ok (JDict (dict_set "Components"
                              (JDict (dict_set component_name template_data
                                        components)) d))).
  { cbn. rewrite Hd. reflexivity. }
  eexists _, entry_widgets', _.
  split; [|split; [|split]].
  - unfold apply_component_template. cbn [py_in bind]. unfold dict_mem.
    rewrite Htd. cbn [negb py_getitem]. rewrite Htd. cbn [bind].
    rewrite Hs. cbn [bind]. rewrite Hr. cbn [bind py_get]. reflexivity.
  - apply (lookup_setitem_path_same _ _ _ _ _ Hs).
  - intros q Hq. apply (lookup_setitem_path_other _ _ _ _ _ _ Hs Hq).
  - eapply Forall2_impl; [|exact Hall].
    intros [path text] e' [Hfst Hsnd]. split; [exact Hfst|].
    rewrite Hsnd. cbn [fst snd].
    destruct path as [|first rest]; [reflexivity|].
    unfold starts_with. cbn [existsb tl]. rewrite orb_false_r.
    destruct (String.eqb first component_name) eqn:E; [|reflexivity].
    apply String.eqb_eq in E. subst first.
    cbn [lookup]. rewrite dict_get_set. cbn. rewrite dict_get_set.
    rewrite String.eqb_refl. reflexivity.
Qed.

(** X15.  After a template has been applied whose data has no mapping
    where an entry of the component has its parent, the write-back loop of
    [save_component_json] raises, whatever the entries hold: the entries of
    the component outlive the template, and the loop walks their paths. *)
Theorem write_back_raises_after_partial_template (data : json)
  (entry_widgets : list entry) (component_name : string)
  (template template_data : json)
  (out : json * list entry * option string)
  (path : list string) (entries : list entry) :
  lookup template ["data"] = Some template_data ->
  apply_component_template py_str entry_replace data entry_widgets
    component_name template = Ok out ->
  In (component_name :: path) (map fst entry_widgets) ->
  path <> [] ->
  (forall m, lookup template_data (removelast path) <> Some (JDict m)) ->
  map fst entries = map fst (snd (fst out)) ->
  exists x,
    save_component_json_loop py_int py_float entries (fst (fst out)) = Raise x.
Proof.
  intros Ht H Hin Hne Hno Hpaths.
  apply (apply_component_template_inv _ _ _ _ _ _ _ _ Ht) in H
    as (d & components & entry_widgets' & message & -> & Hd & -> & Hr).
  cbn [fst snd] in *.
  destruct (refresh_entries_ok py_str entry_replace component_name
              template_data entry_widgets) as (w & Hw & Hall).
  rewrite Hr in Hw. injection Hw as <-.
  assert (Hsame : map fst entry_widgets' = map fst entry_widgets).
  { clear - Hall. induction Hall as [|e e' r r' [He _] _ IH]; [reflexivity|].
    cbn. rewrite He, IH. reflexivity. }
  rewrite <- Hsame, <- Hpaths in Hin.
  apply in_map_iff in Hin as (e & He & Hin).
  apply (loop_raises_without_parent py_int py_float entries _ e Hin).
  rewrite He. intros m Hm.
  destruct path as [|k rest]; [contradiction Hne; reflexivity|].
  change (removelast (component_name :: k :: rest))
    with (component_name :: removelast (k :: rest)) in Hm.
  cbn [lookup] in Hm. rewrite dict_get_set in Hm. cbn in Hm.
  rewrite dict_get_set, String.eqb_refl in Hm.
  apply (Hno m Hm).
Qed.

(** X16.  Saving without editing is the identity when every leaf reads
    back: on a document with pairwise different keys, if the write-back
    conversion of each entry's initial text gives the value the entry was
    made from, the loop of [save_component_json] over the unedited entries
    returns the document it started from. *)
Theorem unedited_write_back_is_identity (data : json)
  (widgets : list (list string * json)) :
  unique_keys data ->
  populate_frames data = Ok widgets ->
  Forall (reads_back py_str py_int py_float) widgets ->
  save_component_json_loop py_int py_float (unedited_entries py_str widgets) data
  = Ok data.
Proof.
  intros Hu H Hall.
  assert (Hleaves : forall p v, In (p, v) widgets ->
            p <> [] /\ lookup data ("Components" :: p) = Some v).
  { apply populate_frames_inv in H as [[-> _] | (items & Hc & ->)];
      [intros p v []|].
    intros p v Hin. split; [apply (leaves_of_dict_nonempty _ _ _ Hin)|].
    change ("Components" :: p) with (["Components"] ++ p).
    rewrite lookup_app, Hc.
    apply (leaves_sound _ (unique_keys_lookup _ _ _ Hu Hc) _ _ Hin). }
  clear H. induction widgets as [|[p v] r IH]; [reflexivity|].
  inversion Hall as [|? ? Hback Hrest]; subst.
  destruct (Hleaves p v (or_introl eq_refl)) as [Hne Hv].
  cbn [unedited_entries map fst snd save_component_json_loop].
  unfold reads_back in Hback. cbn [fst snd] in Hback.
  rewrite (store_entry_same py_int py_float data p _ Hne)
    by (rewrite Hback; exact Hv).
  cbn [bind]. apply IH; [exact Hrest|].
  intros p' v' Hin. apply Hleaves. right. exact Hin.
Qed.
End TemplateProperties.

Lemma apply_component_template_effect_witness :
  exists data' entry_widgets' message,
    apply_component_template sample_str sample_entry_replace
      sample_editor_document (unedited_entries sample_str sample_editor_widgets)
      "Battery" sample_template = Ok (data', entry_widgets', Some message)
    /\ lookup data' ["Components"; "Battery"]
       = Some (JDict [("Specifications",
                       JDict [("Chemistry", JStr "LiIon");
                              ("Number of cells", JInt 4)])])
    /\ lookup data' ["Components"; "Flight Controller"; "Firmware"; "Type"]
       = Some (JStr "ArduCopter").
Proof.
  destruct (apply_component_template_effect sample_str sample_entry_replace
              sample_editor_document
              (unedited_entries sample_str sample_editor_widgets)
              "Battery" sample_template _ _ eq_refl eq_refl)
    as (data' & entry_widgets' & message & Happly & Hcomponent & Hother & _).
  exists data', entry_widgets', message.
  split; [exact Happly|]. split; [exact Hcomponent|].
  rewrite Hother; [reflexivity | split; reflexivity].
Defined.

Lemma write_back_raises_after_partial_template_witness :
  match apply_component_template sample_str sample_entry_replace
          sample_editor_document
          (unedited_entries sample_str sample_editor_widgets)
          "Battery" sample_partial_template with
  | Ok out =>
      exists x,
        save_component_json_loop sample_int sample_float (snd (fst out))
          (fst (fst out)) = Raise x
  | Raise _ => False
  end.
Proof.
  destruct (apply_component_template sample_str sample_entry_replace
              sample_editor_document
              (unedited_entries sample_str sample_editor_widgets)
              "Battery" sample_partial_template) as [out|e] eqn:H;
    [|vm_compute in H; discriminate H].
  apply (write_back_raises_after_partial_template sample_str
           sample_entry_replace sample_int sample_float
           sample_editor_document
           (unedited_entries sample_str sample_editor_widgets)
           "Battery" sample_partial_template
           (JDict [("Notes", JStr "spare")]) out
           ["Specifications"; "Chemistry"] (snd (fst out)) eq_refl H).
  - left. reflexivity.
  - discriminate.
  - intros m. discriminate.
  - reflexivity.
Defined.

Lemma unedited_write_back_is_identity_witness :
  populate_frames sample_editor_document = Ok sample_editor_widgets
  /\ save_component_json_loop sample_int sample_float
       (unedited_entries sample_str sample_editor_widgets)
       sample_editor_document
     = Ok sample_editor_document.
Proof.
  split; [reflexivity|].
  apply (unedited_write_back_is_identity sample_str sample_int sample_float
           sample_editor_document sample_editor_widgets
           sample_editor_document_unique_keys eq_refl).
  repeat constructor.
Defined.

(** ** Saving a component as a template *)

Lemma json_eq_str_true (v : json) (s : string) :
  json_eq_str v s = true -> v = JStr s.
Proof.
  destruct v; try discriminate. cbn. intros E.
  apply String.eqb_eq in E. subst. reflexivity.
Qed.

Lemma py_get_name (template name : json) :
  py_get template "name" JNull = Ok name -> name_of template = Some name.
Proof.
  destruct template; try discriminate. cbn. intros [= <-]. reflexivity.
Qed.

(** A search that finds nothing has seen only mappings of another name. *)
Lemma find_template_none (template_name : string) (l : list json) :
  forall i, find_template template_name l i = Ok None ->
            Forall (fun t => exists n, name_of t = Some n
                                       /\ json_eq_str n template_name = false) l.
Proof.
  induction l as [|t r IH]; intros i H; [constructor|].
  cbn [find_template] in H.
  destruct (py_get t "name" JNull) as [n|e] eqn:Hn; [|discriminate H].
  cbn [bind] in H.
  destruct (json_eq_str n template_name) eqn:E; [discriminate H|].
  constructor; [|apply (IH _ H)].
  exists n. split; [apply py_get_name, Hn | exact E].
Qed.

(** A search that finds an index has stopped at the first template of the
    name. *)
Lemma find_template_some (template_name : string) (l : list json) :
  forall i j, find_template template_name l i = Ok (Some j) ->
    exists before t after,
      l = before ++ t :: after /\ j = i + List.length before
      /\ Forall (fun t => exists n, name_of t = Some n
                                    /\ json_eq_str n template_name = false) before
      /\ name_of t = Some (JStr template_name).
Proof.
  induction l as [|t r IH]; intros i j H; [discriminate H|].
  cbn [find_template] in H.
  destruct (py_get t "name" JNull) as [n|e] eqn:Hn; [|discriminate H].
  cbn [bind] in H. apply py_get_name in Hn.
  destruct (json_eq_str n template_name) eqn:E.
  - injection H as <-. apply json_eq_str_true in E. subst n.
    exists [], t, r. cbn. rewrite Nat.add_0_r. auto.
  - destruct (IH _ _ H) as (before & t' & after & -> & -> & Hall & Ht').
    exists (t :: before), t', after. cbn [app List.length].
    rewrite Nat.add_succ_r. repeat split; try assumption; try reflexivity.
    constructor; [|exact Hall]. exists n. auto.
Qed.

Lemma list_set_at (before : list json) (t v : json) (after : list json) :
  list_set (List.length before) v (before ++ t :: after) = Ok (before ++ v :: after).
Proof.
  induction before as [|x r IH]; [reflexivity|].
  cbn [List.length app list_set]. rewrite IH. reflexivity.
Qed.

Lemma first_named_at (template_name : string) (before : list json) (t : json)
  (after : list json) :
  Forall (fun t => exists n, name_of t = Some n
                             /\ json_eq_str n template_name = false) before ->
  name_of t = Some (JStr template_name) ->
  first_named template_name (before ++ t :: after) = Some t.
Proof.
  intros Hall Ht. induction Hall as [|x r (n & Hn & E) _ IH].
  - cbn. rewrite Ht. cbn. rewrite String.eqb_refl. reflexivity.
  - cbn [app first_named]. rewrite Hn, E. exact IH.
Qed.

Lemma first_named_none (template_name : string) (l : list json) :
  Forall (fun t => exists n, name_of t = Some n
                             /\ json_eq_str n template_name = false) l ->
  first_named template_name l = None
  /\ ~ In (Some (JStr template_name)) (map name_of l).
Proof.
  induction 1 as [|x r (n & Hn & E) _ [IH1 IH2]]; [split; [reflexivity | intros []]|].
  cbn [first_named map]. rewrite Hn, E. split; [exact IH1|].
  intros [Hx | Hin]; [|exact (IH2 Hin)].
  injection Hx as ->. cbn in E. rewrite String.eqb_refl in E. discriminate E.
Qed.

Section SaveAsTemplateFacts.
Variable manager_save : json -> result (bool * string).

(** The two ways [store_template] hands templates to the manager. *)
Lemma store_template_inv (templates : json) (component_name : string)
  (new_template : json) (template_name : string) (confirm : bool)
  (outcome : template_outcome) (templates' : json) :
  store_template manager_save templates component_name new_template
    template_name confirm = Ok outcome ->
  saved_templates outcome = Some templates' ->
  exists d items,
    templates = JDict d /\ dict_get component_name d = Some (JList items)
    /\ ((exists before t after,
           items = before ++ t :: after
           /\ Forall (fun t => exists n, name_of t = Some n
                        /\ json_eq_str n template_name = false) before
           /\ name_of t = Some (JStr template_name)
           /\ confirm = true
           /\ outcome = TemplateUpdated templates'
           /\ templates' = JDict (dict_set component_name
                                    (JList (before ++ new_template :: after)) d))
        \/ (Forall (fun t => exists n, name_of t = Some n
                      /\ json_eq_str n template_name = false) items
            /\ outcome = TemplateSaved templates'
            /\ templates' = JDict (dict_set component_name
                                     (JList (items ++ [new_template])) d))).
Proof.
  unfold store_template. intros H Hsaved.
  destruct (py_getitem templates component_name) as [existing|e] eqn:Hg;
    [|discriminate H].
  apply py_getitem_ok in Hg as (d & -> & Hd). cbn [bind] in H.
  destruct existing as [|b|z|f|s|items|m]; try discriminate H.
  exists d, items. split; [reflexivity|]. split; [exact Hd|].
  destruct (find_template template_name items 0) as [[i|]|e] eqn:Hf;
    cbn [bind] in H; [| |discriminate H].
  - left.
    apply find_template_some in Hf as (before & t & after & -> & -> & Hall & Ht).
    cbn [Nat.add] in H.
    destruct confirm; [|injection H as <-; discriminate Hsaved].
    rewrite list_set_at in H. cbn [bind py_setitem] in H.
    destruct (manager_save _); [|discriminate H].
    cbn [bind] in H. injection H as <-. cbn in Hsaved. injection Hsaved as <-.
    exists before, t, after. auto 10.
  - right. apply find_template_none in Hf.
    cbn [py_setitem bind] in H.
    destruct (manager_save _); [|discriminate H].
    cbn [bind] in H. injection H as <-. cbn in Hsaved. injection Hsaved as <-.
    auto.
Qed.

(** X17.  Whenever [save_component_as_template] hands templates to the
    manager, a name was entered and the component has data; in the
    templates handed over, the first template of that name under the
    component is the new one, made of the name and the component's data,
    and the templates of the other components are as loaded.  A loaded
    template of the same name is replaced only with the user's
    confirmation, with the list keeping its length; and a list whose
    names were pairwise different keeps them so. *)
Theorem saved_template_is_first_of_its_name (data : json)
  (component_name : string) (asked : option string) (confirm : bool)
  (loaded : json) (outcome : template_outcome) (templates' : json) :
  save_component_as_template manager_save data component_name asked confirm
    loaded = Ok outcome ->
  saved_templates outcome = Some templates' ->
  exists template_name component_data items',
    asked = Some template_name /\ template_name <> ""
    /\ lookup data ["Components"; component_name] = Some component_data
    /\ py_truthy component_data = true
    /\ lookup templates' [component_name] = Some (JList items')
    /\ first_named template_name items'
       = Some (JDict [("name", JStr template_name); ("data", component_data)])
    /\ (forall k q, String.eqb k component_name = false ->
                    lookup templates' (k :: q) = lookup loaded (k :: q))
    /\ (forall items t,
          lookup loaded [component_name] = Some (JList items) ->
          first_named template_name items = Some t ->
          confirm = true /\ List.length items' = List.length items)
    /\ (forall items,
          lookup loaded [component_name] = Some (JList items) ->
          NoDup (map name_of items) -> NoDup (map name_of items')).
Proof.
  unfold save_component_as_template. intros H Hsaved.
  destruct (py_getitem data "Components") as [components|e] eqn:Hg;
    [|discriminate H].
  apply py_getitem_ok in Hg as (d & -> & Hd). cbn [bind] in H.
  destruct components as [|b|z|f|s|l|comps]; try discriminate H.
  cbn [py_get bind] in H.
  destruct (py_truthy (match dict_get component_name comps with
                       | Some v => v
                       | None => JDict []
                       end)) eqn:Htruthy;
    [|injection H as <-; discriminate Hsaved].
  cbn [negb] in H.
  destruct (dict_get component_name comps) as [component_data|] eqn:Hcd;
    [|discriminate Htruthy].
  destruct asked as [template_name|]; [|injection H as <-; discriminate Hsaved].
  destruct (String.eqb template_name "") eqn:Hname;
    [injection H as <-; discriminate Hsaved|].
  apply String.eqb_neq in Hname.
  destruct (py_in component_name loaded) as [b|e] eqn:Hin; [|discriminate H].
  cbn [bind] in H.
  destruct (if negb b then py_setitem loaded component_name (JList [])
            else Ok loaded) as [templates|e] eqn:Ht; [|discriminate H].
  cbn [bind] in H.
  apply (store_template_inv _ _ _ _ _ _ _ H) in Hsaved
    as (dt & items & -> & Hitems & Hcases).
  assert (Hloaded : exists ld,
             loaded = JDict ld
             /\ (forall k, String.eqb k component_name = false ->
                           dict_get k dt = dict_get k ld)
             /\ (forall items0, dict_get component_name ld = Some (JList items0) ->
                                items0 = items)).
  { destruct b; cbn [negb] in Ht.
    - injection Ht as ->. exists dt. split; [reflexivity|].
      split; [reflexivity|]. intros items0 H0. rewrite H0 in Hitems.
      injection Hitems as ->. reflexivity.
    - apply py_setitem_ok in Ht as (ld & -> & [= ->]).
      exists ld. split; [reflexivity|]. split.
      + intros k Hk. rewrite dict_get_set, Hk. reflexivity.
      + intros items0 H0. cbn in Hin. injection Hin as Hin.
        unfold dict_mem in Hin. rewrite H0 in Hin. discriminate Hin. }
  destruct Hloaded as (ld & -> & Hother & Hsame).
  exists template_name, component_data.
  destruct Hcases as [(before & t & after & -> & Hall & Hnamed & -> & _ & ->)
                     | (Hall & _ & ->)].
  - exists (before ++ JDict [("name", JStr template_name);
                            ("data", component_data)] :: after).
    split; [reflexivity|]. split; [exact Hname|].
    split; [cbn; rewrite Hd; cbn; rewrite Hcd; reflexivity|].
    split; [exact Htruthy|].
    split; [cbn; rewrite dict_get_set, String.eqb_refl; reflexivity|].
    split; [apply (first_named_at _ _ _ _ Hall); reflexivity|].
    split; [intros k q Hk; cbn [lookup];
            rewrite dict_get_set, Hk, (Hother k Hk); reflexivity|].
    split.
    + intros items t0 Hl _. cbn in Hl.
      destruct (dict_get component_name ld) as [y|] eqn:Hy; [|discriminate Hl].
      injection Hl as ->. rewrite (Hsame _ eq_refl).
      split; [reflexivity|]. rewrite !List.length_app. reflexivity.
    + intros items Hl Hnd. cbn in Hl.
      destruct (dict_get component_name ld) as [y|] eqn:Hy; [|discriminate Hl].
      injection Hl as ->. rewrite (Hsame _ eq_refl) in Hnd.
      rewrite map_app in Hnd |- *. cbn [map] in Hnd |- *.
      rewrite Hnamed in Hnd. exact Hnd.
  - exists (items ++ [JDict [("name", JStr template_name);
                             ("data", component_data)]]).
    destruct (first_named_none _ _ Hall) as [Hnone Hnotin].
    split; [reflexivity|]. split; [exact Hname|].
    split; [cbn; rewrite Hd; cbn; rewrite Hcd; reflexivity|].
    split; [exact Htruthy|].
    split; [cbn; rewrite dict_get_set, String.eqb_refl; reflexivity|].
    split.
    { clear - Hall. induction Hall as [|x r (n & Hn & E) _ IH].
      - cbn. rewrite String.eqb_refl. reflexivity.
      - cbn [app first_named]. rewrite Hn, E. exact IH. }
    split; [intros k q Hk; cbn [lookup];
            rewrite dict_get_set, Hk, (Hother k Hk); reflexivity|].
    split.
    + intros items0 t0 Hl Hfirst. cbn in Hl.
      destruct (dict_get component_name ld) as [y|] eqn:Hy; [|discriminate Hl].
      injection Hl as ->. rewrite (Hsame _ eq_refl), Hnone in Hfirst.
      discriminate Hfirst.
    + intros items0 Hl Hnd. cbn in Hl.
      destruct (dict_get component_name ld) as [y|] eqn:Hy; [|discriminate Hl].
      injection Hl as ->. rewrite (Hsame _ eq_refl) in Hnd.
      rewrite map_app. apply NoDup_app; [exact Hnd | |].
      * cbn. constructor; [intros [] | constructor].
      * intros a Ha [<- | []]. exact (Hnotin Ha).
Qed.
End SaveAsTemplateFacts.

Lemma saved_template_is_first_of_its_name_witness :
  save_component_as_template (fun _ => Ok (false, "")) sample_editor_document
    "Battery" (Some "6S pack") true sample_templates
  = Ok (TemplateUpdated
          (JDict [("Battery",
                   JList [JDict [("name", JStr "4S pack"); ("data", JDict [])];
                          JDict [("name", JStr "6S pack");
                                 ("data",
                                  JDict [("Specifications",
                                          JDict [("Chemistry", JStr "Lipo");
                                                 ("Number of cells", JInt 4)]);
                                         ("Notes", JStr "")])]])]))
  /\ exists template_name component_data items',
       Some "6S pack" = Some template_name
       /\ lookup sample_editor_document ["Components"; "Battery"]
          = Some component_data
       /\ first_named template_name items'
          = Some (JDict [("name", JStr template_name);
                         ("data", component_data)])
       /\ List.length items' = 2.
Proof.
  split; [reflexivity|].
  destruct (saved_template_is_first_of_its_name (fun _ => Ok (false, ""))
              sample_editor_document "Battery" (Some "6S pack") true
              sample_templates _ _ eq_refl eq_refl)
    as (template_name & component_data & items' & Hasked & _ & Hdata & _ & _
        & Hfirst & _ & Hlength & _).
  exists template_name, component_data, items'.
  split; [exact Hasked|]. split; [exact Hdata|]. split; [exact Hfirst|].
  injection Hasked as <-.
  apply (Hlength _ (JDict [("name", JStr "6S pack"); ("data", JDict [])])
           eq_refl eq_refl).
Defined.

(** ** Saving the templates file *)

(** X18.  [save_component_templates] reports one failure only: it returns
    [(False, "")] when the directory and the file are written, and
    [(True, message)] with the path of the file in the message when the
    first failure is a [FileNotFoundError]; an exception of any other
    class leaves the call.  So a write that fails with, say, a
    [PermissionError] raises here, while
    [save_vehicle_components_json_data] turns the same failure into an
    error message. *)
Theorem save_component_templates_reports_only_missing_file
  (os_path_join : string -> string -> string) (templates_dir : string)
  (os_makedirs : string -> option py_exception)
  (write_json : string -> json -> option py_exception) (templates : json) :
  save_component_templates os_path_join templates_dir os_makedirs write_json
    templates
  = match write_templates templates_dir os_makedirs write_json
            (os_path_join templates_dir templates_filename) templates with
    | None => Ok (false, "")
    | Some e =>
        match exc_class e with
        | FileNotFoundError =>
            Ok (true,
                ("Failed to save templates to file '"
                 ++ os_path_join templates_dir templates_filename
                 ++ "': File not found")%string)
        | c => Raise c
        end
    end
  /\ (forall e,
        os_makedirs templates_dir = Some e ->
        exc_class e <> FileNotFoundError ->
        save_component_templates os_path_join templates_dir os_makedirs
          write_json templates = Raise (exc_class e))
  /\ (forall e vehicle_dir,
        os_makedirs templates_dir = None ->
        write_json (os_path_join templates_dir templates_filename) templates
        = Some e ->
        write_json (os_path_join vehicle_dir vehicle_components_json_filename)
          templates = Some e ->
        exc_class e <> FileNotFoundError ->
        save_component_templates os_path_join templates_dir os_makedirs
          write_json templates = Raise (exc_class e)
        /\ exists message,
             save_vehicle_components_json_data os_path_join write_json
               templates vehicle_dir = Ok (true, message)).
Proof.
  assert (Hraise : forall e,
            write_templates templates_dir os_makedirs write_json
              (os_path_join templates_dir templates_filename) templates = Some e ->
            exc_class e <> FileNotFoundError ->
            save_component_templates os_path_join templates_dir os_makedirs
              write_json templates = Raise (exc_class e)).
  { intros e He Hne. unfold save_component_templates. rewrite He.
    destruct (exc_class e); try reflexivity. contradiction Hne; reflexivity. }
  split; [|split].
  - unfold save_component_templates.
    destruct (write_templates _ _ _ _ _) as [[c s]|]; [|reflexivity].
    destruct c; cbn; rewrite ?append_empty_right; reflexivity.
  - intros e He Hne. apply Hraise; [|exact Hne].
    unfold write_templates. rewrite He. reflexivity.
  - intros e vehicle_dir Hdir Hw Hw' Hne. split.
    + apply Hraise; [|exact Hne]. unfold write_templates. rewrite Hdir. exact Hw.
    + unfold save_vehicle_components_json_data. rewrite Hw'.
      destruct (exc_class e); cbn; eexists; reflexivity.
Qed.

Lemma save_component_templates_reports_only_missing_file_witness :
  save_component_templates (fun a b => (a ++ "/" ++ b)%string) "templates"
    (fun _ => None)
    (fun _ _ => Some (mk_exception PermissionError "read-only file system"))
    sample_templates = Raise PermissionError
  /\ exists message,
       save_vehicle_components_json_data (fun a b => (a ++ "/" ++ b)%string)
         (fun _ _ => Some (mk_exception PermissionError "read-only file system"))
         sample_templates "vehicle" = Ok (true, message).
Proof.
  apply (proj2 (proj2 (save_component_templates_reports_only_missing_file
                         (fun a b => (a ++ "/" ++ b)%string) "templates"
                         (fun _ => None)
                         (fun _ _ => Some (mk_exception PermissionError
                                             "read-only file system"))
                         sample_templates))
           (mk_exception PermissionError "read-only file system") "vehicle"
           eq_refl eq_refl eq_refl).
  discriminate.
Defined.

(** ** The vehicle type of [main] *)

(** X19.  The vehicle type [main] goes on with is never the empty string:
    it is the type given on the command line when one is given, else the
    type detected on the flight controller when that is not empty, else
    ["ArduCopter"]. *)
Theorem vehicle_type_is_never_empty (args_vehicle_type : string)
  (detected : option string) :
  choose_vehicle_type args_vehicle_type detected <> ""
  /\ (args_vehicle_type <> "" ->
      choose_vehicle_type args_vehicle_type detected = args_vehicle_type)
  /\ (forall t, args_vehicle_type = "" -> detected = Some t -> t <> "" ->
                choose_vehicle_type args_vehicle_type detected = t)
  /\ (args_vehicle_type = "" -> detected = None \/ detected = Some "" ->
      choose_vehicle_type args_vehicle_type detected = "ArduCopter").
Proof.
  unfold choose_vehicle_type.
  split; [|split; [|split]].
  - destruct (String.eqb args_vehicle_type "") eqn:Ha.
    + destruct detected as [t|].
      * destruct (String.eqb t "") eqn:Ht; [discriminate|].
        apply String.eqb_neq, Ht.
      * rewrite Ha. discriminate.
    + rewrite Ha. apply String.eqb_neq, Ha.
  - intros Hne. apply String.eqb_neq in Hne. rewrite !Hne. reflexivity.
  - intros t -> -> Hne. apply String.eqb_neq in Hne. cbn. rewrite Hne.
    reflexivity.
  - intros -> [-> | ->]; reflexivity.
Qed.

Lemma vehicle_type_is_never_empty_witness :
  choose_vehicle_type "" (Some "Rover") = "Rover"
  /\ choose_vehicle_type "" (Some "") = "ArduCopter"
  /\ choose_vehicle_type "ArduPlane" (Some "Rover") = "ArduPlane".
Proof.
  split; [|split].
  - apply (proj1 (proj2 (proj2 (vehicle_type_is_never_empty "" (Some "Rover"))))
             "Rover" eq_refl eq_refl).
    discriminate.
  - apply (proj2 (proj2 (proj2 (vehicle_type_is_never_empty "" (Some ""))))
             eq_refl).
    right. reflexivity.
  - apply (proj1 (proj2 (vehicle_type_is_never_empty "ArduPlane" (Some "Rover")))).
    discriminate.
Defined.

(** ** The migration and the firmware queries *)

(** The flight controller before and after a run that returns: the
    document had one, and the result has it unchanged or rebuilt around the
    same firmware. *)
Lemma run_flight_controller_values (version : string) (d d' : json) :
  migration_run version d d' ->
  exists fcv fcv',
    lookup d flight_controller_path = Some fcv
    /\ lookup d' flight_controller_path = Some fcv'
    /\ (fcv' = fcv
        \/ exists fc product firmware notes,
             fcv = JDict fc /\ dict_get "Firmware" fc = Some firmware
             /\ fcv' = rebuilt_flight_controller product firmware notes).
Proof.
  intros [d1 d2 d3 d4 d5 d6 d7 d8 d9 d10 d11 d12
          H1 H2 H3 H4 H5 H6 H7 H8 H9 H10 H11 H12 H13].
  unfold flight_controller_path.
  assert (H12' : exists fcv,
             lookup d12 ["Components"; "Flight Controller"] = Some fcv
             /\ fcv <> JDict []
             /\ lookup d' ["Components"; "Flight Controller"]
                = Some (match fcv with
                        | JDict fc =>
                            match dict_get "Specifications" fc,
                                  dict_get "Product" fc,
                                  dict_get "Firmware" fc,
                                  dict_get "Notes" fc with
                            | None, Some p, Some f, Some n =>
                                rebuilt_flight_controller p f n
                            | _, _, _, _ => fcv
                            end
                        | _ => fcv
                        end)).
  { apply rebuild_flight_controller_inv in H13
      as [[Hc ->] | (l & c & fc & p & f & n & -> & Hd & Hfc & Hs & Hp & Hf & Hn & ->)].
    - apply contains_at_inv in Hc as (fcv & Hl & Hin).
      exists fcv. split; [exact Hl|]. split.
      + intros ->. discriminate Hin.
      + rewrite Hl. f_equal. destruct fcv as [|b|z|f|s|l|fc]; try reflexivity.
        cbn in Hin. unfold dict_mem in Hin.
        destruct (dict_get "Specifications" fc); [reflexivity | discriminate Hin].
    - exists (JDict fc). split; [cbn; rewrite Hd; cbn; rewrite Hfc; reflexivity|].
      split; [intros [= ->]; discriminate Hp|].
      rewrite Hs, Hp, Hf, Hn. cbn. rewrite dict_get_set. cbn.
      rewrite dict_get_set. reflexivity. }
  destruct H12' as (fcv & Hfc & Hne & Hfc').
  assert (Hfc11 : lookup d11 ["Components"; "Flight Controller"] = Some fcv).
  { apply ensure_at_inv in H12 as [[_ ->] | [_ Hs]]; [exact Hfc|].
    pose proof (lookup_setitem_path_same _ _ _ _ _ Hs) as Hnew.
    cbn [app] in Hnew. rewrite Hnew in Hfc.
    injection Hfc as <-. contradiction Hne; reflexivity. }
  rewrite (stamp_exact _ _ _ "Components" _ H11 eq_refl) in Hfc11.
  rewrite (rename_gnss_exact _ _ "Flight Controller" [] H10 eq_refl) in Hfc11.
  rewrite (ensure_at_other _ _ _ _ _ _ H9) in Hfc11 by (split; reflexivity).
  rewrite (ensure_at_other _ _ _ _ _ _ H8) in Hfc11 by (split; reflexivity).
  rewrite (ensure_at_other _ _ _ _ _ _ H7) in Hfc11 by (split; reflexivity).
  rewrite (ensure_at_other _ _ _ _ _ _ H6) in Hfc11 by (split; reflexivity).
  rewrite (ensure_at_other _ _ _ _ _ _ H5) in Hfc11 by (split; reflexivity).
  rewrite (ensure_at_other _ _ _ _ _ _ H4) in Hfc11 by (split; reflexivity).
  rewrite (ensure_at_other _ _ _ _ _ _ H3) in Hfc11 by (split; reflexivity).
  rewrite (ensure_at_other _ _ _ _ _ _ H2) in Hfc11 by (split; reflexivity).
  assert (Hfc0 : lookup d ["Components"; "Flight Controller"] = Some fcv).
  { apply ensure_at_inv in H1 as [[_ ->] | [_ Hs]]; [exact Hfc11|].
    cbn [setitem_path] in Hs. apply py_setitem_ok in Hs as (l & -> & ->).
    cbn in Hfc11. rewrite dict_get_set in Hfc11. cbn in Hfc11.
    discriminate Hfc11. }
  exists fcv. eexists. split; [exact Hfc0|]. split; [exact Hfc'|].
  destruct fcv as [|b|z|f|s|l|fc]; try (left; reflexivity).
  destruct (dict_get "Specifications" fc); [left; reflexivity|].
  destruct (dict_get "Product" fc) as [p|]; [|left; reflexivity].
  destruct (dict_get "Firmware" fc) as [f|] eqn:Hf; [|left; reflexivity].
  destruct (dict_get "Notes" fc) as [n|]; [|left; reflexivity].
  right. exists fc, p, f, n. auto.
Qed.

(** Both queries start from the flight controller of the document. *)
Lemma components_with_flight_controller (d fcv : json) :
  lookup d flight_controller_path = Some fcv ->
  exists c, components_or_none d = Ok (JDict c)
            /\ py_truthy (JDict c) = true
            /\ py_get (JDict c) "Flight Controller" (JDict []) = Ok fcv.
Proof.
  unfold flight_controller_path. intros H.
  destruct d as [|b|z|f|s|l|dd]; try discriminate H.
  cbn [lookup] in H.
  destruct (dict_get "Components" dd) as [cv|] eqn:Hc; [|discriminate H].
  destruct cv as [|b|z|f|s|l|c]; try discriminate H.
  destruct (dict_get "Flight Controller" c) as [y|] eqn:Hfc; [|discriminate H].
  injection H as ->.
  exists c. unfold components_or_none.
  assert (Ht : py_truthy (JDict dd) = true)
    by (destruct dd; [discriminate Hc | reflexivity]).
  rewrite Ht. cbn [py_in bind]. unfold dict_mem. rewrite Hc.
  cbn [py_getitem]. rewrite Hc.
  split; [reflexivity|]. split.
  - destruct c; [discriminate Hfc | reflexivity].
  - cbn. rewrite Hfc. reflexivity.
Qed.

(** X20.  The migration does not change what the document reports about
    the firmware: whenever it returns, the firmware type query and the
    firmware version query give on the result what they give on the
    document, be it a value or an exception. *)
Theorem migration_keeps_reported_firmware (version : string) (d d' : json) :
  update_vehicle_components version d = Ok d' ->
  get_fc_fw_type_from_vehicle_components_json d'
  = get_fc_fw_type_from_vehicle_components_json d
  /\ get_fc_fw_version_from_vehicle_components_json d'
     = get_fc_fw_version_from_vehicle_components_json d.
Proof.
  intros H.
  destruct (py_truthy d) eqn:Ht.
  - apply (update_run _ _ _ Ht), run_flight_controller_values in H
      as (fcv & fcv' & Hfc & Hfc' & Hrel).
    destruct (components_with_flight_controller _ _ Hfc) as (c & Hc & Htc & Hg).
    destruct (components_with_flight_controller _ _ Hfc')
      as (c' & Hc' & Htc' & Hg').
    unfold get_fc_fw_type_from_vehicle_components_json,
      get_fc_fw_version_from_vehicle_components_json.
    rewrite Hc, Hc'. cbn [bind]. rewrite Htc, Htc', Hg, Hg'. cbn [bind].
    destruct Hrel as [-> | (fc & p & f & n & -> & Hf & ->)];
      [split; reflexivity|].
    cbn [py_get rebuilt_flight_controller dict_get]. rewrite Hf. cbn.
    split; reflexivity.
  - rewrite (update_falsy _ _ Ht) in H. injection H as <-.
    unfold get_fc_fw_type_from_vehicle_components_json,
      get_fc_fw_version_from_vehicle_components_json, components_or_none.
    rewrite Ht. split; reflexivity.
Qed.

Lemma migration_keeps_reported_firmware_witness :
  exists d',
    update_vehicle_components sample_version sample_old_document = Ok d'
    /\ get_fc_fw_type_from_vehicle_components_json d'
       = get_fc_fw_type_from_vehicle_components_json sample_old_document
    /\ get_fc_fw_version_from_vehicle_components_json d'
       = get_fc_fw_version_from_vehicle_components_json sample_old_document.
Proof.
  eexists. split; [reflexivity|].
  apply (migration_keeps_reported_firmware sample_version sample_old_document).
  reflexivity.
Defined.

(** ** The wipe and the entries of the editor *)

Lemma cleared_not_mapping (v : json) :
  isinstance_dict v = false -> leaves (cleared v) = [([], cleared v)].
Proof. destruct v; try reflexivity. discriminate. Qed.

(** The leaves of a cleared mapping are the cleared leaves. *)
Lemma leaves_cleared (x : json) :
  leaves (_recursively_clear_dict x)
  = match x with
    | JDict _ => map (fun e => (fst e, cleared (snd e))) (leaves x)
    | _ => leaves x
    end.
Proof.
  induction x as [| | | | |l _|items IH] using json_nested_ind;
    try reflexivity.
  rewrite clear_dict_unfold, !leaves_dict_unfold.
  induction IH as [|[k v] r Hv _ IHr]; [reflexivity|].
  cbn [map flat_map fst snd]. rewrite map_app, IHr. f_equal.
  rewrite map_map. cbn [fst snd] in Hv |- *.
  destruct v as [|b|z|f|s|l|m]; try reflexivity.
  change (cleared (JDict m)) with (_recursively_clear_dict (JDict m)).
  rewrite Hv, map_map. reflexivity.
Qed.

(** X21.  Wiping keeps the form of the editor: [populate_frames] on the
    wiped document creates the entries it creates on the document, under
    the same paths and in the same order, each from the cleared value; and
    it raises on the one exactly when it raises on the other. *)
Theorem wipe_keeps_entry_widgets (d : json) :
  populate_frames (wipe_component_info d)
  = (widgets <- populate_frames d ;;
     Ok (map (fun w => (fst w, cleared (snd w))) widgets)).
Proof.
  destruct d as [|b|z|f|s|l|dd]; try reflexivity.
  - cbn. destruct (str_contains "Components" s); reflexivity.
  - unfold wipe_component_info, populate_frames. cbn [_recursively_clear_dict py_in bind].
    destruct (existsb (fun e => json_eq_str e "Components") l); reflexivity.
  - unfold wipe_component_info. rewrite clear_dict_unfold.
    unfold populate_frames. cbn [py_in bind py_getitem]. unfold dict_mem.
    rewrite dict_get_cleared.
    destruct (dict_get "Components" dd) as [c|]; cbn [option_map bind];
      [|reflexivity].
    destruct c as [|b|z|f|s|l|items]; try reflexivity.
    change (cleared (JDict items)) with (_recursively_clear_dict (JDict items)).
    pose proof (leaves_cleared (JDict items)) as Hl.
    rewrite clear_dict_unfold in Hl |- *. cbn [py_items bind]. f_equal.
    transitivity (leaves (JDict (map (fun kv => (fst kv, cleared (snd kv))) items))).
    + rewrite leaves_dict_unfold. apply flat_map_ext. intros [k v].
      cbn [fst snd]. rewrite add_widget_leaves. reflexivity.
    + rewrite Hl. f_equal.
      rewrite leaves_dict_unfold. apply flat_map_ext. intros [k v].
      cbn [fst snd]. rewrite add_widget_leaves. reflexivity.
Qed.
